(** * Cost estimation and field reconciliation of the infrastructure
      marketplace form (src/Updated/app.py)

    The development embeds the price catalogue ([fetch_pricing_skus],
    [get_price_for_resource]), the estimator
    ([estimate_billing_cost_from_api]) and the two widget loops of
    [show_recommendation_page] that keep [editable_rec] and
    [removed_fields] consistent.  It also covers [extract_json],
    [init_session_state], the chatbot submission of [show_input_page]
    and the date fields of the loop over the other options.

    Python values are modelled as they occur in the decoded JSON:
    integers are unbounded ([Z]), floats are IEEE 754 binary64 values
    computed with round-to-nearest-even ([spec_float] at precision 53),
    strings are sequences of 8-bit characters read as ASCII, dicts are
    insertion-ordered association lists.  A Python exception is a value
    of [exn] carried by [result]. *)

From Stdlib Require Import ZArith List String Ascii Bool Lia.
From Stdlib Require Import Floats.SpecFloat.
Import ListNotations.

Local Open Scope string_scope.
Local Open Scope Z_scope.

(* ===================================================================== *)
(** ** Exceptions *)
(* ===================================================================== *)

Inductive exn : Type :=
| ValueError
| TypeError
| OverflowError
| KeyError.

Inductive result (A : Type) : Type :=
| Ok (a : A)
| Raise (e : exn).

Arguments Ok {A} a.
Arguments Raise {A} e.

Definition bind {A B : Type} (c : result A) (k : A -> result B) : result B :=
  match c with
  | Ok a => k a
  | Raise e => Raise e
  end.

Notation "x <- c ;; k" := (bind c (fun x => k))
  (at level 61, c at next level, right associativity).

(** [try: c except Exception: d] for a block whose only effect is its value. *)
Definition try_except {A : Type} (c : result A) (d : A) : A :=
  match c with
  | Ok a => a
  | Raise _ => d
  end.

Definition raises {A : Type} (c : result A) : Prop :=
  exists e, c = Raise e.

(* ===================================================================== *)
(** ** Floats and numbers *)
(* ===================================================================== *)

Module Float.

Definition float : Type := spec_float.

Definition prec : Z := 53.
Definition emax : Z := 1024.

Definition mul : float -> float -> float := SFmul prec emax.
Definition add : float -> float -> float := SFadd prec emax.
Definition div : float -> float -> float := SFdiv prec emax.

Definition zero : float := S754_zero false.

Definition is_zero (f : float) : bool :=
  match f with
  | S754_zero _ => true
  | _ => false
  end.

(** The double nearest to an integer; [S754_infinity] when the integer
    is beyond the largest double. *)
Definition nearest (n : Z) : float := binary_normalize prec emax n 0 false.

(** [float(n)] for a Python int: OverflowError ("int too large to
    convert to float") instead of an infinity. *)
Definition of_int (n : Z) : result float :=
  match nearest n with
  | S754_infinity _ => Raise OverflowError
  | f => Ok f
  end.

(** The double written [n / 10^k] as a decimal literal, for instance
    [dec 3 2] for [0.03]: literals denote the nearest double, which is
    what a correctly rounded division of two exact integers gives. *)
Definition dec (n : Z) (k : Z) : float :=
  match n with
  | Z0 => zero
  | Zpos p => div (S754_finite false p 0) (nearest (10 ^ k))
  | Zneg p => div (S754_finite true p 0) (nearest (10 ^ k))
  end.

(** [1e9] *)
Definition billion : float := nearest 1000000000.

(** [int(f)]: truncation towards zero. *)
Definition trunc (f : float) : result Z :=
  match f with
  | S754_zero _ => Ok 0
  | S754_nan => Raise ValueError
  | S754_infinity _ => Raise OverflowError
  | S754_finite s m e =>
      let a := if 0 <=? e then Z.shiftl (Zpos m) e else Z.shiftr (Zpos m) (- e) in
      Ok (if s then - a else a)
  end.

(** Nearest integer to [a / b] for [b > 0], ties to the even one. *)
Definition div_half_even (a b : Z) : Z :=
  let q := a / b in
  let r := a mod b in
  match 2 * r ?= b with
  | Lt => q
  | Gt => q + 1
  | Eq => if Z.even q then q else q + 1
  end.

(** [round(f, 2)] on a float: the exact binary value is rounded to two
    decimals (half to even), and the decimal is read back as the
    nearest double.  Non-finite values, zeros and integral values round
    to themselves; the sign survives a rounding to zero. *)
Definition round2 (f : float) : float :=
  match f with
  | S754_finite s m e =>
      if 0 <=? e then f
      else
        match div_half_even (Zpos m * 100) (2 ^ (- e)) with
        | Zpos q => div (S754_finite s q 0) (nearest 100)
        | _ => S754_zero s
        end
  | _ => f
  end.

End Float.

Import Float.

(** A Python number as the estimator computes with it: the [int] and
    [float] of the numeric tower. *)
Inductive num : Type :=
| PyInt (z : Z)
| PyFloat (f : float).

Module Num.

Definition to_float (a : num) : result float :=
  match a with
  | PyInt z => Float.of_int z
  | PyFloat f => Ok f
  end.

(** [a * b] *)
Definition mul (a b : num) : result num :=
  match a, b with
  | PyInt x, PyInt y => Ok (PyInt (x * y))
  | _, _ =>
      x <- to_float a ;;
      y <- to_float b ;;
      Ok (PyFloat (Float.mul x y))
  end.

(** [a + b] *)
Definition add (a b : num) : result num :=
  match a, b with
  | PyInt x, PyInt y => Ok (PyInt (x + y))
  | _, _ =>
      x <- to_float a ;;
      y <- to_float b ;;
      Ok (PyFloat (Float.add x y))
  end.

(** [a / b] where [b] is a non-zero float constant. *)
Definition truediv_float (a : num) (b : float) : result num :=
  x <- to_float a ;;
  Ok (PyFloat (Float.div x b)).

(** [bool(a)] *)
Definition truthy (a : num) : bool :=
  match a with
  | PyInt z => negb (z =? 0)
  | PyFloat f => negb (Float.is_zero f)
  end.

(** [round(a, 2)]: an int is returned as it is. *)
Definition round2 (a : num) : num :=
  match a with
  | PyInt z => PyInt z
  | PyFloat f => PyFloat (Float.round2 f)
  end.

(** [a == b] *)
Definition eqb (a b : num) : bool :=
  match a, b with
  | PyInt x, PyInt y => x =? y
  | PyFloat x, PyFloat y => SFeqb x y
  | PyInt x, PyFloat y | PyFloat y, PyInt x =>
      match y with
      | S754_zero _ => x =? 0
      | S754_finite s m e =>
          if 0 <=? e then x =? (if s then - Z.shiftl (Zpos m) e else Z.shiftl (Zpos m) e)
          else (Z.shiftl x (- e) =? (if s then Zneg m else Zpos m))
      | _ => false
      end
  end.

End Num.

(* ===================================================================== *)
(** ** Text *)
(* ===================================================================== *)

Module Text.

Definition code (c : ascii) : N := N_of_ascii c.

Definition is_digit (c : ascii) : bool :=
  ((48 <=? code c) && (code c <=? 57))%N.

Definition digit_value (c : ascii) : Z := Z.of_N (code c) - 48.

(** The blanks that [int] skips around a literal: tab, line feed,
    vertical tab, form feed, carriage return and space. *)
Definition is_space (c : ascii) : bool :=
  (((9 <=? code c) && (code c <=? 13)) || (code c =? 32))%N.

Fixpoint all_space (s : string) : bool :=
  match s with
  | EmptyString => true
  | String c t => is_space c && all_space t
  end.

Fixpoint lstrip (s : string) : string :=
  match s with
  | EmptyString => s
  | String c t => if is_space c then lstrip t else s
  end.

(** [needle in hay] on two strings: substring containment. *)
Fixpoint contains (needle hay : string) : bool :=
  String.prefix needle hay
  || match hay with
     | EmptyString => false
     | String _ t => contains needle t
     end.

(** The digit run of an integer literal in base 10: digits, a single
    underscore allowed between two digits, then only blanks.
    [prev] is the character read last, [None] at the start. *)
Fixpoint int_digits (s : string) (acc : Z) (prev : option ascii) : result Z :=
  match s with
  | EmptyString =>
      match prev with
      | None => Raise ValueError
      | Some p => if Ascii.eqb p "_" then Raise ValueError else Ok acc
      end
  | String c t =>
      if is_digit c then int_digits t (10 * acc + digit_value c) (Some c)
      else if Ascii.eqb c "_" then
        match prev with
        | None => Raise ValueError
        | Some p => if Ascii.eqb p "_" then Raise ValueError
                    else int_digits t acc (Some c)
        end
      else
        match prev with
        | None => Raise ValueError
        | Some p => if Ascii.eqb p "_" then Raise ValueError
                    else if all_space s then Ok acc else Raise ValueError
        end
  end.

(** [int(s)] on a string: blanks, an optional sign, the digit run,
    blanks.  The interpreter's cap on the number of digits of a literal
    (4300 by default) is not modelled. *)
Definition parse_int (s : string) : result Z :=
  match lstrip s with
  | String "+" t => int_digits t 0 None
  | String "-" t => n <- int_digits t 0 None ;; Ok (- n)
  | t => int_digits t 0 None
  end.

(** Decimal digits of a non-negative integer, most significant first;
    [fuel] bounds the number of digits. *)
Fixpoint digits_of (fuel : nat) (n : Z) (acc : string) : string :=
  match fuel with
  | O => acc
  | S fuel' =>
      let acc' := String (ascii_of_N (Z.to_N (48 + n mod 10))) acc in
      if n <? 10 then acc' else digits_of fuel' (n / 10) acc'
  end.

(** [str(n)] on an int. *)
Definition of_int (n : Z) : string :=
  if n <? 0 then String "-" (digits_of (S (Z.to_nat (Z.log2 (- n)))) (- n) "")
  else digits_of (S (Z.to_nat (Z.log2 n))) n "".

End Text.

(* ===================================================================== *)
(** ** Values of the decoded JSON *)
(* ===================================================================== *)

#[local] Set Warnings "-register-all".

Inductive pyval : Type :=
| PNone
| PBool (b : bool)
| PInt (z : Z)
| PFloat (f : float)
| PStr (s : string)
| PList (l : list pyval)
| PDict (d : list (string * pyval)).

Module Py.

(** [bool(v)] *)
Definition truthy (v : pyval) : bool :=
  match v with
  | PNone => false
  | PBool b => b
  | PInt z => negb (z =? 0)
  | PFloat f => negb (Float.is_zero f)
  | PStr s => negb (String.eqb s "")
  | PList l => match l with [] => false | _ => true end
  | PDict d => match d with [] => false | _ => true end
  end.

(** [v or d] *)
Definition or_else (v d : pyval) : pyval :=
  if truthy v then v else d.

(** [int(v)] *)
Definition int (v : pyval) : result Z :=
  match v with
  | PNone => Raise TypeError
  | PBool b => Ok (if b then 1 else 0)
  | PInt z => Ok z
  | PFloat f => Float.trunc f
  | PStr s => Text.parse_int s
  | PList _ => Raise TypeError
  | PDict _ => Raise TypeError
  end.

(** [str(v)] where the text is one the program can act on.  The text of
    a float, a list or a dict is left out ([None]): it begins with a
    digit, a sign, a bracket or a brace, or is [inf] or [nan], and so
    is never a date in [%Y-%m-%d] form nor a key of [gpu_desc_map],
    the only two uses the program makes of it. *)
Definition str (v : pyval) : option string :=
  match v with
  | PNone => Some "None"
  | PBool b => Some (if b then "True" else "False")
  | PInt z => Some (Text.of_int z)
  | PStr s => Some s
  | PFloat _ => None
  | PList _ => None
  | PDict _ => None
  end.

(** [isinstance(v, (dict, list))] *)
Definition is_dict_or_list (v : pyval) : bool :=
  match v with
  | PList _ | PDict _ => true
  | _ => false
  end.

(** A number of the JSON as an operand of arithmetic; [bool] is a
    subtype of [int]; anything else is a TypeError. *)
Definition to_num (v : pyval) : result num :=
  match v with
  | PBool b => Ok (PyInt (if b then 1 else 0))
  | PInt z => Ok (PyInt z)
  | PFloat f => Ok (PyFloat f)
  | _ => Raise TypeError
  end.

End Py.

(* ===================================================================== *)
(** ** Dicts: insertion-ordered association lists *)
(* ===================================================================== *)

Section Dict.

Context {K V : Type}.
Variable keqb : K -> K -> bool.

Definition dict : Type := list (K * V).

(** [d.get(k)] *)
Fixpoint dict_get (d : dict) (k : K) : option V :=
  match d with
  | [] => None
  | (k', v) :: rest => if keqb k' k then Some v else dict_get rest k
  end.

(** [d.get(k, dflt)] *)
Definition dict_get_default (d : dict) (k : K) (dflt : V) : V :=
  match dict_get d k with
  | Some v => v
  | None => dflt
  end.

(** [k in d] *)
Definition dict_mem (d : dict) (k : K) : bool :=
  match dict_get d k with
  | Some _ => true
  | None => false
  end.

(** [d.pop(k, None)], the dict afterwards *)
Fixpoint dict_pop (d : dict) (k : K) : dict :=
  match d with
  | [] => []
  | (k', v) :: rest =>
      if keqb k' k then dict_pop rest k else (k', v) :: dict_pop rest k
  end.

(** [d[k] = v]: an existing key keeps its place, a new one goes last. *)
Fixpoint dict_set (d : dict) (k : K) (v : V) : dict :=
  match d with
  | [] => [(k, v)]
  | (k', v') :: rest =>
      if keqb k' k then (k', v) :: rest else (k', v') :: dict_set rest k v
  end.

End Dict.

Arguments dict : clear implicits.

(* ===================================================================== *)
(** ** Dates: [datetime.strptime(s, "%Y-%m-%d").date()] *)
(* ===================================================================== *)

Module Date.

Record date : Type := mkdate { year : Z; month : Z; day : Z }.

Definition is_leap (y : Z) : bool :=
  (y mod 4 =? 0) && (negb (y mod 100 =? 0) || (y mod 400 =? 0)).

Definition days_in_month (y m : Z) : Z :=
  if m =? 2 then (if is_leap y then 29 else 28)
  else if (m =? 4) || (m =? 6) || (m =? 9) || (m =? 11) then 30
  else 31.

Definition days_before_year (y : Z) : Z :=
  let y1 := y - 1 in
  y1 * 365 + y1 / 4 - y1 / 100 + y1 / 400.

Definition days_before_month (y m : Z) : Z :=
  nth (Z.to_nat m) [0; 0; 31; 59; 90; 120; 151; 181; 212; 243; 273; 304; 334] 0
  + (if (2 <? m) && is_leap y then 1 else 0).

(** [d.toordinal()]: 1 for 0001-01-01. *)
Definition toordinal (d : date) : Z :=
  days_before_year (year d) + days_before_month (year d) (month d) + day d.

(** [(e - s).days] *)
Definition days_between (s e : date) : Z := toordinal e - toordinal s.

(** The date constructor: ValueError for year 0 or a day the month
    does not have. *)
Definition make (y m d : Z) : result date :=
  if (1 <=? y) && (y <=? 9999) && (1 <=? m) && (m <=? 12)
     && (1 <=? d) && (d <=? days_in_month y m)
  then Ok (mkdate y m d)
  else Raise ValueError.

Import Text.

(** The directive [%m]: [1[0-2]|0[1-9]|[1-9]].  The value and the rest
    of the text; the caller insists on the separator that follows, which
    leaves one alternative at most. *)
Definition directive_m (s : string) : option (Z * string) :=
  match s with
  | String c1 t1 =>
      let two :=
        match t1 with
        | String c2 t2 =>
            if Ascii.eqb c1 "1" && is_digit c2 && (digit_value c2 <=? 2)
            then Some (10 + digit_value c2, t2)
            else if Ascii.eqb c1 "0" && is_digit c2 && (1 <=? digit_value c2)
            then Some (digit_value c2, t2)
            else None
        | EmptyString => None
        end in
      match two with
      | Some r => Some r
      | None =>
          if is_digit c1 && (1 <=? digit_value c1)
          then Some (digit_value c1, t1) else None
      end
  | EmptyString => None
  end.

(** The directive [%d]: [3[01]|[12]\d|0[1-9]|[1-9]| [1-9]], the first
    alternative that applies. *)
Definition directive_d (s : string) : option (Z * string) :=
  match s with
  | String c1 t1 =>
      let two :=
        match t1 with
        | String c2 t2 =>
            if Ascii.eqb c1 "3" && is_digit c2 && (digit_value c2 <=? 1)
            then Some (30 + digit_value c2, t2)
            else if (Ascii.eqb c1 "1" || Ascii.eqb c1 "2") && is_digit c2
            then Some (10 * digit_value c1 + digit_value c2, t2)
            else if Ascii.eqb c1 "0" && is_digit c2 && (1 <=? digit_value c2)
            then Some (digit_value c2, t2)
            else None
        | EmptyString => None
        end in
      match two with
      | Some r => Some r
      | None =>
          if is_digit c1 && (1 <=? digit_value c1)
          then Some (digit_value c1, t1)
          else
            match t1 with
            | String c2 t2 =>
                if Ascii.eqb c1 " " && is_digit c2 && (1 <=? digit_value c2)
                then Some (digit_value c2, t2) else None
            | EmptyString => None
            end
      end
  | EmptyString => None
  end.

(** The directive [%Y]: four digits. *)
Definition directive_Y (s : string) : option (Z * string) :=
  match s with
  | String a (String b (String c (String d t))) =>
      if is_digit a && is_digit b && is_digit c && is_digit d
      then Some (1000 * digit_value a + 100 * digit_value b
                 + 10 * digit_value c + digit_value d, t)
      else None
  | _ => None
  end.

Definition expect_dash (s : string) : option string :=
  match s with
  | String c t => if Ascii.eqb c "-" then Some t else None
  | EmptyString => None
  end.

(** [datetime.strptime(s, "%Y-%m-%d").date()]: ValueError when the text
    does not match, when text remains after the day, or when the
    numbers are not a date. *)
Definition strptime (s : string) : result date :=
  match directive_Y s with
  | None => Raise ValueError
  | Some (y, s1) =>
      match expect_dash s1 with
      | None => Raise ValueError
      | Some s2 =>
          match directive_m s2 with
          | None => Raise ValueError
          | Some (m, s3) =>
              match expect_dash s3 with
              | None => Raise ValueError
              | Some s4 =>
                  match directive_d s4 with
                  | Some (d, EmptyString) => make y m d
                  | _ => Raise ValueError
                  end
              end
          end
      end
  end.

(** [strptime(str(v), "%Y-%m-%d").date()] on a value of the JSON. *)
Definition of_value (v : pyval) : result date :=
  match Py.str v with
  | Some s => strptime s
  | None => Raise ValueError
  end.

End Date.

(* ===================================================================== *)
(** ** The price catalogue *)
(* ===================================================================== *)

Module Catalog.

(** The key of [skus_price_map]: [(sku_desc, region, usage_type)]. *)
Definition key : Type := (string * string * string)%type.

Definition key_eqb (a b : key) : bool :=
  let '(d1, r1, u1) := a in
  let '(d2, r2, u2) := b in
  String.eqb d1 d2 && String.eqb r1 r2 && String.eqb u1 u2.

(** [skus_price_map] *)
Definition price_map : Type := dict key num.

(** *** Records of a catalogue page

    A key that a JSON object lacks is [None]; [.get(k, dflt)] and
    [[k]] differ in what they do then. *)

Record money : Type := mkmoney {
  units : option pyval;
  nanos : option pyval
}.

Record tiered_rate : Type := mkrate {
  unitPrice : option money
}.

Record pricing_expression : Type := mkexpr {
  tieredRates : option (list tiered_rate)
}.

Record pricing_info : Type := mkinfo {
  pricingExpression : option pricing_expression
}.

Record category : Type := mkcategory {
  serviceDisplayName : option string;
  usageType : option string
}.

Record sku : Type := mksku {
  sku_category : option category;
  description : option string;
  serviceRegions : option (list string);
  pricingInfo : option (list pricing_info)
}.

Record response : Type := mkresponse {
  skus : option (list sku);
  nextPageToken : option string
}.

(** What [.execute()] gives for one page: the response, or an
    exception of the transport. *)
Inductive fetched : Type :=
| Page (r : response)
| Failed (e : exn).

Definition get_or {A : Type} (o : option A) (dflt : A) : A :=
  match o with
  | Some a => a
  | None => dflt
  end.

(** [d[k]] *)
Definition subscript {A : Type} (o : option A) : result A :=
  match o with
  | Some a => Ok a
  | None => Raise KeyError
  end.

(** [units + nanos / 1e9] with the defaults [0] of the two [.get]. *)
Definition price_per_unit (unit_price : money) : result num :=
  let units := get_or (units unit_price) (PInt 0) in
  let nanos := get_or (nanos unit_price) (PInt 0) in
  n <- Py.to_num nanos ;;
  q <- Num.truediv_float n Float.billion ;;
  u <- Py.to_num units ;;
  Num.add u q.

Definition empty_money : money := mkmoney None None.
Definition empty_expression : pricing_expression := mkexpr None.

(** The body of [for price_info in sku.get("pricingInfo", [])]: the map
    afterwards, and the exception that left the loop, if any. *)
Definition ingest_price_info (k : key) (price_info : pricing_info)
    (m : price_map) : price_map * option exn :=
  let pricing_expression := get_or (pricingExpression price_info) empty_expression in
  let tiered_rates := get_or (tieredRates pricing_expression) [] in
  match tiered_rates with
  | [] => (m, None)
  | first :: _ =>
      let unit_price := get_or (unitPrice first) empty_money in
      match price_per_unit unit_price with
      | Ok p => (dict_set key_eqb m k p, None)
      | Raise e => (m, Some e)
      end
  end.

Fixpoint ingest_price_infos (k : key) (infos : list pricing_info)
    (m : price_map) : price_map * option exn :=
  match infos with
  | [] => (m, None)
  | pi :: rest =>
      match ingest_price_info k pi m with
      | (m', None) => ingest_price_infos k rest m'
      | (m', Some e) => (m', Some e)
      end
  end.

(** [key = (sku_desc, region, usage_type)]: the description, [""]
    without one; the first of [serviceRegions], [""] when the list is
    missing or empty; the usage type of the category, [""] without one. *)
Definition sku_key (s : sku) (c : category) : key :=
  let sku_desc := get_or (description s) "" in
  let usage_type := get_or (usageType c) "" in
  let region :=
    match serviceRegions s with
    | Some (r :: _) => r
    | _ => ""
    end in
  (sku_desc, region, usage_type).

(** The body of [for sku in response.get("skus", [])]. *)
Definition ingest_sku (s : sku) (m : price_map) : price_map * option exn :=
  match c <- subscript (sku_category s) ;;
        n <- subscript (serviceDisplayName c) ;;
        Ok (c, n) with
  | Raise e => (m, Some e)
  | Ok (c, service_name) =>
      if Text.contains "Compute Engine" service_name
      then ingest_price_infos (sku_key s c) (get_or (pricingInfo s) []) m
      else (m, None)
  end.

Fixpoint ingest_skus (l : list sku) (m : price_map) : price_map * option exn :=
  match l with
  | [] => (m, None)
  | s :: rest =>
      match ingest_sku s m with
      | (m', None) => ingest_skus rest m'
      | (m', Some e) => (m', Some e)
      end
  end.

(** The [while True] loop over the pages the service delivers, in the
    order it delivers them (a list that ends before the last token
    stands for a service that has no more to deliver).  The loop ends
    at a page without continuation token; an exception of the fetch or of the ingestion
    ends it too, and the [except] clause keeps what the map holds by
    then.  The second component is the exception the warning shows. *)
Fixpoint fetch_pages (pages : list fetched) (m : price_map)
    : price_map * option exn :=
  match pages with
  | [] => (m, None)
  | Failed e :: _ => (m, Some e)
  | Page r :: rest =>
      match ingest_skus (get_or (skus r) []) m with
      | (m', Some e) => (m', Some e)
      | (m', None) =>
          match nextPageToken r with
          | None => (m', None)
          | Some tok => if String.eqb tok "" then (m', None) else fetch_pages rest m'
          end
      end
  end.

(** [fetch_pricing_skus(service, billing_account_id)], both given. *)
Definition fetch_pricing_skus (pages : list fetched) : price_map :=
  fst (fetch_pages pages []).

(** The test of the lookup loop on one key:
    [resource_desc in desc and (region in rgn or rgn == "global")
     and usage == usage_type].  Both [in] are substring tests. *)
Definition sku_matches (resource_desc region usage_type : string) (k : key) : bool :=
  let '(desc, rgn, usage) := k in
  Text.contains resource_desc desc
  && (Text.contains region rgn || String.eqb rgn "global")
  && String.eqb usage usage_type.

(** [get_price_for_resource]: the price of the first item of the map,
    in iteration order, that passes the test; [None] without one. *)
Fixpoint get_price_for_resource (resource_desc region usage_type : string)
    (skus_price_map : price_map) : option num :=
  match skus_price_map with
  | [] => None
  | (k, price) :: rest =>
      if sku_matches resource_desc region usage_type k
      then Some price
      else get_price_for_resource resource_desc region usage_type rest
  end.

(** *** Shapes of records, for the statements about ingestion *)

(** The record has [category] and, in it, [serviceDisplayName]. *)
Definition has_service_name (s : sku) : bool :=
  match sku_category s with
  | Some c => match serviceDisplayName c with Some _ => true | None => false end
  | None => false
  end.

(** The pricing entry has no tier: [pricingExpression] or
    [tieredRates] is missing, or the list of tiers is empty. *)
Definition no_tier (price_info : pricing_info) : bool :=
  match get_or (tieredRates (get_or (pricingExpression price_info) empty_expression)) [] with
  | [] => true
  | _ :: _ => false
  end.

(** The pricing entry has a first tier, and that tier no [unitPrice]. *)
Definition tier_without_price (price_info : pricing_info) : bool :=
  match get_or (tieredRates (get_or (pricingExpression price_info) empty_expression)) [] with
  | first :: _ => match unitPrice first with None => true | Some _ => false end
  | [] => false
  end.

(** Some pricing entry of the record has a first tier without price. *)
Definition missing_price (s : sku) : bool :=
  existsb tier_without_price (get_or (pricingInfo s) []).

(** Every pricing entry of the record is without tier; so is a record
    without [pricingInfo]. *)
Definition no_priced_tier (s : sku) : bool :=
  forallb no_tier (get_or (pricingInfo s) []).

End Catalog.

(* ===================================================================== *)
(** ** The estimator *)
(* ===================================================================== *)

Module Estimate.

Import Catalog.

(** [editable_rec], the configuration *)
Definition config : Type := dict string pyval.

Definition get (c : config) (k : string) : option pyval := dict_get String.eqb c k.

(** [int(config.get(k, 0) or 0)] under [try], [0] on any exception. *)
Definition int_field (c : config) (k : string) : Z :=
  try_except (Py.int (Py.or_else (dict_get_default String.eqb c k (PInt 0)) (PInt 0))) 0.

(** [str(config.get("gpu", "None") or "None")] *)
Definition gpu_name_of (c : config) : option string :=
  Py.str (Py.or_else (dict_get_default String.eqb c "gpu" (PStr "None")) (PStr "None")).

(** [datetime.strptime(str(config.get("start_date", "")), "%Y-%m-%d").date()] *)
Definition start_of (c : config) : result Date.date :=
  Date.of_value (dict_get_default String.eqb c "start_date" (PStr "")).

(** [datetime.strptime(str(config.get("end_date", "")), "%Y-%m-%d").date()] *)
Definition end_of (c : config) : result Date.date :=
  Date.of_value (dict_get_default String.eqb c "end_date" (PStr "")).

(** The [try] block of the dates: both dates parsed, the difference in
    days floored at 1. *)
Definition parsed_duration (c : config) : result Z :=
  start <- start_of c ;;
  end_ <- end_of c ;;
  Ok (Z.max (Date.days_between start end_) 1).

(** [days] after the [try ... except Exception: days = 1]. *)
Definition duration_days (c : config) : Z :=
  try_except (parsed_duration c) 1.

Definition cpu_desc : string := "N1 Predefined Instance Core".
Definition memory_desc : string := "N1 Predefined Instance Ram".
Definition storage_desc : string := "SSD".
Definition usage_type : string := "OnDemand".

Definition gpu_desc_map : dict string (option string) :=
  [ ("None", None);
    ("NVIDIA T4", Some "NVIDIA T4");
    ("NVIDIA A100", Some "NVIDIA A100");
    ("NVIDIA V100", Some "NVIDIA V100") ].

(** [gpu_desc_map.get(gpu_name, None)]; a text that [Py.str] leaves
    out is no key of the map. *)
Definition gpu_desc_of (gpu_name : option string) : option string :=
  match gpu_name with
  | Some g => dict_get_default String.eqb gpu_desc_map g None
  | None => None
  end.

(** [price or 0] on the answer of a lookup. *)
Definition or_zero (price : option num) : num :=
  match price with
  | Some p => if Num.truthy p then p else PyInt 0
  | None => PyInt 0
  end.

(** [gpu_price]: 0, replaced by a lookup when [gpu_desc] is truthy. *)
Definition gpu_price_of (gpu_desc : option string) (region : string)
    (skus_price_map : price_map) : num :=
  match gpu_desc with
  | Some d =>
      if String.eqb d "" then PyInt 0
      else or_zero (get_price_for_resource d region usage_type skus_price_map)
  | None => PyInt 0
  end.

(** [((cpu_price * vcpu_count) + (mem_price * memory_gb)
      + (storage_price * storage_gb) + gpu_price) * hours] *)
Definition total_cost (cpu_price mem_price storage_price gpu_price : num)
    (vcpu_count memory_gb storage_gb hours : Z) : result num :=
  a <- Num.mul cpu_price (PyInt vcpu_count) ;;
  b <- Num.mul mem_price (PyInt memory_gb) ;;
  ab <- Num.add a b ;;
  c <- Num.mul storage_price (PyInt storage_gb) ;;
  abc <- Num.add ab c ;;
  s <- Num.add abc gpu_price ;;
  Num.mul s (PyInt hours).

(** The three models [gpu_desc_map] gives a description to. *)
Definition gpu_models : list string := ["NVIDIA T4"; "NVIDIA A100"; "NVIDIA V100"].

(** [estimate_billing_cost_from_api(config, region, skus_price_map)]:
    [(round(total_cost, 2), days)], or the exception that escapes: the
    arithmetic on the prices is outside every [try].  [region] is a
    string, as the catalogue test [region in rgn] requires. *)
Definition estimate_billing_cost_from_api (c : config) (region : string)
    (skus_price_map : price_map) : result (num * Z) :=
  let vcpu_count := int_field c "compute" in
  let memory_gb := int_field c "memory" in
  let storage_gb := int_field c "storage" in
  let gpu_name := gpu_name_of c in
  let days := duration_days c in
  let cpu_price := or_zero (get_price_for_resource cpu_desc region usage_type skus_price_map) in
  let mem_price := or_zero (get_price_for_resource memory_desc region usage_type skus_price_map) in
  let storage_price := or_zero (get_price_for_resource storage_desc region usage_type skus_price_map) in
  let gpu_price := gpu_price_of (gpu_desc_of gpu_name) region skus_price_map in
  let hours := days * 24 in
  total <- total_cost cpu_price mem_price storage_price gpu_price
             vcpu_count memory_gb storage_gb hours ;;
  Ok (Num.round2 total, days).

(** Texts that do not begin with [N]: none is a key of [gpu_desc_map]. *)
Definition not_N (s : string) : Prop :=
  match s with
  | String c _ => Ascii.eqb "N" c = false
  | EmptyString => True
  end.

(** The estimator from the point where [gpu_price] is known: the
    statements about the GPU compare the estimator with it. *)
Definition estimate_given_gpu_price (gpu_price : num) (c : config) (region : string)
    (skus_price_map : price_map) : result (num * Z) :=
  let days := duration_days c in
  total <- total_cost
             (or_zero (get_price_for_resource cpu_desc region usage_type skus_price_map))
             (or_zero (get_price_for_resource memory_desc region usage_type skus_price_map))
             (or_zero (get_price_for_resource storage_desc region usage_type skus_price_map))
             gpu_price
             (int_field c "compute") (int_field c "memory") (int_field c "storage")
             (days * 24) ;;
  Ok (Num.round2 total, days).

End Estimate.

(* ===================================================================== *)
(** ** The reconciler: the widget loops of [show_recommendation_page] *)
(* ===================================================================== *)

Module Reconciler.

Import Estimate.

(** The two session variables the page works on. *)
Record state : Type := mkstate {
  editable_rec : config;
  removed_fields : list string
}.

Definition field_names : list string := ["compute"; "memory"; "storage"; "budget"].

Record params : Type := mkparams {
  label : string;
  min : Z;
  max : Z;
  step : Z
}.

Definition editable_fields : dict string params :=
  [ ("compute", mkparams "vCPUs" 1 128 1);
    ("memory", mkparams "Memory (GB)" 1 1024 1);
    ("storage", mkparams "Storage (GB)" 1 20000 10);
    ("budget", mkparams "Budget (USD)" 0 100000 100) ].

Definition defaults : dict string Z :=
  [ ("compute", 4); ("memory", 16); ("storage", 100); ("budget", 1000) ].

(** [x in l] on a list of strings *)
Definition list_mem (x : string) (l : list string) : bool :=
  existsb (String.eqb x) l.

(** [l.remove(x)]: the first occurrence goes. *)
Fixpoint list_remove (x : string) (l : list string) : list string :=
  match l with
  | [] => []
  | y :: rest => if String.eqb y x then rest else y :: list_remove x rest
  end.

(** The body of the checkbox loop for one field, [keep] being what the
    checkbox returned. *)
Definition reconcile_field (keep : bool) (field : string) (st : state) : state :=
  if negb keep && negb (list_mem field (removed_fields st)) then
    mkstate (dict_pop String.eqb (editable_rec st) field)
            (removed_fields st ++ [field])%list
  else if keep && list_mem field (removed_fields st) then
    let removed := list_remove field (removed_fields st) in
    if negb (dict_mem String.eqb (editable_rec st) field)
    then mkstate (dict_set String.eqb (editable_rec st) field
                    (PInt (dict_get_default String.eqb defaults field 0)))
                 removed
    else mkstate (editable_rec st) removed
  else st.

(** Unticking and ticking the box of a field. *)
Definition removeField (field : string) : state -> state := reconcile_field false field.
Definition restoreField (field : string) : state -> state := reconcile_field true field.

(** [kept_fields] *)
Definition kept_fields (removed : list string) : list string :=
  filter (fun f => negb (list_mem f removed)) field_names.

Definition skip_warning (field : string) : string :=
  ("Skipping slider for '" ++ field ++ "' due to invalid type.")%string.

Definition invalid_warning (field : string) : string :=
  ("Invalid value for '" ++ field ++ "', resetting to minimum.")%string.

Section Widgets.

(** [st.checkbox(label, value, key)]: what the user left the box at. *)
Variable checkbox : string -> bool -> string -> bool.

(** [st.slider(label, min_value, max_value, value, step, key)]: the
    position the user left the slider at; [value] is where it starts. *)
Variable slider : string -> Z -> Z -> Z -> Z -> string -> Z.

(** The checkbox loop over [field_names]. *)
Definition reconcile_checkboxes (st : state) : state :=
  fold_left
    (fun st field =>
       let keep :=
         checkbox
           ("Keep " ++ match dict_get String.eqb editable_fields field with
                       | Some p => label p
                       | None => ""
                       end)%string
           (negb (list_mem field (removed_fields st)))
           ("keep_" ++ field)%string in
       reconcile_field keep field st)
    field_names st.

(** The body of the slider loop for one kept field: the configuration
    and the warnings shown so far, afterwards. *)
Definition adjust_field (field : string) (acc : config * list string)
    : result (config * list string) :=
  let '(rec, warnings) := acc in
  params <- Catalog.subscript (dict_get String.eqb editable_fields field) ;;
  let val_raw := dict_get_default String.eqb rec field (PInt 0) in
  if Py.is_dict_or_list val_raw then
    Ok (rec, (warnings ++ [skip_warning field])%list)
  else
    let '(val, warnings') :=
      match Py.int val_raw with
      | Ok v => (v, warnings)
      | Raise _ => (min params, (warnings ++ [invalid_warning field])%list)
      end in
    let new_val :=
      slider (label params) (min params) (max params) val (step params)
             ("slider_" ++ field)%string in
    Ok (dict_set String.eqb rec field (PInt new_val), warnings').

(** The slider loop. *)
Fixpoint adjust_fields (fields : list string) (acc : config * list string)
    : result (config * list string) :=
  match fields with
  | [] => Ok acc
  | field :: rest => acc' <- adjust_field field acc ;; adjust_fields rest acc'
  end.

End Widgets.

(** The default a field is restored with: [defaults.get(field, 0)]. *)
Definition default_of (field : string) : Z :=
  dict_get_default String.eqb defaults field 0.

(** Removed fields are listed once and are absent from the
    configuration: the shape the two operations keep. *)
Definition consistent (st : state) : Prop :=
  NoDup (removed_fields st)
  /\ forall f, In f (removed_fields st) -> get (editable_rec st) f = None.

(** A slider the user does not touch returns the value it starts at. *)
Definition untouched_slider (label : string) (min_value max_value value step : Z)
    (key : string) : Z := value.

End Reconciler.


(* ===================================================================== *)
(** ** Sample data *)
(* ===================================================================== *)

Module Samples.

Import Catalog Estimate Reconciler.

(** The configuration of the worked example: two days in August. *)
Definition august_config : config :=
  [ ("compute", PInt 4); ("memory", PInt 16); ("storage", PInt 100);
    ("gpu", PStr "None");
    ("start_date", PStr "2025-08-01"); ("end_date", PStr "2025-08-03") ].

(** A catalogue with the three prices of the worked example. *)
Definition august_catalog : price_map :=
  [ (("N1 Predefined Instance Core running in Americas", "us-central1", "OnDemand"),
     PyFloat (dec 3 2));
    (("N1 Predefined Instance Ram running in Americas", "us-central1", "OnDemand"),
     PyFloat (dec 1 2));
    (("SSD backed PD Capacity", "global", "OnDemand"), PyFloat (dec 1 3)) ].

(** The two entries of the lookup example, in that order. *)
Definition core_catalog : price_map :=
  [ (("N1 Predefined Instance Core", "us-central1", "OnDemand"), PyFloat (dec 3 2));
    (("N1 Predefined Instance Core", "global", "OnDemand"), PyFloat (dec 5 2)) ].

(** One entry stored under the region [europe-west10]. *)
Definition berlin_catalog : price_map :=
  [ (("N1 Predefined Instance Core", "europe-west10", "OnDemand"), PyFloat (dec 3 2)) ].

(** A GPU model that [gpu_desc_map] does not list, and its price. *)
Definition l4_config : config := [ ("gpu", PStr "NVIDIA L4") ].

Definition l4_catalog : price_map :=
  [ (("NVIDIA L4", "global", "OnDemand"), PyFloat (dec 5 1)) ].

(** A GPU model that [gpu_desc_map] lists, and its price. *)
Definition t4_config : config := [ ("gpu", PStr "NVIDIA T4") ].

Definition t4_catalog : price_map :=
  [ (("NVIDIA T4 GPU running in Americas", "global", "OnDemand"), PyFloat (dec 35 2)) ].

(** A configuration whose [compute] is a text that is no number. *)
Definition abc_config : config := [ ("compute", PStr "abc"); ("memory", PInt 16) ].

(** A configuration whose [compute] is a list. *)
Definition listed_config : config := [ ("compute", PList [PInt 4]); ("memory", PInt 16) ].

Definition compute_engine : category := mkcategory (Some "Compute Engine") (Some "OnDemand").

(** A record with one tier that has no [unitPrice]. *)
Definition unpriced_sku : sku :=
  mksku (Some compute_engine) (Some "N1 Predefined Instance Core") (Some ["us-central1"])
        (Some [mkinfo (Some (mkexpr (Some [mkrate None])))]).

(** A record whose list of tiers is empty. *)
Definition tierless_sku : sku :=
  mksku (Some compute_engine) (Some "N1 Predefined Instance Ram") (Some ["us-central1"])
        (Some [mkinfo (Some (mkexpr (Some [])))]).

(** A record with a price of 0.03: [units] 0, [nanos] 30000000. *)
Definition core_sku : sku :=
  mksku (Some compute_engine) (Some "N1 Predefined Instance Core") (Some ["us-central1"])
        (Some [mkinfo (Some (mkexpr (Some
           [mkrate (Some (mkmoney (Some (PInt 0)) (Some (PInt 30000000))))])))]).

End Samples.

(* ===================================================================== *)
(** ** The calendar: order of dates and [strftime("%Y-%m-%d")] *)
(* ===================================================================== *)

Module Calendar.

Import Date.

(** [a < b] on dates: the order of the calendar. *)
Definition before (a b : date) : Prop :=
  year a < year b
  \/ (year a = year b
      /\ (month a < month b \/ (month a = month b /\ day a < day b))).

(** A date the constructor accepts. *)
Definition valid (d : date) : Prop := make (year d) (month d) (day d) = Ok d.

Definition year_length (y : Z) : Z := if is_leap y then 366 else 365.

(** Texts made of digits only. *)
Fixpoint all_digits (s : string) : bool :=
  match s with
  | EmptyString => true
  | String c t => Text.is_digit c && all_digits t
  end.

Definition digit_char (k : Z) : ascii := ascii_of_N (Z.to_N (48 + k)).

Definition two_digits (n : Z) : string :=
  String (digit_char (n / 10)) (String (digit_char (n mod 10)) "").

(** [d.strftime("%Y-%m-%d")] for a year of four digits (what a shorter
    year gives depends on the platform). *)
Definition strftime (d : date) : string :=
  (two_digits (year d / 100) ++ two_digits (year d mod 100) ++ "-"
   ++ two_digits (month d) ++ "-" ++ two_digits (day d))%string.

End Calendar.

(* ===================================================================== *)
(** ** Text of the model's answer: [extract_json] *)
(* ===================================================================== *)

Module Json.

(** The blanks of [str.strip()] (ASCII): tab to carriage return, the
    four separators 28 to 31, and space. *)
Definition is_blank (c : ascii) : bool :=
  (((9 <=? Text.code c) && (Text.code c <=? 13))
   || ((28 <=? Text.code c) && (Text.code c <=? 32)))%N.

Definition is_backtick (c : ascii) : bool := Ascii.eqb c "`".

Fixpoint lstrip_by (p : ascii -> bool) (s : string) : string :=
  match s with
  | EmptyString => s
  | String c t => if p c then lstrip_by p t else s
  end.

Fixpoint rstrip_by (p : ascii -> bool) (s : string) : string :=
  match s with
  | EmptyString => EmptyString
  | String c t =>
      match rstrip_by p t with
      | EmptyString => if p c then EmptyString else String c EmptyString
      | t' => String c t'
      end
  end.

(** [s.strip()] and [s.strip(chars)] *)
Definition strip_by (p : ascii -> bool) (s : string) : string :=
  rstrip_by p (lstrip_by p s).

(** [s.find(c)]: the index of the first [c], [-1] without one. *)
Fixpoint find_char (c : ascii) (s : string) : Z :=
  match s with
  | EmptyString => -1
  | String a t =>
      if Ascii.eqb a c then 0
      else let r := find_char c t in if r =? -1 then -1 else r + 1
  end.

(** [s.rfind(c)]: the index of the last [c], [-1] without one. *)
Fixpoint rfind_char (c : ascii) (s : string) : Z :=
  match s with
  | EmptyString => -1
  | String a t =>
      let r := rfind_char c t in
      if r =? -1 then (if Ascii.eqb a c then 0 else -1) else r + 1
  end.

(** [s[i : j]] for [0 <= i <= j] *)
Definition slice (s : string) (i j : Z) : string :=
  String.substring (Z.to_nat i) (Z.to_nat (j - i)) s.

Definition no_json (text : string) : dict string pyval :=
  [ ("error", PStr "No JSON found in response."); ("raw_text", PStr text) ].

Definition decode_error (msg json_str : string) : dict string pyval :=
  [ ("error", PStr ("JSON decode error: " ++ msg)); ("raw_json", PStr json_str) ].

Section Loads.

(** [json.loads] on a text that begins with a brace: the dict of the
    object, or the message of the JSONDecodeError. *)
Variable loads : string -> dict string pyval + string.

(** The [try] around [json.loads(json_str)]. *)
Definition decode (json_str : string) : dict string pyval :=
  match loads json_str with
  | inl d => d
  | inr msg => decode_error msg json_str
  end.

(** [extract_json(text)] *)
Definition extract_json (text : string) : dict string pyval :=
  let text := strip_by is_blank text in
  let text :=
    if String.prefix "``" text
    then strip_by is_blank (strip_by is_backtick text)
    else text in
  let start := find_char "{" text in
  let end_ := rfind_char "}" text in
  if (start =? -1) || (end_ =? -1) || (end_ <? start) then no_json text
  else decode (slice text start (end_ + 1)).

End Loads.

(** [c] does not occur in [s]. *)
Fixpoint free_of (c : ascii) (s : string) : bool :=
  match s with
  | EmptyString => true
  | String a t => negb (Ascii.eqb a c) && free_of c t
  end.

(** The text [extract_json] works on after its two rounds of strip. *)
Definition cleaned (text : string) : string :=
  let text := strip_by is_blank text in
  if String.prefix "``" text
  then strip_by is_blank (strip_by is_backtick text)
  else text.

(** The text of an object: [body] between braces. *)
Definition object_text (body : string) : string :=
  String "{" (body ++ String "}" "").

(** An object with text before and after it. *)
Definition framed (pre body post : string) : string :=
  (pre ++ String "{" (body ++ String "}" post))%string.

(** Some opening brace of [s] has a closing brace after it. *)
Fixpoint has_object (s : string) : bool :=
  match s with
  | EmptyString => false
  | String a t => if Ascii.eqb a "{" then negb (free_of "}" t) else has_object t
  end.

End Json.

(* ===================================================================== *)
(** ** The session: [init_session_state] and the chatbot submission *)
(* ===================================================================== *)

Module Session.

(** [st.session_state], as far as its values are values of the JSON. *)
Definition session : Type := dict string pyval.

Definition sget (ss : session) (k : string) : option pyval := dict_get String.eqb ss k.

(** [if k not in st.session_state: st.session_state[k] = v] *)
Definition init_key (ss : session) (kv : string * pyval) : session :=
  if dict_mem String.eqb ss (fst kv) then ss else dict_set String.eqb ss (fst kv) (snd kv).

Definition initial_values : list (string * pyval) :=
  [ ("page", PStr "input");
    ("user_fields", PDict []);
    ("genai_result", PDict []);
    ("editable_rec", PDict []);
    ("removed_fields", PList []);
    ("billing_client", PNone);
    ("skus_price_map", PDict []) ].

(** [init_session_state()] *)
Definition init_session_state (ss : session) : session :=
  fold_left init_key initial_values ss.

Inductive notice : Type :=
| Info (text : string)
| Warning (text : string).

Section Chatbot.

Variable loads : string -> dict string pyval + string.

(** [response.text] of the model for a prompt. *)
Variable generate : string -> string.

(** [make_extraction_prompt(free_text, env, purpose)] *)
Definition make_extraction_prompt (free_text env purpose : string) : string :=
  ("Extract the following fields as JSON from the user's text." ++ String "010" ""
   ++ "Fields: project_name, description, workload_type, compute, memory, storage, gpu, region, start_date, end_date, budget, special_needs, environment, purpose, monitoring." ++ String "010" ""
   ++ "If any field is missing, try to infer or use empty string. Dates as 'YYYY-MM-DD', numbers as integers." ++ String "010" ""
   ++ String "010" "" ++ "User text:" ++ String "010" "" ++ free_text
   ++ String "010" "" ++ "Environment: " ++ env
   ++ String "010" "" ++ "Purpose: " ++ purpose
   ++ String "010" "" ++ "Respond ONLY with valid JSON.")%string.

(** [call_gemini_extract_fields(free_text, env, purpose)] *)
Definition call_gemini_extract_fields (free_text env purpose : string)
    : dict string pyval :=
  Json.extract_json loads (generate (make_extraction_prompt free_text env purpose)).

(** The chatbot branch of [show_input_page] once the button is pressed,
    and the update of the session that follows it: the session and the
    notices shown. *)
Definition submit_chatbot (env purpose raw_text : string) (ss : session)
    : session * list notice :=
  let '(user_data, notices) :=
    if negb (String.eqb (Json.strip_by Json.is_blank raw_text) "") then
      let info := Info "Extracting fields from free text using Gemini. Please wait..." in
      let parsed_fields := call_gemini_extract_fields raw_text env purpose in
      if dict_mem String.eqb parsed_fields "error" then
        ([], [info; Warning "Could not extract details from text. Please check your input."])
      else
        let parsed_fields := dict_set String.eqb parsed_fields "environment" (PStr env) in
        let parsed_fields := dict_set String.eqb parsed_fields "purpose" (PStr purpose) in
        let parsed_fields :=
          if negb (dict_mem String.eqb parsed_fields "memory")
          then dict_set String.eqb parsed_fields "memory" (PInt 0)
          else parsed_fields in
        (parsed_fields, [info])
    else ([], [Warning "Please enter your requirement details"]) in
  match user_data with
  | [] => (ss, notices)
  | _ :: _ =>
      let ss := dict_set String.eqb ss "user_fields" (PDict user_data) in
      let ss := dict_set String.eqb ss "page" (PStr "recommendation") in
      let ss := dict_set String.eqb ss "genai_result" (PDict []) in
      (ss, notices)
  end.

End Chatbot.

End Session.

(* ===================================================================== *)
(** ** The date fields of the loop over the other options *)
(* ===================================================================== *)

Module Page.

Import Estimate Calendar.

Definition is_lower (c : ascii) : bool :=
  ((97 <=? Text.code c) && (Text.code c <=? 122))%N.

Definition is_upper (c : ascii) : bool :=
  ((65 <=? Text.code c) && (Text.code c <=? 90))%N.

Definition to_upper (c : ascii) : ascii :=
  if is_lower c then ascii_of_N (Text.code c - 32) else c.

Definition to_lower (c : ascii) : ascii :=
  if is_upper c then ascii_of_N (Text.code c + 32) else c.

(** [s.replace("_", " ")] *)
Fixpoint replace_underscores (s : string) : string :=
  match s with
  | EmptyString => EmptyString
  | String c t => String (if Ascii.eqb c "_" then " "%char else c) (replace_underscores t)
  end.

(** [s.title()]: a letter after a letter is lowered, any other letter
    is raised. *)
Fixpoint title_from (previous_is_cased : bool) (s : string) : string :=
  match s with
  | EmptyString => EmptyString
  | String c t =>
      if is_lower c || is_upper c
      then String (if previous_is_cased then to_lower c else to_upper c) (title_from true t)
      else String c (title_from false t)
  end.

(** [field.replace("_", " ").title()] *)
Definition label_of (field : string) : string :=
  title_from false (replace_underscores field).

(** [", ".join(str(v) for v in values)]; [None] when the text of a value
    is one [Py.str] leaves out. *)
Fixpoint join_values (values : list pyval) : option string :=
  match values with
  | [] => Some ""
  | v :: rest =>
      match Py.str v with
      | None => None
      | Some s =>
          match rest with
          | [] => Some s
          | _ :: _ =>
              match join_values rest with
              | None => None
              | Some r => Some (s ++ ", " ++ r)%string
              end
          end
      end
  end.

Definition display_keys : list string :=
  ["value"; "amount"; "answer"; "option"; "selection"].

Definition joined (values : list pyval) : option pyval :=
  match join_values values with
  | Some s => Some (PStr s)
  | None => None
  end.

(** [display_val] for the value of a field: the value under the first of
    the five keys a dict has, the joined texts of the values of a dict
    without them or of a list, the value itself, [""] for [None].
    [None] stands for a joined text with a part that [Py.str] leaves
    out. *)
Definition display_val (val : pyval) : option pyval :=
  match val with
  | PDict d =>
      match find (fun k => dict_mem String.eqb d k) display_keys with
      | Some k => dict_get String.eqb d k
      | None => joined (map snd d)
      end
  | PList l => joined l
  | PNone => Some (PStr "")
  | _ => Some val
  end.

Section DateInput.

(** [date.today()] *)
Variable today : Date.date.

(** [st.date_input(label, value, key)]: the date the user leaves the
    widget at; [value] is where it starts. *)
Variable date_input : string -> Date.date -> string -> Date.date.

(** [dt]: the date the widget starts at, the parsed [display_val] or,
    when that raises, today. *)
Definition shown_date (val : pyval) : Date.date :=
  try_except
    (match display_val val with
     | Some v => Date.of_value v
     | None => Raise ValueError
     end) today.

(** [dt_val]: the date the widget returns for the field. *)
Definition chosen_date (field : string) (rec : config) : Date.date :=
  date_input (label_of field)
    (shown_date (dict_get_default String.eqb rec field (PStr "")))
    ("date_" ++ field)%string.

(** The body of the loop for [field] in [("start_date", "end_date")]. *)
Definition redate (field : string) (rec : config) : config :=
  dict_set String.eqb rec field (PStr (strftime (chosen_date field rec))).

End DateInput.

(** A date widget the user does not touch returns the date it starts at. *)
Definition untouched_date (label : string) (value : Date.date) (key : string) : Date.date :=
  value.

End Page.

(* ===================================================================== *)
(** ** Shapes of price maps, for the statements about ingestion *)
(* ===================================================================== *)

Module CatalogShapes.

Import Catalog.

(** The keys of the map, in iteration order. *)
Definition keys (m : price_map) : list key := map fst m.

(** Every price of the map is a float. *)
Definition all_floats (m : price_map) : Prop :=
  forall k p, In (k, p) m -> exists f, p = PyFloat f.

(** What a step of ingestion may do to a map: keys stay, keys stay
    distinct, prices stay floats. *)
Definition grows (m m' : price_map) : Prop :=
  (forall k, In k (keys m) -> In k (keys m'))
  /\ (NoDup (keys m) -> NoDup (keys m'))
  /\ (all_floats m -> all_floats m').

(** A number as the estimator meets it when every price is a float:
    a float, or the int 0 of a miss. *)
Definition zero_or_float (a : num) : Prop :=
  a = PyInt 0 \/ exists f, a = PyFloat f.

(** A zero: the int 0 or a float zero of either sign. *)
Definition is_zero_num (a : num) : Prop :=
  a = PyInt 0 \/ exists s, a = PyFloat (S754_zero s).

(** A zero, or a float that is neither an infinity nor a NaN. *)
Definition is_finite_num (a : num) : Prop :=
  is_zero_num a \/ exists s m e, a = PyFloat (S754_finite s m e).

(** Every price of the map is a finite float. *)
Definition finite_prices (m : price_map) : Prop :=
  forall k p, In (k, p) m ->
    exists f, p = PyFloat f /\ is_finite_num (PyFloat f).

End CatalogShapes.

(* ===================================================================== *)
(** ** More sample data *)
(* ===================================================================== *)

Module MoreSamples.

Import Catalog Estimate Reconciler Samples.

(** A priced record of another service. *)
Definition bucket_sku : sku :=
  mksku (Some (mkcategory (Some "Cloud Storage") (Some "OnDemand")))
        (Some "Standard Storage") (Some ["us-central1"]) (pricingInfo core_sku).

(** A record without category. *)
Definition orphan_sku : sku := mksku None (Some "orphan") None None.

(** A record without regions. *)
Definition regionless_sku : sku :=
  mksku (Some compute_engine) (Some "N1 Predefined Instance Core") None None.

(** A map that already prices the key of [core_sku], at 0.09. *)
Definition stale_catalog : price_map :=
  [ (("N1 Predefined Instance Core", "us-central1", "OnDemand"), PyFloat (dec 9 2));
    (("N1 Predefined Instance Ram", "us-central1", "OnDemand"), PyFloat (dec 1 2)) ].

(** A configuration with dates in the short form. *)
Definition short_dates_config : config :=
  [ ("compute", PInt 4); ("start_date", PStr "2025-8-1"); ("end_date", PStr "2025-8-3") ].

(** A [json.loads] that knows one object and rejects every other text. *)
Definition one_object_loads (s : string) : dict string pyval + string :=
  if String.eqb s "{compute: 8}"
  then inl [("compute", PInt 8); ("environment", PStr "QA")]
  else inr "Expecting property name enclosed in double quotes".

(** An answer of the model in a code fence, with a remark after it. *)
Definition fenced_answer : string :=
  Json.framed ("```json" ++ String "010" "") "compute: 8"
              (String "010" "" ++ "``` Hope this helps.").


(** A pricing entry priced at 0.05, and one whose tier has no price. *)
Definition nickel_info : pricing_info :=
  mkinfo (Some (mkexpr (Some
    [mkrate (Some (mkmoney (Some (PInt 0)) (Some (PInt 50000000))))]))).

Definition unpriced_info : pricing_info :=
  mkinfo (Some (mkexpr (Some [mkrate None]))).

Definition tierless_info : pricing_info := mkinfo (Some (mkexpr (Some []))).

(** A Compute Engine record with three pricing entries: priced,
    unpriced, without tier. *)
Definition mixed_sku : sku :=
  mksku (Some compute_engine) (Some "N1 Predefined Instance Core") (Some ["us-central1"])
        (Some [nickel_info; unpriced_info; tierless_info]).

(** The same with the priced entry after the unpriced one. *)
Definition repriced_sku : sku :=
  mksku (Some compute_engine) (Some "N1 Predefined Instance Core") (Some ["us-central1"])
        (Some [unpriced_info; nickel_info]).

End MoreSamples.

(* ===================================================================== *)
(** * Properties *)
(* ===================================================================== *)

(** ** Primitives on sample values *)

Example float_literals :
  Float.mul (dec 3 2) (nearest 4) = dec 12 2
  /\ Float.add (dec 1 1) (dec 2 1) = S754_finite false 5404319552844596 (-54)
  /\ Float.of_int (10 ^ 400) = Raise OverflowError.
Proof. vm_compute. repeat split. Qed.

Example round2_samples :
  Float.round2 (dec 125 3) = dec 12 2
  /\ Float.round2 (dec 375 3) = dec 38 2
  /\ Float.round2 (dec 2675 3) = dec 267 2
  /\ Float.round2 (dec (-1) 3) = S754_zero true
  /\ Num.round2 (PyInt 7) = PyInt 7.
Proof. vm_compute. repeat split. Qed.

Example parse_int_samples :
  Text.parse_int " 1_000 " = Ok 1000
  /\ Text.parse_int "-12" = Ok (-12)
  /\ Text.parse_int "007" = Ok 7
  /\ Text.parse_int "1__0" = Raise ValueError
  /\ Text.parse_int "12a" = Raise ValueError
  /\ Text.parse_int "+ 5" = Raise ValueError
  /\ Text.parse_int "" = Raise ValueError
  /\ Py.int (PFloat (dec (-37) 1)) = Ok (-3)
  /\ Py.int PNone = Raise TypeError.
Proof. vm_compute. repeat split. Qed.

(** ** Substrings *)

Module TextFacts.

Import Text.

Lemma prefix_app (n h : string) :
  String.prefix n h = true <-> exists post, h = (n ++ post)%string.
Proof.
  revert h. induction n as [|c n IH]; intros h.
  - split; [intros _; exists h; reflexivity | intros _; destruct h; reflexivity].
  - destruct h as [|c' h]; simpl;
      [split; [discriminate | intros [post H]; discriminate]|].
    destruct (Ascii.ascii_dec c c') as [->|Hne].
    + rewrite IH. split; intros [post H]; exists post.
      * rewrite H. reflexivity.
      * injection H. trivial.
    + split; [discriminate|]. intros [post H]. injection H. congruence.
Qed.

(** [contains] is the substring relation. *)
Lemma contains_spec (n h : string) :
  contains n h = true <-> exists pre post, h = (pre ++ n ++ post)%string.
Proof.
  induction h as [|c h IH].
  - unfold contains. rewrite orb_false_r, prefix_app. split.
    + intros [post H]. exists "", post. exact H.
    + intros (pre & post & H).
      destruct pre; [exists post; exact H | discriminate].
  - cbn [contains]. rewrite orb_true_iff, IH, prefix_app. split.
    + intros [[post H] | (pre & post & H)].
      * exists "", post. exact H.
      * exists (String c pre), post. simpl. rewrite H. reflexivity.
    + intros (pre & post & H). destruct pre as [|c' pre].
      * left. exists post. exact H.
      * right. exists pre, post. simpl in H. injection H. trivial.
Qed.

Lemma prefix_refl (s : string) : String.prefix s s = true.
Proof. induction s as [|c s IH]; simpl; [reflexivity|]. destruct (Ascii.ascii_dec c c); congruence. Qed.

Lemma contains_refl (s : string) : contains s s = true.
Proof. apply contains_spec. exists "", "". simpl. induction s; simpl; congruence. Qed.

Lemma contains_empty (h : string) : contains "" h = true.
Proof. apply contains_spec. exists "", h. reflexivity. Qed.

End TextFacts.

(** ** Lookups in the catalogue *)

Module CatalogFacts.

Import Catalog TextFacts.

Lemma sku_matches_spec (q region ut desc rgn usage : string) :
  sku_matches q region ut (desc, rgn, usage) = true
  <-> Text.contains q desc = true
      /\ (Text.contains region rgn = true \/ rgn = "global")
      /\ usage = ut.
Proof.
  unfold sku_matches.
  rewrite !andb_true_iff, orb_true_iff, !String.eqb_eq. tauto.
Qed.

Lemma get_price_first (q region ut : string) (cat : price_map) (p : num) :
  get_price_for_resource q region ut cat = Some p
  <-> exists before k after,
        cat = (before ++ (k, p) :: after)%list
        /\ sku_matches q region ut k = true
        /\ forall e, In e before -> sku_matches q region ut (fst e) = false.
Proof.
  induction cat as [|[k0 p0] cat IH]; simpl.
  - split; [discriminate|]. intros (before & k & after & H & _).
    destruct before; discriminate.
  - destruct (sku_matches q region ut k0) eqn:E.
    + split.
      * intros H. injection H as <-. exists [], k0, cat. simpl. tauto.
      * intros (before & k & after & H & Hk & Hb).
        destruct before as [|e before]; simpl in H.
        -- injection H as <- <- _. reflexivity.
        -- injection H as <- _. specialize (Hb (k0, p0) (or_introl eq_refl)).
           simpl in Hb. congruence.
    + rewrite IH. split.
      * intros (before & k & after & H & Hk & Hb).
        exists ((k0, p0) :: before), k, after. simpl. rewrite H.
        split; [reflexivity|]. split; [exact Hk|].
        intros e [<-|He]; [exact E | apply Hb, He].
      * intros (before & k & after & H & Hk & Hb).
        destruct before as [|e before]; simpl in H.
        -- injection H as <- _ _. congruence.
        -- injection H as _ H. exists before, k, after.
           split; [exact H|]. split; [exact Hk|].
           intros e' He'. apply Hb. right. exact He'.
Qed.

Lemma get_price_none (q region ut : string) (cat : price_map) :
  get_price_for_resource q region ut cat = None
  <-> forall e, In e cat -> sku_matches q region ut (fst e) = false.
Proof.
  induction cat as [|[k0 p0] cat IH]; simpl.
  - split; [intros _ e [] | reflexivity].
  - destruct (sku_matches q region ut k0) eqn:E.
    + split; [discriminate|]. intros H.
      specialize (H (k0, p0) (or_introl eq_refl)). simpl in H. congruence.
    + rewrite IH. split.
      * intros H e [<-|He]; [exact E | apply H, He].
      * intros H e He. apply H. right. exact He.
Qed.

End CatalogFacts.

Import Catalog Estimate Reconciler Samples MoreSamples TextFacts CatalogFacts.

(** C3 (as stated, refuted).  The stored region [europe-west10] is
    neither the requested region [europe-west1] nor [global], and the
    lookup still answers with the entry's price: the region test is not
    an equality. *)
Lemma region_test_is_not_equality :
  ~ (forall (desc rgn usage : string) (price : num) (q region ut : string),
       get_price_for_resource q region ut [((desc, rgn, usage), price)] = Some price ->
       (rgn = region \/ rgn = "global") /\ usage = ut).
Proof.
  intros H.
  destruct (H "N1 Predefined Instance Core" "europe-west10" "OnDemand"
              (PyFloat (dec 3 2))
              "N1 Predefined Instance Core" "europe-west1" "OnDemand" eq_refl)
    as [[E|E] _]; discriminate E.
Qed.

(** C3 (amended).  An entry answers a query exactly when the stored
    description contains the query fragment, the stored region contains
    the requested region as a substring or is [global], and the usage
    types are equal.  Equal regions pass the test, [global] passes it for
    every requested region, and no entry of another usage type passes. *)
Theorem lookup_region_and_usage
    (desc rgn usage : string) (price : num) (q region ut : string) :
  (get_price_for_resource q region ut [((desc, rgn, usage), price)] = Some price
   <-> Text.contains q desc = true
       /\ (Text.contains region rgn = true \/ rgn = "global")
       /\ usage = ut)
  /\ (Text.contains region rgn = true
      <-> exists pre post, rgn = (pre ++ region ++ post)%string)
  /\ Text.contains region region = true
  /\ sku_matches q region ut (desc, "global", ut) = Text.contains q desc.
Proof.
  split; [|split; [apply contains_spec | split; [apply contains_refl|]]].
  - rewrite <- sku_matches_spec. cbn [get_price_for_resource].
    destruct (sku_matches q region ut (desc, rgn, usage)); split; congruence.
  - unfold sku_matches. rewrite !String.eqb_refl, orb_true_r, !andb_true_r.
    reflexivity.
Qed.

(** C4.  The lookup returns the price of the first entry, in iteration
    order, whose description contains the fragment as a substring and
    whose region and usage type pass the test, and nothing when no entry
    does; on the two-entry catalogue it answers 0.03 for [us-central1]
    and 0.05 for [asia-east1]; a fragment shorter than the stored
    description matches. *)
Theorem lookup_first_match (q region ut : string) (cat : price_map) :
  (forall p,
     get_price_for_resource q region ut cat = Some p
     <-> exists before k after,
           cat = (before ++ (k, p) :: after)%list
           /\ sku_matches q region ut k = true
           /\ forall e, In e before -> sku_matches q region ut (fst e) = false)
  /\ (get_price_for_resource q region ut cat = None
      <-> forall e, In e cat -> sku_matches q region ut (fst e) = false)
  /\ (forall desc rgn usage,
        sku_matches q region ut (desc, rgn, usage) = true ->
        exists pre post, desc = (pre ++ q ++ post)%string)
  /\ get_price_for_resource "N1 Predefined Instance Core" "us-central1" "OnDemand"
       core_catalog = Some (PyFloat (dec 3 2))
  /\ get_price_for_resource "N1 Predefined Instance Core" "asia-east1" "OnDemand"
       core_catalog = Some (PyFloat (dec 5 2))
  /\ get_price_for_resource "Instance Core" "asia-east1" "OnDemand"
       core_catalog = Some (PyFloat (dec 5 2)).
Proof.
  split; [intros p; apply get_price_first|].
  split; [apply get_price_none|].
  split; [|repeat split].
  intros desc rgn usage H. apply sku_matches_spec in H.
  apply contains_spec, H.
Qed.

(** ** The estimator *)

Module EstimateFacts.

Import Catalog Estimate.







Lemma total_cost_free (v m s h : Z) :
  total_cost (PyInt 0) (PyInt 0) (PyInt 0) (PyInt 0) v m s h = Ok (PyInt 0).
Proof.
  reflexivity.
Qed.

Lemma gpu_price_of_empty (gpu_desc : option string) (region : string) :
  gpu_price_of gpu_desc region [] = PyInt 0.
Proof.
  destruct gpu_desc as [d|]; [|reflexivity].
  unfold gpu_price_of. destruct (String.eqb d ""); reflexivity.
Qed.

Lemma duration_days_floor (c : config) : 1 <= duration_days c.
Proof.
  unfold duration_days, parsed_duration, try_except, bind.
  destruct (start_of c); [|lia].
  destruct (end_of c); lia.
Qed.


(** The estimator is the estimator from [gpu_price] on, at the price
    the GPU branch computes. *)
Lemma estimate_unfold (c : config) (region : string) (cat : price_map) :
  estimate_billing_cost_from_api c region cat
  = estimate_given_gpu_price
      (gpu_price_of (gpu_desc_of (gpu_name_of c)) region cat) c region cat.
Proof. reflexivity. Qed.

End EstimateFacts.

Import EstimateFacts.

(** C2.  With an empty catalogue the estimator returns, for every
    configuration and region, the total 0 (equal to 0.00) and a number
    of days that is at least 1; it does not raise; every lookup in the
    empty catalogue misses and counts as the price 0. *)
Theorem empty_catalog_costs_nothing (c : config) (region : string) :
  estimate_billing_cost_from_api c region [] = Ok (PyInt 0, duration_days c)
  /\ 1 <= duration_days c
  /\ Num.eqb (PyInt 0) (PyFloat (dec 0 2)) = true
  /\ forall q, or_zero (get_price_for_resource q region usage_type []) = PyInt 0.
Proof.
  split; [|split; [apply duration_days_floor | split; reflexivity]].
  unfold estimate_billing_cost_from_api.
  rewrite gpu_price_of_empty. cbn [get_price_for_resource or_zero].
  rewrite total_cost_free. reflexivity.
Qed.

(** C1.  For the configuration of the worked example (4 vCPUs, 16 GB,
    100 GB, no GPU, 2025-08-01 to 2025-08-03), the region us-central1 and
    any catalogue whose lookups give 0.03, 0.01 and 0.001, the estimator
    returns the total 18.24 and 2 days; the total is the formula
    (0.03*4 + 0.01*16 + 0.001*100 + 0) * 2 * 24 rounded to two decimals. *)
Theorem worked_example (cat : price_map) :
  get_price_for_resource cpu_desc "us-central1" usage_type cat = Some (PyFloat (dec 3 2)) ->
  get_price_for_resource memory_desc "us-central1" usage_type cat = Some (PyFloat (dec 1 2)) ->
  get_price_for_resource storage_desc "us-central1" usage_type cat = Some (PyFloat (dec 1 3)) ->
  estimate_billing_cost_from_api august_config "us-central1" cat
  = Ok (PyFloat (dec 1824 2), 2)
  /\ (t <- total_cost (PyFloat (dec 3 2)) (PyFloat (dec 1 2)) (PyFloat (dec 1 3)) (PyInt 0)
            4 16 100 (2 * 24) ;;
      Ok (Num.round2 t)) = Ok (PyFloat (dec 1824 2)).
Proof.
  intros Hc Hm Hs. split.
  - unfold estimate_billing_cost_from_api. rewrite Hc, Hm, Hs.
    vm_compute. reflexivity.
  - vm_compute. reflexivity.
Qed.

Lemma worked_example_witness :
  estimate_billing_cost_from_api august_config "us-central1" august_catalog
  = Ok (PyFloat (dec 1824 2), 2).
Proof.
  apply (worked_example august_catalog); reflexivity.
Defined.

(** ** Dates in the estimator *)

Example malformed_dates :
  Date.strptime "2025-13-01" = Raise ValueError
  /\ Date.strptime "2025-02-30" = Raise ValueError
  /\ Date.strptime "08/01/2025" = Raise ValueError
  /\ Date.strptime "2025-08-01T00:00" = Raise ValueError
  /\ Date.strptime "" = Raise ValueError
  /\ Date.of_value PNone = Raise ValueError
  /\ Date.of_value (PInt 20250801) = Raise ValueError.
Proof. repeat split. Qed.

Example well_formed_dates :
  Date.strptime "2025-08-01" = Ok (Date.mkdate 2025 8 1)
  /\ Date.strptime "2024-02-29" = Ok (Date.mkdate 2024 2 29)
  /\ Date.strptime "2025-8-1" = Ok (Date.mkdate 2025 8 1)
  /\ Date.toordinal (Date.mkdate 2025 8 1) = 739464
  /\ Date.days_between (Date.mkdate 2024 2 28) (Date.mkdate 2024 3 1) = 2.
Proof. repeat split. Qed.

Example end_before_start :
  duration_days [("start_date", PStr "2025-08-03"); ("end_date", PStr "2025-08-01")] = 1.
Proof. reflexivity. Qed.

(** ** The GPU contribution *)

Module GpuFacts.

Import Catalog Estimate.

Lemma gpu_desc_of_not_N (s : string) : not_N s -> gpu_desc_of (Some s) = None.
Proof.
  destruct s as [|c s]; [reflexivity|]. cbn [not_N]. intros H.
  unfold gpu_desc_of, dict_get_default, gpu_desc_map, dict_get.
  cbn [String.eqb]. rewrite H. reflexivity.
Qed.

Lemma digit_char_not_N (k : Z) :
  0 <= k < 10 -> Ascii.eqb "N" (ascii_of_N (Z.to_N (48 + k))) = false.
Proof.
  intros H.
  assert (E : k = 0 \/ k = 1 \/ k = 2 \/ k = 3 \/ k = 4 \/ k = 5 \/ k = 6
              \/ k = 7 \/ k = 8 \/ k = 9) by lia.
  repeat (destruct E as [->|E]; [reflexivity|]). subst. reflexivity.
Qed.

Lemma digits_of_not_N (fuel : nat) :
  forall (n : Z) (acc : string),
    (fuel = O -> not_N acc) -> not_N (Text.digits_of fuel n acc).
Proof.
  induction fuel as [|fuel IH]; intros n acc H; simpl.
  - apply H. reflexivity.
  - assert (Hd : not_N (String (ascii_of_N (Z.to_N (48 + n mod 10))) acc)).
    { cbn [not_N]. apply digit_char_not_N. apply Z.mod_pos_bound. lia. }
    destruct (n <? 10); [exact Hd|]. apply IH. intros _. exact Hd.
Qed.

Lemma of_int_not_N (z : Z) : not_N (Text.of_int z).
Proof.
  unfold Text.of_int. destruct (z <? 0); [reflexivity|].
  apply digits_of_not_N. discriminate.
Qed.

(** The GPU branch adds nothing unless the field holds one of the three
    models as a string. *)
Lemma gpu_price_other (c : config) (region : string) (cat : price_map) :
  (forall g, In g gpu_models -> get c "gpu" <> Some (PStr g)) ->
  gpu_price_of (gpu_desc_of (gpu_name_of c)) region cat = PyInt 0.
Proof.
  intros H. unfold gpu_name_of, dict_get_default. fold (get c "gpu").
  destruct (get c "gpu") as [v|] eqn:E; [|reflexivity].
  destruct v as [|b|z|f|s|l|d].
  - reflexivity.
  - destruct b; reflexivity.
  - unfold Py.or_else. cbn [Py.truthy].
    destruct (z =? 0); [reflexivity|]. cbn [negb Py.str].
    rewrite (gpu_desc_of_not_N _ (of_int_not_N z)). reflexivity.
  - unfold Py.or_else. destruct (Py.truthy (PFloat f)); reflexivity.
  - unfold Py.or_else. cbn [Py.truthy].
    destruct (String.eqb_spec s "") as [->|Hs]; [reflexivity|].
    cbn [negb Py.str].
    unfold gpu_desc_of, dict_get_default, gpu_desc_map, dict_get.
    destruct (String.eqb_spec "None" s) as [<-|_]; [reflexivity|].
    destruct (String.eqb_spec "NVIDIA T4" s) as [<-|_];
      [exfalso; apply (H "NVIDIA T4"); simpl; tauto|].
    destruct (String.eqb_spec "NVIDIA A100" s) as [<-|_];
      [exfalso; apply (H "NVIDIA A100"); simpl; tauto|].
    destruct (String.eqb_spec "NVIDIA V100" s) as [<-|_];
      [exfalso; apply (H "NVIDIA V100"); simpl; tauto|].
    reflexivity.
  - unfold Py.or_else. destruct (Py.truthy (PList l)); reflexivity.
  - unfold Py.or_else. destruct (Py.truthy (PDict d)); reflexivity.
Qed.

Lemma gpu_price_model (c : config) (g region : string) (cat : price_map) :
  In g gpu_models ->
  get c "gpu" = Some (PStr g) ->
  gpu_price_of (gpu_desc_of (gpu_name_of c)) region cat
  = or_zero (get_price_for_resource g region usage_type cat).
Proof.
  intros Hg E. unfold gpu_name_of, dict_get_default. fold (get c "gpu").
  rewrite E. simpl in Hg.
  destruct Hg as [<-|[<-|[<-|[]]]]; reflexivity.
Qed.

End GpuFacts.

Import GpuFacts.

(** C10 (as stated, refuted).  The configuration asks for the GPU
    [NVIDIA L4], a string other than [None], and the catalogue has a
    price for it; the estimator returns the total 0 for one day, not the
    total with the looked-up price 0.5 (which is 12.0). *)
Lemma unlisted_gpu_costs_nothing :
  ~ (forall (c : config) (g region : string) (cat : price_map),
       get c "gpu" = Some (PStr g) -> g <> "None" ->
       estimate_billing_cost_from_api c region cat
       = estimate_given_gpu_price
           (or_zero (get_price_for_resource g region usage_type cat)) c region cat).
Proof.
  intros H.
  specialize (H l4_config "NVIDIA L4" "us-central1" l4_catalog eq_refl).
  assert (Hne : "NVIDIA L4" <> "None") by discriminate.
  specialize (H Hne). vm_compute in H. discriminate H.
Qed.

(** C10 (amended).  When the gpu field is the string [NVIDIA T4],
    [NVIDIA A100] or [NVIDIA V100], the estimator adds the price found by
    looking that name up as the description fragment with usage type
    OnDemand in the given region, 0 if the lookup misses.  In every other
    case (the field absent, [None], or any other value) the GPU adds 0
    whatever the catalogue holds. *)
Theorem gpu_contribution (c : config) (region : string) (cat : price_map) :
  (forall g, In g gpu_models -> get c "gpu" = Some (PStr g) ->
     estimate_billing_cost_from_api c region cat
     = estimate_given_gpu_price
         (or_zero (get_price_for_resource g region "OnDemand" cat)) c region cat)
  /\ ((forall g, In g gpu_models -> get c "gpu" <> Some (PStr g)) ->
      estimate_billing_cost_from_api c region cat
      = estimate_given_gpu_price (PyInt 0) c region cat)
  /\ (get c "gpu" = None \/ get c "gpu" = Some (PStr "None") ->
      estimate_billing_cost_from_api c region cat
      = estimate_given_gpu_price (PyInt 0) c region cat)
  /\ or_zero None = PyInt 0.
Proof.
  assert (Hother : (forall g, In g gpu_models -> get c "gpu" <> Some (PStr g)) ->
                   estimate_billing_cost_from_api c region cat
                   = estimate_given_gpu_price (PyInt 0) c region cat).
  { intros H. rewrite estimate_unfold, (gpu_price_other c region cat H). reflexivity. }
  split; [|split; [exact Hother | split; [|reflexivity]]].
  - intros g Hg E. rewrite estimate_unfold, (gpu_price_model c g region cat Hg E).
    reflexivity.
  - intros [E|E]; apply Hother; intros g Hg; rewrite E; [discriminate|].
    simpl in Hg. destruct Hg as [<-|[<-|[<-|[]]]]; discriminate.
Qed.

Lemma gpu_contribution_witness :
  estimate_billing_cost_from_api t4_config "us-central1" t4_catalog
  = Ok (PyFloat (dec 84 1), 1)
  /\ estimate_billing_cost_from_api l4_config "us-central1" l4_catalog
     = Ok (PyInt 0, 1)
  /\ estimate_billing_cost_from_api august_config "us-central1" t4_catalog
     = Ok (PyInt 0, 2).
Proof.
  split; [|split].
  - rewrite (proj1 (gpu_contribution t4_config "us-central1" t4_catalog)
               "NVIDIA T4" (or_introl eq_refl) eq_refl).
    vm_compute. reflexivity.
  - rewrite (proj1 (proj2 (gpu_contribution l4_config "us-central1" l4_catalog))).
    + reflexivity.
    + intros g Hg. simpl in Hg.
      destruct Hg as [<-|[<-|[<-|[]]]]; discriminate.
  - rewrite (proj1 (proj2 (proj2 (gpu_contribution august_config "us-central1" t4_catalog)))).
    + reflexivity.
    + right. reflexivity.
Defined.

(** ** Dicts with string keys *)

Section DictFacts.

Context {V : Type}.
Implicit Types (d : dict string V) (k : string) (v : V).

Lemma dict_get_pop_same d k : dict_get String.eqb (dict_pop String.eqb d k) k = None.
Proof.
  induction d as [|[k' v'] d IH]; simpl; [reflexivity|].
  destruct (String.eqb k' k) eqn:E; simpl; [exact IH|].
  rewrite E. exact IH.
Qed.

Lemma dict_pop_absent d k :
  dict_get String.eqb d k = None -> dict_pop String.eqb d k = d.
Proof.
  induction d as [|[k' v'] d IH]; simpl; [reflexivity|].
  destruct (String.eqb k' k); [discriminate|].
  intros H. rewrite (IH H). reflexivity.
Qed.

Lemma dict_get_set_same d k v :
  dict_get String.eqb (dict_set String.eqb d k v) k = Some v.
Proof.
  induction d as [|[k' v'] d IH]; simpl.
  - rewrite String.eqb_refl. reflexivity.
  - destruct (String.eqb k' k) eqn:E; simpl; rewrite E; [reflexivity | exact IH].
Qed.

Lemma dict_get_set_other d k k' v :
  k' <> k ->
  dict_get String.eqb (dict_set String.eqb d k v) k' = dict_get String.eqb d k'.
Proof.
  intros Hne.
  induction d as [|[k0 v0] d IH]; simpl.
  - destruct (String.eqb_spec k k'); [congruence | reflexivity].
  - destruct (String.eqb_spec k0 k) as [->|]; simpl.
    + destruct (String.eqb_spec k k'); [congruence | reflexivity].
    + destruct (String.eqb k0 k'); [reflexivity | exact IH].
Qed.

Lemma dict_get_pop_other d k k' :
  k' <> k ->
  dict_get String.eqb (dict_pop String.eqb d k) k' = dict_get String.eqb d k'.
Proof.
  intros Hne.
  induction d as [|[k0 v0] d IH]; simpl; [reflexivity|].
  destruct (String.eqb_spec k0 k) as [->|]; simpl.
  - destruct (String.eqb_spec k k'); [congruence | exact IH].
  - destruct (String.eqb k0 k'); [reflexivity | exact IH].
Qed.

End DictFacts.

(** ** The checkbox loop *)

Module ReconcilerFacts.

Import Estimate Reconciler.

Lemma list_mem_In x l : list_mem x l = true <-> In x l.
Proof.
  unfold list_mem. rewrite existsb_exists. split.
  - intros (y & Hy & E). apply String.eqb_eq in E. subst. exact Hy.
  - intros H. exists x. split; [exact H | apply String.eqb_refl].
Qed.

Lemma list_mem_false x l : list_mem x l = false <-> ~ In x l.
Proof.
  rewrite <- list_mem_In. destruct (list_mem x l); split; congruence.
Qed.

Lemma list_mem_snoc x l : list_mem x (l ++ [x])%list = true.
Proof. apply list_mem_In, in_or_app. right. left. reflexivity. Qed.

Lemma list_remove_snoc x l :
  ~ In x l -> list_remove x (l ++ [x])%list = l.
Proof.
  induction l as [|y l IH]; simpl; intros H.
  - rewrite String.eqb_refl. reflexivity.
  - destruct (String.eqb_spec y x) as [->|Hne].
    + exfalso. apply H. left. reflexivity.
    + rewrite IH; [reflexivity | tauto].
Qed.

Lemma list_remove_other x y l :
  y <> x -> (In y (list_remove x l) <-> In y l).
Proof.
  intros Hne. induction l as [|z l IH]; simpl; [tauto|].
  destruct (String.eqb_spec z x) as [->|Hzx]; simpl.
  - split; [tauto|]. intros [E|H]; [congruence | exact H].
  - rewrite IH. tauto.
Qed.

Lemma list_remove_NoDup x l : NoDup l -> NoDup (list_remove x l) /\ ~ In x (list_remove x l).
Proof.
  induction 1 as [|y l Hy Hl IH]; simpl.
  - split; [constructor | tauto].
  - destruct (String.eqb_spec y x) as [->|Hne].
    + split; assumption.
    + destruct IH as [IH1 IH2]. split.
      * constructor; [|exact IH1].
        rewrite list_remove_other; assumption.
      * simpl. intros [E|H]; [congruence | tauto].
Qed.

Lemma default_of_table :
  default_of "compute" = 4 /\ default_of "memory" = 16
  /\ default_of "storage" = 100 /\ default_of "budget" = 1000.
Proof. repeat split. Qed.

Lemma removeField_fresh field st :
  ~ In field (removed_fields st) ->
  removeField field st =
    mkstate (dict_pop String.eqb (editable_rec st) field)
            (removed_fields st ++ [field])%list.
Proof.
  intros H. apply list_mem_false in H.
  unfold removeField, reconcile_field. rewrite H. reflexivity.
Qed.

Lemma removeField_removed field st :
  In field (removed_fields st) -> removeField field st = st.
Proof.
  intros H. apply list_mem_In in H.
  unfold removeField, reconcile_field. rewrite H. reflexivity.
Qed.

Lemma restoreField_kept field st :
  ~ In field (removed_fields st) -> restoreField field st = st.
Proof.
  intros H. apply list_mem_false in H.
  unfold restoreField, reconcile_field. rewrite H. reflexivity.
Qed.

(** Either operation keeps the state consistent. *)
Lemma reconcile_field_consistent keep field st :
  consistent st -> consistent (reconcile_field keep field st).
Proof.
  intros [Hnd Habs]. unfold reconcile_field.
  destruct keep; cbn [negb andb].
  - destruct (list_mem field (removed_fields st)) eqn:E; [|split; assumption].
    destruct (list_remove_NoDup field _ Hnd) as [Hnd' Hnot].
    assert (Hin : forall f, In f (list_remove field (removed_fields st)) ->
                            f <> field /\ In f (removed_fields st)).
    { intros f Hf. assert (f <> field) by (intros ->; tauto).
      split; [assumption|]. apply (list_remove_other field f); assumption. }
    unfold dict_mem.
    destruct (dict_get String.eqb (editable_rec st) field) eqn:G; cbn [negb];
      split; cbn [removed_fields editable_rec]; try exact Hnd'.
    + intros f Hf. apply Habs, Hin, Hf.
    + intros f Hf. destruct (Hin f Hf) as [Hne Hold].
      unfold get. rewrite dict_get_set_other by exact Hne. apply Habs, Hold.
  - destruct (list_mem field (removed_fields st)) eqn:E; [split; assumption|].
    apply list_mem_false in E. cbn [negb].
    split; cbn [removed_fields editable_rec].
    + rewrite <- (rev_involutive (removed_fields st ++ [field])%list).
      apply NoDup_rev. rewrite rev_app_distr. simpl.
      constructor; [rewrite <- in_rev; exact E | apply NoDup_rev, Hnd].
    + intros f Hf. apply in_app_or in Hf. unfold get.
      destruct Hf as [Hf|[<-|[]]].
      * destruct (String.eqb_spec f field) as [->|Hne]; [apply dict_get_pop_same|].
        rewrite dict_get_pop_other by exact Hne. apply Habs, Hf.
      * apply dict_get_pop_same.
Qed.

End ReconcilerFacts.

Import ReconcilerFacts.

(** ** The checkbox loop and the two operations *)

Module LoopFacts.

Import Estimate Reconciler.

(** A box left as it is shown changes nothing. *)
Lemma reconcile_field_as_shown (field : string) (st : state) :
  reconcile_field (negb (list_mem field (removed_fields st))) field st = st.
Proof.
  unfold reconcile_field.
  destruct (list_mem field (removed_fields st)); reflexivity.
Qed.

(** A pass of the checkbox loop in which the user changes the box of one
    field, and leaves the other boxes as shown, is the operation on that
    field. *)
Lemma reconcile_checkboxes_one
    (checkbox : string -> bool -> string -> bool) (keep : bool) (x : string) (st : state) :
  In x field_names ->
  (forall l v, checkbox l v ("keep_" ++ x)%string = keep) ->
  (forall l v k, k <> ("keep_" ++ x)%string -> checkbox l v k = v) ->
  reconcile_checkboxes checkbox st = reconcile_field keep x st.
Proof.
  intros Hx Hone Hrest. unfold reconcile_checkboxes, field_names.
  simpl in Hx. destruct Hx as [<-|[<-|[<-|[<-|[]]]]];
    cbn [fold_left append] in *;
    rewrite !Hone; rewrite !Hrest by discriminate;
    rewrite !reconcile_field_as_shown; reflexivity.
Qed.

End LoopFacts.

Import LoopFacts.

(** C9.  [removeField] is idempotent: applied twice to any state, for any
    field name, it leaves the configuration and the removal list exactly
    as one application does. *)
Theorem removeField_idempotent (x : string) (st : state) :
  removeField x (removeField x st) = removeField x st.
Proof.
  destruct (list_mem x (removed_fields st)) eqn:E.
  - apply list_mem_In in E.
    rewrite (removeField_removed x st E). apply removeField_removed, E.
  - apply list_mem_false in E.
    rewrite (removeField_fresh x st E).
    apply removeField_removed. cbn [removed_fields].
    apply in_or_app. right. left. reflexivity.
Qed.

(** C8.  For a quantified field [x] that holds a value [v] and is not in
    the removal list, [removeField x] followed by [restoreField x] leaves
    [x] present with the default of the table (compute 4, memory 16,
    storage 100, budget 1000), whatever [v] was, and the removal list as
    it was; and [restoreField x] changes neither the configuration nor
    the removal list of any state [st'] in which [x] is not removed. *)
Theorem remove_then_restore_default (x : string) (v : pyval) (st st' : state) :
  In x field_names ->
  get (editable_rec st) x = Some v ->
  ~ In x (removed_fields st) ->
  ~ In x (removed_fields st') ->
  get (editable_rec (restoreField x (removeField x st))) x = Some (PInt (default_of x))
  /\ In (x, default_of x) [("compute", 4); ("memory", 16); ("storage", 100); ("budget", 1000)]
  /\ removed_fields (restoreField x (removeField x st)) = removed_fields st
  /\ restoreField x st' = st'.
Proof.
  intros Hq Hv Hr Hr'.
  rewrite (removeField_fresh x st Hr).
  unfold restoreField at 1 2, reconcile_field.
  cbn [removed_fields editable_rec negb andb].
  rewrite list_mem_snoc. cbn [negb andb].
  unfold dict_mem. rewrite dict_get_pop_same. cbn [negb].
  cbn [removed_fields editable_rec].
  repeat split.
  - unfold get. apply dict_get_set_same.
  - simpl in Hq.
    destruct Hq as [<-|[<-|[<-|[<-|[]]]]]; simpl; tauto.
  - apply list_remove_snoc, Hr.
  - apply restoreField_kept, Hr'.
Qed.

Lemma remove_then_restore_default_witness :
  get (editable_rec (restoreField "compute"
                       (removeField "compute" (mkstate [("compute", PInt 64)] []))))
      "compute" = Some (PInt 4)
  /\ restoreField "compute" (mkstate [("compute", PInt 64)] ["budget"])
     = mkstate [("compute", PInt 64)] ["budget"].
Proof.
  destruct (remove_then_restore_default "compute" (PInt 64)
              (mkstate [("compute", PInt 64)] [])
              (mkstate [("compute", PInt 64)] ["budget"])) as (H1 & _ & _ & H2).
  - simpl. tauto.
  - reflexivity.
  - simpl. tauto.
  - simpl. intros [H|[]]. discriminate H.
  - split; [exact H1 | exact H2].
Defined.

(** ** The slider loop *)

(** C5 (as stated, refuted).  The field [compute] holds the text [abc],
    which [int] rejects; after the slider step, with a slider the user
    does not touch, the field holds the minimum 1 of the field and no
    longer the text. *)
Lemma invalid_value_is_overwritten :
  ~ (forall (slider : string -> Z -> Z -> Z -> Z -> string -> Z)
            (field : string) (rec : config) (v : pyval) (warnings : list string),
       In field field_names ->
       get rec field = Some v ->
       raises (Py.int v) ->
       exists rec' warnings',
         adjust_field slider field (rec, warnings) = Ok (rec', warnings')
         /\ warnings' <> warnings
         /\ get rec' field = Some v).
Proof.
  intros H.
  destruct (H untouched_slider "compute" abc_config (PStr "abc") [])
    as (rec' & warnings' & E & _ & G).
  - simpl. tauto.
  - reflexivity.
  - exists ValueError. reflexivity.
  - vm_compute in E. injection E as <- _. discriminate G.
Qed.

(** C5 (amended).  For a quantified field whose stored value [int]
    rejects, the slider step reports a warning that names the field.  If
    the value is a dict or a list the step stops there and the
    configuration is unchanged.  Otherwise the slider is started at the
    minimum of the field and the stored value is replaced by the integer
    the slider returns. *)
Theorem coercion_failure_outcome
    (slider : string -> Z -> Z -> Z -> Z -> string -> Z)
    (field : string) (rec : config) (v : pyval) (warnings : list string) :
  In field field_names ->
  get rec field = Some v ->
  raises (Py.int v) ->
  exists p,
    dict_get String.eqb editable_fields field = Some p
    /\ (Py.is_dict_or_list v = true ->
        adjust_field slider field (rec, warnings)
        = Ok (rec, (warnings ++ [skip_warning field])%list))
    /\ (Py.is_dict_or_list v = false ->
        adjust_field slider field (rec, warnings)
        = Ok (dict_set String.eqb rec field
                (PInt (slider (label p) (min p) (max p) (min p) (step p)
                         ("slider_" ++ field)%string)),
              (warnings ++ [invalid_warning field])%list)).
Proof.
  intros Hq Hv [e He].
  assert (Hp : exists p, dict_get String.eqb editable_fields field = Some p).
  { simpl in Hq. destruct Hq as [<-|[<-|[<-|[<-|[]]]]]; eexists; reflexivity. }
  destruct Hp as [p Hp]. exists p. split; [exact Hp|].
  unfold adjust_field, Catalog.subscript, dict_get_default.
  fold (get rec field). rewrite Hp, Hv. cbn [bind].
  split; intros Hd; rewrite Hd; [reflexivity|].
  rewrite He. reflexivity.
Qed.

Lemma coercion_failure_outcome_witness :
  adjust_field untouched_slider "compute" (abc_config, [])
  = Ok ([("compute", PInt 1); ("memory", PInt 16)],
        ["Invalid value for 'compute', resetting to minimum."])
  /\ adjust_field untouched_slider "compute" (listed_config, [])
     = Ok (listed_config, ["Skipping slider for 'compute' due to invalid type."]).
Proof.
  split.
  - destruct (coercion_failure_outcome untouched_slider "compute" abc_config
                (PStr "abc") []) as (p & Hp & _ & H).
    + simpl. tauto.
    + reflexivity.
    + exists ValueError. reflexivity.
    + rewrite (H eq_refl). injection Hp as <-. reflexivity.
  - destruct (coercion_failure_outcome untouched_slider "compute" listed_config
                (PList [PInt 4]) []) as (p & _ & H & _).
    + simpl. tauto.
    + reflexivity.
    + exists TypeError. reflexivity.
    + rewrite (H eq_refl). reflexivity.
Defined.

(** ** Ingestion of catalogue records *)

Module IngestFacts.

Import Catalog.

Lemma ingest_price_infos_no_tier (k : key) (infos : list pricing_info) (m : price_map) :
  forallb no_tier infos = true -> ingest_price_infos k infos m = (m, None).
Proof.
  induction infos as [|pi infos IH]; simpl; [reflexivity|].
  rewrite andb_true_iff. intros [Hpi Hrest].
  unfold ingest_price_info. unfold no_tier in Hpi.
  destruct (get_or (tieredRates (get_or (pricingExpression pi) empty_expression)) []);
    [apply IH, Hrest | discriminate].
Qed.

Lemma ingest_skus_app (l1 l2 : list sku) (m : price_map) :
  ingest_skus (l1 ++ l2) m
  = match ingest_skus l1 m with
    | (m', None) => ingest_skus l2 m'
    | (m', Some e) => (m', Some e)
    end.
Proof.
  revert m. induction l1 as [|s l1 IH]; intros m; simpl; [reflexivity|].
  destruct (ingest_sku s m) as [m' [e|]]; [reflexivity | apply IH].
Qed.

Lemma ingest_sku_no_tier (s : sku) (m : price_map) :
  has_service_name s = true -> no_priced_tier s = true -> ingest_sku s m = (m, None).
Proof.
  unfold has_service_name, no_priced_tier, ingest_sku, subscript.
  destruct (sku_category s) as [c|]; [|discriminate]. cbn [bind].
  destruct (serviceDisplayName c) as [n|]; [|discriminate].
  intros _ H. cbn [bind].
  destruct (Text.contains "Compute Engine" n); [|reflexivity].
  apply ingest_price_infos_no_tier, H.
Qed.

Lemma price_of_empty_money : price_per_unit empty_money = Ok (PyFloat Float.zero).
Proof. vm_compute. reflexivity. Qed.

End IngestFacts.

Import IngestFacts.

Example core_sku_price :
  fetch_pricing_skus [Page (mkresponse (Some [core_sku]) None)]
  = [(("N1 Predefined Instance Core", "us-central1", "OnDemand"), PyFloat (dec 3 2))].
Proof. vm_compute. reflexivity. Qed.

Example fetch_failure_keeps_partial_map :
  fetch_pages [Page (mkresponse (Some [core_sku]) (Some "t1")); Failed KeyError;
               Page (mkresponse (Some [unpriced_sku]) None)] []
  = ([(("N1 Predefined Instance Core", "us-central1", "OnDemand"), PyFloat (dec 3 2))],
     Some KeyError).
Proof. vm_compute. reflexivity. Qed.

(** C6 (as stated, refuted).  The record [unpriced_sku] has a tier
    without price; it is not skipped: ingestion puts an entry with the
    price 0.0 for it into an empty map. *)
Lemma unpriced_record_is_ingested :
  ~ (forall (s : sku) (m : price_map),
       has_service_name s = true ->
       missing_price s = true \/ no_priced_tier s = true ->
       ingest_sku s m = (m, None)).
Proof.
  intros H.
  specialize (H unpriced_sku [] eq_refl (or_introl eq_refl)).
  vm_compute in H. discriminate H.
Qed.

(* ===================================================================== *)
(** * Further properties of the catalogue *)
(* ===================================================================== *)

Module LookupFacts.

Import Catalog TextFacts CatalogFacts.

Lemma contains_in_empty (r : string) : Text.contains r "" = true <-> r = "".
Proof.
  rewrite contains_spec. split.
  - intros (pre & post & H). destruct pre; [|discriminate].
    destruct r; [reflexivity | discriminate].
  - intros ->. exists "", "". reflexivity.
Qed.

Lemma key_eqb_eq (a b : key) : key_eqb a b = true <-> a = b.
Proof.
  destruct a as [[d1 r1] u1], b as [[d2 r2] u2]. unfold key_eqb.
  rewrite !andb_true_iff, !String.eqb_eq. split.
  - intros [[-> ->] ->]. reflexivity.
  - intros H. injection H as -> -> ->. tauto.
Qed.

Lemma key_eqb_refl (a : key) : key_eqb a a = true.
Proof. apply key_eqb_eq. reflexivity. Qed.

Lemma sku_matches_own (d r u : string) : sku_matches d r u (d, r, u) = true.
Proof.
  apply sku_matches_spec. split; [apply contains_refl|].
  split; [left; apply contains_refl | reflexivity].
Qed.

End LookupFacts.

Import LookupFacts.

(** X1.  Entries that come later in the map never change an answer:
    the lookup in [cat ++ more] is the lookup in [cat] when that one
    hits, and the lookup in [more] when it misses. *)
Theorem lookup_append (q region ut : string) (cat more : price_map) :
  get_price_for_resource q region ut (cat ++ more)%list
  = match get_price_for_resource q region ut cat with
    | Some p => Some p
    | None => get_price_for_resource q region ut more
    end.
Proof.
  induction cat as [|[k p] cat IH]; simpl; [reflexivity|].
  destruct (sku_matches q region ut k); [reflexivity | exact IH].
Qed.

(** X2.  An empty requested region passes the region test of every
    entry, and an empty fragment the description test: with both empty
    the lookup answers with the first entry of the usage type. *)
Theorem empty_query_matches_all
    (q region ut desc rgn usage : string) (p : num) (rest : price_map) :
  get_price_for_resource q "" ut (((desc, rgn, usage), p) :: rest)
  = (if Text.contains q desc && String.eqb usage ut then Some p
     else get_price_for_resource q "" ut rest)
  /\ get_price_for_resource "" region ut (((desc, rgn, usage), p) :: rest)
     = (if (Text.contains region rgn || String.eqb rgn "global") && String.eqb usage ut
        then Some p
        else get_price_for_resource "" region ut rest)
  /\ get_price_for_resource "" "" ut (((desc, rgn, usage), p) :: rest)
     = (if String.eqb usage ut then Some p
        else get_price_for_resource "" "" ut rest).
Proof.
  cbn [get_price_for_resource]. unfold sku_matches.
  rewrite !contains_empty. cbn [orb andb]. rewrite andb_true_r.
  repeat split.
Qed.

(** X3.  A record without [serviceRegions], or with an empty list of
    them, is stored under the region [""]; such an entry passes the
    region test of no requested region but the empty one, so a lookup
    for a named region never answers with it. *)
Theorem regionless_record_is_unreachable
    (s : sku) (c : category) (q region ut : string) (p : num) :
  serviceRegions s = None \/ serviceRegions s = Some [] ->
  region <> "" ->
  snd (fst (sku_key s c)) = ""
  /\ sku_matches q region ut (sku_key s c) = false
  /\ get_price_for_resource q region ut [(sku_key s c, p)] = None.
Proof.
  intros Hr Hne.
  assert (E : sku_key s c = (get_or (description s) "", "", get_or (usageType c) "")).
  { unfold sku_key. destruct Hr as [-> | ->]; reflexivity. }
  assert (M : sku_matches q region ut (sku_key s c) = false).
  { rewrite E. unfold sku_matches.
    destruct (Text.contains region "") eqn:C.
    - apply contains_in_empty in C. contradiction.
    - cbn [orb String.eqb]. rewrite andb_false_r. reflexivity. }
  split; [rewrite E; reflexivity|]. split; [exact M|].
  cbn [get_price_for_resource]. rewrite M. reflexivity.
Qed.

Lemma regionless_record_is_unreachable_witness :
  get_price_for_resource "N1 Predefined Instance Core" "us-central1" "OnDemand"
    [(sku_key regionless_sku compute_engine, PyFloat (dec 3 2))] = None.
Proof.
  apply (regionless_record_is_unreachable regionless_sku compute_engine "N1 Predefined Instance Core" "us-central1" "OnDemand"
           (PyFloat (dec 3 2))).
  - left. reflexivity.
  - discriminate.
Defined.

Module IngestMore.

Import Catalog CatalogShapes.

Lemma price_per_unit_float (money : money) (p : num) :
  price_per_unit money = Ok p -> exists f, p = PyFloat f.
Proof.
  unfold price_per_unit, Num.truediv_float, bind.
  destruct (Py.to_num (get_or (nanos money) (PInt 0))) as [n|]; [|discriminate].
  destruct (Num.to_float n) as [x|]; [|discriminate].
  destruct (Py.to_num (get_or (units money) (PInt 0))) as [u|]; [|discriminate].
  destruct u as [z|g]; cbn [Num.add Num.to_float bind].
  - destruct (Float.of_int z); [|discriminate].
    intros H. injection H as <-. eexists. reflexivity.
  - intros H. injection H as <-. eexists. reflexivity.
Qed.

Lemma dict_set_keys (m : price_map) (k : key) (p : num) :
  keys (dict_set key_eqb m k p) = keys m
  \/ (~ In k (keys m) /\ keys (dict_set key_eqb m k p) = (keys m ++ [k])%list).
Proof.
  unfold keys. induction m as [|[k0 p0] m IH]; simpl.
  - right. split; [tauto | reflexivity].
  - destruct (key_eqb k0 k) eqn:E; [left; reflexivity|].
    simpl. destruct IH as [IH | [Hn IH]].
    + left. rewrite IH. reflexivity.
    + right. split.
      * intros [->|H]; [|tauto]. rewrite key_eqb_refl in E. discriminate.
      * rewrite IH. reflexivity.
Qed.

Lemma dict_set_In (m : price_map) (k : key) (p : num) (k' : key) (p' : num) :
  In (k', p') (dict_set key_eqb m k p) -> In (k', p') m \/ p' = p.
Proof.
  induction m as [|[k0 p0] m IH]; simpl.
  - intros [H|[]]. injection H as _ <-. right. reflexivity.
  - destruct (key_eqb k0 k); simpl.
    + intros [H|H]; [injection H as _ <-; right; reflexivity | left; right; exact H].
    + intros [H|H]; [left; left; exact H|].
      destruct (IH H); [left; right; assumption | right; assumption].
Qed.

Lemma dict_set_get (m : price_map) (k : key) (p : num) :
  dict_get key_eqb (dict_set key_eqb m k p) k = Some p.
Proof.
  induction m as [|[k0 p0] m IH]; simpl.
  - rewrite key_eqb_refl. reflexivity.
  - destruct (key_eqb k0 k) eqn:E; simpl; rewrite E; [reflexivity | exact IH].
Qed.

Lemma grows_refl (m : price_map) : grows m m.
Proof. repeat split; tauto. Qed.

Lemma grows_trans (a b c : price_map) : grows a b -> grows b c -> grows a c.
Proof.
  intros (H1 & H2 & H3) (G1 & G2 & G3). repeat split; auto.
Qed.

Lemma grows_set (m : price_map) (k : key) (f : float) :
  grows m (dict_set key_eqb m k (PyFloat f)).
Proof.
  split; [|split].
  - intros k' H. destruct (dict_set_keys m k (PyFloat f)) as [E | [_ E]]; rewrite E;
      [exact H | apply in_or_app; left; exact H].
  - intros H. destruct (dict_set_keys m k (PyFloat f)) as [E | [Hn E]]; rewrite E;
      [exact H|].
    rewrite <- (rev_involutive (keys m ++ [k])%list).
    apply NoDup_rev. rewrite rev_app_distr. simpl.
    constructor; [rewrite <- in_rev; exact Hn | apply NoDup_rev, H].
  - intros H k' p' Hin. destruct (dict_set_In _ _ _ _ _ Hin) as [Hold | ->];
      [eapply H, Hold | eexists; reflexivity].
Qed.

Lemma ingest_price_info_grows (k : key) (pi : pricing_info) (m : price_map) :
  grows m (fst (ingest_price_info k pi m)).
Proof.
  unfold ingest_price_info.
  destruct (get_or (tieredRates (get_or (pricingExpression pi) empty_expression)) [])
    as [|first rest]; [apply grows_refl|].
  destruct (price_per_unit (get_or (unitPrice first) empty_money)) as [p|e] eqn:E;
    [|apply grows_refl].
  destruct (price_per_unit_float _ _ E) as [f ->]. apply grows_set.
Qed.

Lemma ingest_price_infos_grows (k : key) (infos : list pricing_info) (m : price_map) :
  grows m (fst (ingest_price_infos k infos m)).
Proof.
  revert m. induction infos as [|pi infos IH]; intros m; simpl; [apply grows_refl|].
  pose proof (ingest_price_info_grows k pi m) as H.
  destruct (ingest_price_info k pi m) as [m' [e|]]; [exact H|].
  eapply grows_trans; [exact H | apply IH].
Qed.

Lemma ingest_sku_grows (s : sku) (m : price_map) : grows m (fst (ingest_sku s m)).
Proof.
  unfold ingest_sku.
  destruct (c <- subscript (sku_category s) ;;
            n <- subscript (serviceDisplayName c) ;; Ok (c, n)) as [[c n]|e];
    [|apply grows_refl].
  destruct (Text.contains "Compute Engine" n); [|apply grows_refl].
  apply ingest_price_infos_grows.
Qed.

Lemma ingest_skus_grows (l : list sku) (m : price_map) : grows m (fst (ingest_skus l m)).
Proof.
  revert m. induction l as [|s l IH]; intros m; simpl; [apply grows_refl|].
  pose proof (ingest_sku_grows s m) as H.
  destruct (ingest_sku s m) as [m' [e|]]; [exact H|].
  eapply grows_trans; [exact H | apply IH].
Qed.

Lemma fetch_pages_grows (pages : list fetched) (m : price_map) :
  grows m (fst (fetch_pages pages m)).
Proof.
  revert m. induction pages as [|[r|e] pages IH]; intros m; simpl;
    [apply grows_refl | | apply grows_refl].
  pose proof (ingest_skus_grows (get_or (skus r) []) m) as H.
  destruct (ingest_skus (get_or (skus r) []) m) as [m' [e|]]; [exact H|].
  destruct (nextPageToken r) as [tok|]; [|exact H].
  destruct (String.eqb tok ""); [exact H|].
  eapply grows_trans; [exact H | apply IH].
Qed.

End IngestMore.

Import IngestMore.

(** X4.  Whatever the service delivers, and wherever a fetch or a record
    makes the loop stop, the map that [fetch_pricing_skus] returns has at
    most one entry per key and every price in it is a float. *)
Theorem fetched_map_is_a_dict_of_floats (pages : list fetched) :
  NoDup (map fst (fetch_pricing_skus pages))
  /\ forall k p, In (k, p) (fetch_pricing_skus pages) -> exists f, p = PyFloat f.
Proof.
  destruct (fetch_pages_grows pages []) as (_ & Hnd & Hfl).
  split.
  - apply Hnd. constructor.
  - apply Hfl. intros k p [].
Qed.

(** X5.  Ingestion never takes a key out of the map: every key held
    before the pages are fetched is held afterwards, also when the loop
    ends in an exception. *)
Theorem ingestion_keeps_keys (pages : list fetched) (m : price_map) (k : key) :
  In k (map fst m) -> In k (map fst (fst (fetch_pages pages m))).
Proof.
  intros H. destruct (fetch_pages_grows pages m) as (Hk & _ & _). apply Hk, H.
Qed.

Lemma ingestion_keeps_keys_witness :
  In ("N1 Predefined Instance Core", "us-central1", "OnDemand")
     (map fst (fst (fetch_pages [Page (mkresponse (Some [unpriced_sku]) (Some "t")); Failed KeyError]
                                core_catalog))).
Proof.
  apply ingestion_keeps_keys. left. reflexivity.
Defined.

Module IngestSteps.

Import Catalog CatalogShapes.

Lemma ingest_sku_priced (s : sku) (c : category) (n : string) (money : money)
    (tiers : list tiered_rate) (p : num) (m : price_map) :
  sku_category s = Some c ->
  serviceDisplayName c = Some n ->
  Text.contains "Compute Engine" n = true ->
  pricingInfo s = Some [mkinfo (Some (mkexpr (Some (mkrate (Some money) :: tiers))))] ->
  price_per_unit money = Ok p ->
  ingest_sku s m = (dict_set key_eqb m (sku_key s c) p, None).
Proof.
  intros Hc Hn Hce Hpi Hp.
  unfold ingest_sku, subscript. rewrite Hc. cbn [bind]. rewrite Hn. cbn [bind].
  rewrite Hce, Hpi.
  cbn [get_or ingest_price_infos ingest_price_info pricingExpression tieredRates unitPrice].
  rewrite Hp. reflexivity.
Qed.

Lemma ingest_sku_other_service (s : sku) (c : category) (n : string) (m : price_map) :
  sku_category s = Some c ->
  serviceDisplayName c = Some n ->
  Text.contains "Compute Engine" n = false ->
  ingest_sku s m = (m, None).
Proof.
  intros Hc Hn Hce.
  unfold ingest_sku, subscript. rewrite Hc. cbn [bind]. rewrite Hn. cbn [bind].
  rewrite Hce. reflexivity.
Qed.

Lemma ingest_sku_nameless (s : sku) (m : price_map) :
  has_service_name s = false -> ingest_sku s m = (m, Some KeyError).
Proof.
  unfold has_service_name, ingest_sku, subscript.
  destruct (sku_category s) as [c|]; cbn [bind]; [|reflexivity].
  destruct (serviceDisplayName c); cbn [bind]; [discriminate | reflexivity].
Qed.

End IngestSteps.

Import IngestSteps.

(** X6.  A Compute Engine record with one pricing entry whose first tier
    has a price that computes is found again: fetched alone, it gives a
    map with the single key (description, first region, usage type) and
    the price of the first tier, whatever tiers follow, and the lookup
    for that description, region and usage type answers with the
    price. *)
Theorem ingest_then_lookup (s : sku) (c : category) (n : string) (money : money)
    (tiers : list tiered_rate) (p : num) :
  sku_category s = Some c ->
  serviceDisplayName c = Some n ->
  Text.contains "Compute Engine" n = true ->
  pricingInfo s = Some [mkinfo (Some (mkexpr (Some (mkrate (Some money) :: tiers))))] ->
  price_per_unit money = Ok p ->
  fetch_pricing_skus [Page (mkresponse (Some [s]) None)] = [(sku_key s c, p)]
  /\ get_price_for_resource (fst (fst (sku_key s c))) (snd (fst (sku_key s c)))
       (snd (sku_key s c)) (fetch_pricing_skus [Page (mkresponse (Some [s]) None)])
     = Some p.
Proof.
  intros Hc Hn Hce Hpi Hp.
  assert (E : fetch_pricing_skus [Page (mkresponse (Some [s]) None)] = [(sku_key s c, p)]).
  { unfold fetch_pricing_skus, fetch_pages.
    cbn [skus get_or nextPageToken ingest_skus].
    rewrite (ingest_sku_priced s c n money tiers p [] Hc Hn Hce Hpi Hp). reflexivity. }
  split; [exact E|]. rewrite E.
  destruct (sku_key s c) as [[d r] u]. cbn [fst snd get_price_for_resource].
  rewrite sku_matches_own. reflexivity.
Qed.

Lemma ingest_then_lookup_witness :
  get_price_for_resource "N1 Predefined Instance Core" "us-central1" "OnDemand"
    (fetch_pricing_skus [Page (mkresponse (Some [core_sku]) None)])
  = Some (PyFloat (dec 3 2)).
Proof.
  apply (ingest_then_lookup core_sku compute_engine "Compute Engine"
           (mkmoney (Some (PInt 0)) (Some (PInt 30000000))) [] (PyFloat (dec 3 2)));
    reflexivity.
Defined.

(** X7.  A record of a service whose name does not contain
    [Compute Engine] adds nothing and stops nothing: the records around
    it are ingested as if it were not there, whatever pricing it
    carries. *)
Theorem other_services_are_skipped (s : sku) (c : category) (n : string)
    (m : price_map) (before after : list sku) :
  sku_category s = Some c ->
  serviceDisplayName c = Some n ->
  Text.contains "Compute Engine" n = false ->
  ingest_skus (before ++ s :: after)%list m = ingest_skus (before ++ after)%list m.
Proof.
  intros Hc Hn Hce. rewrite !ingest_skus_app.
  destruct (ingest_skus before m) as [m' [e|]]; [reflexivity|].
  cbn [ingest_skus]. rewrite (ingest_sku_other_service s c n m' Hc Hn Hce). reflexivity.
Qed.

Lemma other_services_are_skipped_witness :
  ingest_skus ([] ++ bucket_sku :: [core_sku])%list [] = ingest_skus [core_sku] [].
Proof.
  apply (other_services_are_skipped bucket_sku
           (mkcategory (Some "Cloud Storage") (Some "OnDemand")) "Cloud Storage"
           [] [] [core_sku]); reflexivity.
Defined.

(** X8.  A record without [category], or without [serviceDisplayName]
    in it, ends the ingestion with a KeyError: the map keeps what the
    records before it put there, and neither the records after it nor
    the pages after its page are read. *)
Theorem nameless_record_stops_ingestion (s : sku) (m m' : price_map)
    (before after : list sku) (token : option string) (rest : list fetched) :
  has_service_name s = false ->
  ingest_skus before m = (m', None) ->
  ingest_skus (before ++ s :: after)%list m = (m', Some KeyError)
  /\ fetch_pages (Page (mkresponse (Some (before ++ s :: after)%list) token) :: rest) m
     = (m', Some KeyError).
Proof.
  intros Hs Hb.
  assert (E : ingest_skus (before ++ s :: after)%list m = (m', Some KeyError)).
  { rewrite ingest_skus_app, Hb. cbn [ingest_skus].
    rewrite (ingest_sku_nameless s m' Hs). reflexivity. }
  split; [exact E|].
  cbn [fetch_pages skus get_or]. rewrite E. reflexivity.
Qed.

Lemma nameless_record_stops_ingestion_witness :
  fetch_pages
    [Page (mkresponse (Some ([core_sku] ++ orphan_sku :: [unpriced_sku])%list) (Some "next"));
     Page (mkresponse (Some [tierless_sku]) None)] []
  = ([(("N1 Predefined Instance Core", "us-central1", "OnDemand"), PyFloat (dec 3 2))],
     Some KeyError).
Proof.
  apply (nameless_record_stops_ingestion orphan_sku []
           [(("N1 Predefined Instance Core", "us-central1", "OnDemand"), PyFloat (dec 3 2))]
           [core_sku] [unpriced_sku]); reflexivity.
Defined.

(** X9.  A priced Compute Engine record whose key the map already holds
    replaces the price in place: the keys and their order are as
    before, and the map gives the new price for the key. *)
Theorem reingestion_replaces_price (s : sku) (c : category) (n : string) (money : money)
    (tiers : list tiered_rate) (p : num) (m : price_map) :
  sku_category s = Some c ->
  serviceDisplayName c = Some n ->
  Text.contains "Compute Engine" n = true ->
  pricingInfo s = Some [mkinfo (Some (mkexpr (Some (mkrate (Some money) :: tiers))))] ->
  price_per_unit money = Ok p ->
  In (sku_key s c) (map fst m) ->
  map fst (fst (ingest_sku s m)) = map fst m
  /\ dict_get key_eqb (fst (ingest_sku s m)) (sku_key s c) = Some p
  /\ snd (ingest_sku s m) = None.
Proof.
  intros Hc Hn Hce Hpi Hp Hin.
  rewrite (ingest_sku_priced s c n money tiers p m Hc Hn Hce Hpi Hp). cbn [fst snd].
  split; [|split; [apply dict_set_get | reflexivity]].
  destruct (dict_set_keys m (sku_key s c) p) as [E | [Hn' _]];
    [exact E | contradiction].
Qed.

Lemma reingestion_replaces_price_witness :
  map fst (fst (ingest_sku core_sku stale_catalog)) = map fst stale_catalog
  /\ dict_get key_eqb (fst (ingest_sku core_sku stale_catalog))
       ("N1 Predefined Instance Core", "us-central1", "OnDemand")
     = Some (PyFloat (dec 3 2)).
Proof.
  destruct (reingestion_replaces_price core_sku compute_engine "Compute Engine"
              (mkmoney (Some (PInt 0)) (Some (PInt 30000000))) [] (PyFloat (dec 3 2))
              stale_catalog eq_refl eq_refl eq_refl eq_refl eq_refl (or_introl eq_refl))
    as (H1 & H2 & _).
  split; [exact H1 | exact H2].
Defined.

(* ===================================================================== *)
(** * Further properties of the estimator and the reconciler *)
(* ===================================================================== *)

Lemma reconcile_checkboxes_consistent
    (checkbox : string -> bool -> string -> bool) (st : state) :
  consistent st -> consistent (reconcile_checkboxes checkbox st).
Proof.
  unfold reconcile_checkboxes. generalize field_names. intros l. revert st.
  induction l as [|f l IH]; intros st H; simpl; [exact H|].
  apply IH. apply reconcile_field_consistent, H.
Qed.

(** X10.  The estimate reads six fields of the configuration and nothing
    else: two configurations that hold the same values for compute,
    memory, storage, gpu, start_date and end_date get the same estimate,
    whatever else they hold (the budget included) and in whatever order
    their keys are. *)
Theorem estimate_reads_six_fields (c c' : config) (region : string) (cat : price_map) :
  (forall k, In k ["compute"; "memory"; "storage"; "gpu"; "start_date"; "end_date"] ->
             get c k = get c' k) ->
  estimate_billing_cost_from_api c region cat
  = estimate_billing_cost_from_api c' region cat.
Proof.
  intros H.
  assert (D : forall k d,
             In k ["compute"; "memory"; "storage"; "gpu"; "start_date"; "end_date"] ->
             dict_get_default String.eqb c k d = dict_get_default String.eqb c' k d).
  { intros k d Hk. unfold dict_get_default. fold (get c k) (get c' k).
    rewrite (H k Hk). reflexivity. }
  unfold estimate_billing_cost_from_api, int_field, gpu_name_of, duration_days,
    parsed_duration, start_of, end_of.
  rewrite !D by (simpl; tauto). reflexivity.
Qed.

Lemma estimate_reads_six_fields_witness :
  estimate_billing_cost_from_api
    (("budget", PInt 5) :: ("project_name", PStr "demo") :: rev august_config)
    "us-central1" august_catalog
  = estimate_billing_cost_from_api august_config "us-central1" august_catalog.
Proof.
  apply estimate_reads_six_fields.
  intros k Hk. simpl in Hk.
  destruct Hk as [<-|[<-|[<-|[<-|[<-|[<-|[]]]]]]]; reflexivity.
Defined.

(** X11.  A field that has just been removed counts as 0 in the
    estimate: after [removeField x] on a state in which [x] was not
    removed, the configuration has no [x] and the estimator reads the
    quantity 0 for it. *)
Theorem removed_field_counts_zero (x : string) (st : state) :
  ~ In x (removed_fields st) ->
  get (editable_rec (removeField x st)) x = None
  /\ int_field (editable_rec (removeField x st)) x = 0
  /\ In x (removed_fields (removeField x st)).
Proof.
  intros H. rewrite (removeField_fresh x st H). cbn [editable_rec removed_fields].
  assert (G : get (dict_pop String.eqb (editable_rec st) x) x = None)
    by apply dict_get_pop_same.
  split; [exact G|]. split.
  - unfold int_field, dict_get_default. fold (get (dict_pop String.eqb (editable_rec st) x) x).
    rewrite G. reflexivity.
  - apply in_or_app. right. left. reflexivity.
Qed.

Lemma removed_field_counts_zero_witness :
  int_field (editable_rec (removeField "compute" (mkstate august_config []))) "compute" = 0.
Proof.
  apply (removed_field_counts_zero "compute" (mkstate august_config [])).
  simpl. tauto.
Defined.

(** X12.  The checkbox loop keeps the state consistent whatever the
    user ticks: if the removed fields are listed once and are absent
    from the configuration before the loop, they are after it.  The
    state a session starts in, with no removed field, is consistent. *)
Theorem checkbox_loop_keeps_consistency
    (checkbox : string -> bool -> string -> bool) (st : state) :
  consistent st ->
  consistent (reconcile_checkboxes checkbox st)
  /\ forall rec, consistent (reconcile_checkboxes checkbox (mkstate rec [])).
Proof.
  intros H. split; [apply reconcile_checkboxes_consistent, H|].
  intros rec. apply reconcile_checkboxes_consistent. split.
  - constructor.
  - intros f [].
Qed.

Lemma checkbox_loop_keeps_consistency_witness :
  consistent (reconcile_checkboxes (fun _ _ _ => false) (mkstate august_config [])).
Proof.
  apply (checkbox_loop_keeps_consistency (fun _ _ _ => false) (mkstate august_config [])).
  split.
  - constructor.
  - intros f [].
Defined.

(** X13.  [restoreField] is idempotent on a state that lists a removed
    field once: applied twice it gives the state one application
    gives. *)
Theorem restoreField_idempotent (x : string) (st : state) :
  NoDup (removed_fields st) ->
  restoreField x (restoreField x st) = restoreField x st.
Proof.
  intros Hnd. apply restoreField_kept.
  unfold restoreField, reconcile_field. cbn [negb andb].
  destruct (list_mem x (removed_fields st)) eqn:E.
  - destruct (list_remove_NoDup x _ Hnd) as [_ Hnot].
    destruct (negb (dict_mem String.eqb (editable_rec st) x)); exact Hnot.
  - apply list_mem_false, E.
Qed.

Lemma restoreField_idempotent_witness :
  restoreField "compute" (restoreField "compute" (mkstate [] ["memory"; "compute"]))
  = mkstate [("compute", PInt 4)] ["memory"].
Proof.
  rewrite (restoreField_idempotent "compute" (mkstate [] ["memory"; "compute"])).
  - reflexivity.
  - repeat constructor; simpl; intuition discriminate.
Defined.

(** X14.  Neither operation touches another field: after the checkbox
    step of [x], every other key has the value it had, and every other
    name is in the removal list exactly when it was. *)
Theorem reconcile_field_frame (keep : bool) (x k : string) (st : state) :
  k <> x ->
  get (editable_rec (reconcile_field keep x st)) k = get (editable_rec st) k
  /\ (In k (removed_fields (reconcile_field keep x st)) <-> In k (removed_fields st)).
Proof.
  intros Hne. unfold reconcile_field, get.
  destruct keep; cbn [negb andb];
    destruct (list_mem x (removed_fields st)); cbn [negb andb]; try tauto.
  - destruct (negb (dict_mem String.eqb (editable_rec st) x));
      cbn [editable_rec removed_fields];
      (split; [|apply list_remove_other, Hne]);
      [apply dict_get_set_other, Hne | reflexivity].
  - cbn [editable_rec removed_fields]. split.
    + apply dict_get_pop_other, Hne.
    + rewrite in_app_iff. simpl. split; [intros [H|[H|[]]]; [exact H | congruence] | tauto].
Qed.

Lemma reconcile_field_frame_witness :
  get (editable_rec (reconcile_field false "compute" (mkstate august_config ["budget"])))
      "memory" = Some (PInt 16).
Proof.
  rewrite (proj1 (reconcile_field_frame false "compute" "memory"
                    (mkstate august_config ["budget"]) ltac:(discriminate))).
  reflexivity.
Defined.

(** X15.  A pass of the checkbox loop in which every box is left as it
    is shown changes nothing; a pass in which exactly the box of one
    quantified field is changed is the operation on that field. *)
Theorem checkbox_loop_follows_user
    (checkbox : string -> bool -> string -> bool) (keep : bool) (x : string) (st : state) :
  ((forall l v k, checkbox l v k = v) -> reconcile_checkboxes checkbox st = st)
  /\ (In x field_names ->
      (forall l v, checkbox l v ("keep_" ++ x)%string = keep) ->
      (forall l v k, k <> ("keep_" ++ x)%string -> checkbox l v k = v) ->
      reconcile_checkboxes checkbox st = reconcile_field keep x st).
Proof.
  split.
  - intros H. unfold reconcile_checkboxes, field_names. cbn [fold_left].
    rewrite !H, !reconcile_field_as_shown. reflexivity.
  - apply reconcile_checkboxes_one.
Qed.

Lemma checkbox_loop_follows_user_witness :
  reconcile_checkboxes (fun _ v _ => v) (mkstate august_config ["budget"])
  = mkstate august_config ["budget"]
  /\ reconcile_checkboxes
       (fun _ v k => if String.eqb k "keep_memory" then false else v)
       (mkstate august_config [])
     = removeField "memory" (mkstate august_config []).
Proof.
  split.
  - apply (proj1 (checkbox_loop_follows_user (fun _ v _ => v) true "compute"
                    (mkstate august_config ["budget"]))).
    reflexivity.
  - apply (proj2 (checkbox_loop_follows_user
                    (fun _ v k => if String.eqb k "keep_memory" then false else v)
                    false "memory" (mkstate august_config []))).
    + simpl. tauto.
    + reflexivity.
    + intros l v k Hk. destruct (String.eqb_spec k "keep_memory"); [contradiction | reflexivity].
Defined.

Module SliderFacts.

Import Estimate Reconciler ReconcilerFacts.

Lemma kept_fields_In (removed : list string) (f : string) :
  In f (kept_fields removed) <-> In f field_names /\ ~ In f removed.
Proof.
  unfold kept_fields. rewrite filter_In, negb_true_iff, list_mem_false. tauto.
Qed.

Lemma field_names_NoDup : NoDup field_names.
Proof. repeat constructor; simpl; intuition discriminate. Qed.

Lemma kept_fields_NoDup (removed : list string) : NoDup (kept_fields removed).
Proof. apply NoDup_filter, field_names_NoDup. Qed.

Lemma adjust_field_spec (slider : string -> Z -> Z -> Z -> Z -> string -> Z)
    (f : string) (rec rec1 : config) (w w1 : list string) :
  adjust_field slider f (rec, w) = Ok (rec1, w1) ->
  (exists more, w1 = (w ++ more)%list)
  /\ (forall k, k <> f -> get rec1 k = get rec k)
  /\ match get rec f with
     | Some v => if Py.is_dict_or_list v then get rec1 f = Some v
                 else exists n, get rec1 f = Some (PInt n)
     | None => exists n, get rec1 f = Some (PInt n)
     end.
Proof.
  unfold adjust_field, Catalog.subscript, dict_get_default. fold (get rec f).
  destruct (dict_get String.eqb editable_fields f) as [p|]; cbn [bind]; [|discriminate].
  destruct (get rec f) as [v|] eqn:G.
  - destruct (Py.is_dict_or_list v) eqn:D.
    + intros H. injection H as <- <-. split; [eexists; reflexivity|].
      split; [reflexivity | exact G].
    + destruct (Py.int v) as [n|e]; intros H; injection H as <- <-;
        (split; [first [exists []; rewrite app_nil_r; reflexivity | eexists; reflexivity]|]);
        (split; [intros k Hk; apply dict_get_set_other, Hk
                | eexists; apply dict_get_set_same]).
  - cbn [Py.is_dict_or_list Py.int]. intros H. injection H as <- <-.
    split; [exists []; rewrite app_nil_r; reflexivity|].
    split; [intros k Hk; apply dict_get_set_other, Hk | eexists; apply dict_get_set_same].
Qed.

Lemma adjust_fields_spec (slider : string -> Z -> Z -> Z -> Z -> string -> Z)
    (l : list string) :
  NoDup l ->
  forall (rec rec' : config) (w w' : list string),
    adjust_fields slider l (rec, w) = Ok (rec', w') ->
    (exists more, w' = (w ++ more)%list)
    /\ (forall k, ~ In k l -> get rec' k = get rec k)
    /\ (forall f, In f l ->
          match get rec f with
          | Some v => if Py.is_dict_or_list v then get rec' f = Some v
                      else exists n, get rec' f = Some (PInt n)
          | None => exists n, get rec' f = Some (PInt n)
          end).
Proof.
  induction 1 as [|f l Hf Hl IH]; intros rec rec' w w' H.
  - cbn [adjust_fields] in H. injection H as <- <-.
    split; [exists []; rewrite app_nil_r; reflexivity|].
    split; [reflexivity | intros f []].
  - cbn [adjust_fields] in H. unfold bind in H.
    destruct (adjust_field slider f (rec, w)) as [[rec1 w1]|e] eqn:E; [|discriminate].
    destruct (adjust_field_spec _ _ _ _ _ _ E) as ((m1 & ->) & F1 & O1).
    destruct (IH _ _ _ _ H) as ((m2 & ->) & F2 & O2).
    split; [exists (m1 ++ m2)%list; rewrite app_assoc; reflexivity|].
    split.
    + intros k Hk. rewrite F2 by (intros Hin; apply Hk; right; exact Hin).
      apply F1. intros ->. apply Hk. left. reflexivity.
    + intros g [<-|Hg].
      * rewrite (F2 f Hf). exact O1.
      * assert (Hne : g <> f) by (intros ->; contradiction).
        specialize (O2 g Hg). rewrite (F1 g Hne) in O2. exact O2.
Qed.

End SliderFacts.

Import SliderFacts.

(** X16.  When the slider loop over the kept fields completes, the
    warnings shown before are still there, no key outside the kept
    fields has changed, and every kept field holds an integer, except a
    field whose value was a dict or a list, which holds that value
    still. *)
Theorem slider_loop_outcome (slider : string -> Z -> Z -> Z -> Z -> string -> Z)
    (removed : list string) (rec rec' : config) (w w' : list string) :
  adjust_fields slider (kept_fields removed) (rec, w) = Ok (rec', w') ->
  (exists more, w' = (w ++ more)%list)
  /\ (forall k, ~ In k (kept_fields removed) -> get rec' k = get rec k)
  /\ (forall f, In f (kept_fields removed) ->
        match get rec f with
        | Some v => if Py.is_dict_or_list v then get rec' f = Some v
                    else exists n, get rec' f = Some (PInt n)
        | None => exists n, get rec' f = Some (PInt n)
        end).
Proof.
  apply adjust_fields_spec, kept_fields_NoDup.
Qed.

Lemma slider_loop_outcome_witness :
  exists n, get (fst (try_except
                        (adjust_fields untouched_slider (kept_fields ["budget"])
                           ([("compute", PStr "8"); ("memory", PFloat (dec 165 1));
                             ("storage", PStr "lots"); ("budget", PInt 7)], []))
                        ([], [])))
                "memory" = Some (PInt n).
Proof.
  destruct (slider_loop_outcome untouched_slider ["budget"]
              [("compute", PStr "8"); ("memory", PFloat (dec 165 1));
               ("storage", PStr "lots"); ("budget", PInt 7)]
              [("compute", PInt 8); ("memory", PInt 16);
               ("storage", PInt 1); ("budget", PInt 7)]
              []
              ["Invalid value for 'storage', resetting to minimum."] eq_refl)
    as (_ & _ & H).
  exact (H "memory" (or_intror (or_introl eq_refl))).
Defined.

(** X17.  After a rendering of the two loops from a consistent state, a
    quantified field is in the configuration exactly when it is not in
    the removal list: a removed field is absent, a kept field has a
    value, whatever the user did with the boxes and the sliders. *)
Theorem present_iff_kept
    (checkbox : string -> bool -> string -> bool)
    (slider : string -> Z -> Z -> Z -> Z -> string -> Z)
    (st : state) (rec' : config) (w' : list string) (f : string) :
  consistent st ->
  adjust_fields slider (kept_fields (removed_fields (reconcile_checkboxes checkbox st)))
    (editable_rec (reconcile_checkboxes checkbox st), []) = Ok (rec', w') ->
  In f field_names ->
  (get rec' f = None <-> In f (removed_fields (reconcile_checkboxes checkbox st))).
Proof.
  intros Hc Hs Hf.
  pose proof (reconcile_checkboxes_consistent checkbox st Hc) as [_ Habs].
  destruct (adjust_fields_spec slider _ (kept_fields_NoDup _) _ _ _ _ Hs)
    as (_ & Hframe & Hkept).
  split.
  - intros Hnone.
    destruct (list_mem f (removed_fields (reconcile_checkboxes checkbox st))) eqn:E;
      [apply list_mem_In, E|].
    apply list_mem_false in E. exfalso.
    assert (Hk : In f (kept_fields (removed_fields (reconcile_checkboxes checkbox st))))
      by (apply kept_fields_In; tauto).
    specialize (Hkept f Hk). rewrite Hnone in Hkept.
    destruct (get (editable_rec (reconcile_checkboxes checkbox st)) f) as [v|].
    + destruct (Py.is_dict_or_list v); [discriminate | destruct Hkept; discriminate].
    + destruct Hkept; discriminate.
  - intros Hr. rewrite Hframe; [apply Habs, Hr|].
    rewrite kept_fields_In. tauto.
Qed.

Lemma present_iff_kept_witness :
  get [("memory", PInt 16); ("storage", PInt 100); ("gpu", PStr "None");
       ("start_date", PStr "2025-08-01"); ("end_date", PStr "2025-08-03");
       ("budget", PInt 0)] "compute" = None
  <-> In "compute" (removed_fields
         (reconcile_checkboxes
            (fun _ v k => if String.eqb k "keep_compute" then false else v)
            (mkstate august_config []))).
Proof.
  apply (present_iff_kept
           (fun _ v k => if String.eqb k "keep_compute" then false else v)
           untouched_slider (mkstate august_config []) _
           []).
  - split; [constructor | intros g []].
  - reflexivity.
  - simpl. tauto.
Defined.

(* ===================================================================== *)
(** * Further properties of the dates *)
(* ===================================================================== *)

Module CalendarFacts.
Import Date Calendar.

Lemma valid_bounds (d : date) :
  valid d ->
  1 <= year d <= 9999 /\ 1 <= month d <= 12 /\ 1 <= day d <= days_in_month (year d) (month d).
Proof.
  unfold valid, make.
  destruct ((1 <=? year d) && (year d <=? 9999) && (1 <=? month d) && (month d <=? 12)
            && (1 <=? day d) && (day d <=? days_in_month (year d) (month d))) eqn:E;
    [|discriminate].
  intros _. rewrite !andb_true_iff, !Z.leb_le in E. lia.
Qed.

Lemma month_cases (m : Z) :
  1 <= m <= 12 ->
  m = 1 \/ m = 2 \/ m = 3 \/ m = 4 \/ m = 5 \/ m = 6
  \/ m = 7 \/ m = 8 \/ m = 9 \/ m = 10 \/ m = 11 \/ m = 12.
Proof. lia. Qed.

Lemma month_fits_year (y m : Z) :
  1 <= m <= 12 ->
  0 <= days_before_month y m
  /\ days_before_month y m + days_in_month y m <= year_length y.
Proof.
  intros H. unfold year_length, days_before_month, days_in_month.
  destruct (month_cases m H) as [->|[->|[->|[->|[->|[->|[->|[->|[->|[->|[->| ->]]]]]]]]]]];
    destruct (is_leap y); vm_compute; split; discriminate.
Qed.

Lemma month_order (y m m' : Z) :
  1 <= m <= 12 -> 1 <= m' <= 12 -> m < m' ->
  days_before_month y m + days_in_month y m <= days_before_month y m'.
Proof.
  intros H H' Hlt. unfold days_before_month, days_in_month.
  destruct (month_cases m H) as [->|[->|[->|[->|[->|[->|[->|[->|[->|[->|[->| ->]]]]]]]]]]];
  destruct (month_cases m' H') as [->|[->|[->|[->|[->|[->|[->|[->|[->|[->|[->| ->]]]]]]]]]]];
    try lia; destruct (is_leap y); vm_compute; discriminate.
Qed.

Lemma year_order (y y' : Z) :
  y < y' -> days_before_year y + year_length y <= days_before_year y'.
Proof.
  intros H. unfold days_before_year, year_length, is_leap.
  destruct (Z.eqb_spec (y mod 4) 0); destruct (Z.eqb_spec (y mod 100) 0);
    destruct (Z.eqb_spec (y mod 400) 0); cbn [negb andb orb];
    Z.to_euclidean_division_equations; lia.
Qed.

Lemma toordinal_increasing (a b : date) :
  valid a -> valid b -> before a b -> toordinal a < toordinal b.
Proof.
  intros Ha Hb Hlt.
  apply valid_bounds in Ha. apply valid_bounds in Hb.
  destruct Ha as (_ & Hma & Hda). destruct Hb as (_ & Hmb & Hdb).
  unfold toordinal.
  pose proof (month_fits_year (year a) (month a) Hma).
  pose proof (month_fits_year (year b) (month b) Hmb).
  destruct Hlt as [Hy | [Hy [Hm | [Hm Hd]]]].
  - pose proof (year_order _ _ Hy). lia.
  - rewrite Hy in *. pose proof (month_order (year b) _ _ Hma Hmb Hm). lia.
  - rewrite Hy, Hm in *. lia.
Qed.
End CalendarFacts.

Module FormatFacts.
Import Date Calendar CalendarFacts Text.

Lemma digit_char_spec (k : Z) :
  0 <= k < 10 -> is_digit (digit_char k) = true /\ digit_value (digit_char k) = k.
Proof.
  intros H.
  assert (E : k = 0 \/ k = 1 \/ k = 2 \/ k = 3 \/ k = 4 \/ k = 5 \/ k = 6
              \/ k = 7 \/ k = 8 \/ k = 9) by lia.
  repeat (destruct E as [->|E]; [split; reflexivity|]). subst. split; reflexivity.
Qed.

Lemma directive_Y_two_digits (y : Z) (rest : string) :
  0 <= y <= 9999 ->
  directive_Y (two_digits (y / 100) ++ two_digits (y mod 100) ++ rest)%string
  = Some (y, rest).
Proof.
  intros H. unfold two_digits. cbn [append directive_Y].
  destruct (digit_char_spec (y / 100 / 10)) as [D1 V1];
    [Z.to_euclidean_division_equations; lia|].
  destruct (digit_char_spec ((y / 100) mod 10)) as [D2 V2];
    [Z.to_euclidean_division_equations; lia|].
  destruct (digit_char_spec (y mod 100 / 10)) as [D3 V3];
    [Z.to_euclidean_division_equations; lia|].
  destruct (digit_char_spec ((y mod 100) mod 10)) as [D4 V4];
    [Z.to_euclidean_division_equations; lia|].
  rewrite D1, D2, D3, D4, V1, V2, V3, V4. cbn [andb]. do 2 f_equal.
  Z.to_euclidean_division_equations; lia.
Qed.

Lemma directive_m_two_digits (m : Z) (rest : string) :
  1 <= m <= 12 ->
  directive_m (two_digits m ++ String "-" rest)%string = Some (m, String "-" rest).
Proof.
  intros H.
  destruct (month_cases m H) as [->|[->|[->|[->|[->|[->|[->|[->|[->|[->|[->| ->]]]]]]]]]]];
    reflexivity.
Qed.

Lemma day_cases (d : Z) : 1 <= d <= 31 -> d = 1 \/ d = 2 \/ d = 3 \/ d = 4 \/ d = 5 \/ d = 6 \/ d = 7 \/ d = 8 \/ d = 9 \/ d = 10 \/ d = 11 \/ d = 12 \/ d = 13 \/ d = 14 \/ d = 15 \/ d = 16 \/ d = 17 \/ d = 18 \/ d = 19 \/ d = 20 \/ d = 21 \/ d = 22 \/ d = 23 \/ d = 24 \/ d = 25 \/ d = 26 \/ d = 27 \/ d = 28 \/ d = 29 \/ d = 30 \/ d = 31.
Proof. lia. Qed.

Lemma directive_d_two_digits (d : Z) :
  1 <= d <= 31 -> directive_d (two_digits d) = Some (d, "").
Proof.
  intros H. pose proof (day_cases d H) as E.
  repeat (destruct E as [->|E]; [reflexivity|]). subst. reflexivity.
Qed.

Lemma strptime_strftime (d : date) :
  valid d -> 1000 <= year d -> strptime (strftime d) = Ok d.
Proof.
  intros Hv Hy. pose proof (valid_bounds d Hv) as (Hyr & Hm & Hd).
  assert (Hd31 : 1 <= day d <= 31).
  { split; [lia|]. destruct Hd as [_ Hd]. unfold days_in_month in Hd.
    destruct (month d =? 2); [destruct (is_leap (year d)); lia|].
    destruct ((month d =? 4) || (month d =? 6) || (month d =? 9) || (month d =? 11)); lia. }
  unfold strptime, strftime.
  rewrite directive_Y_two_digits by lia.
  cbn [append expect_dash]. rewrite Ascii.eqb_refl.
  rewrite (directive_m_two_digits (month d) (two_digits (day d)) Hm).
  cbn [expect_dash]. rewrite Ascii.eqb_refl.
  rewrite (directive_d_two_digits (day d) Hd31).
  exact Hv.
Qed.

Lemma strptime_valid (s : string) (d : date) : strptime s = Ok d -> valid d.
Proof.
  unfold strptime.
  destruct (directive_Y s) as [[y s1]|]; [|discriminate].
  destruct (expect_dash s1) as [s2|]; [|discriminate].
  destruct (directive_m s2) as [[m s3]|]; [|discriminate].
  destruct (expect_dash s3) as [s4|]; [|discriminate].
  destruct (directive_d s4) as [[dd [|]]|]; try discriminate.
  unfold make.
  destruct ((1 <=? y) && (y <=? 9999) && (1 <=? m) && (m <=? 12)
            && (1 <=? dd) && (dd <=? days_in_month y m)) eqn:E; [|discriminate].
  intros H. injection H as <-. unfold valid, make. cbn [year month day]. rewrite E.
  reflexivity.
Qed.

End FormatFacts.

Import Calendar CalendarFacts FormatFacts.

Module DateValueFacts.

Import Date Calendar Text.

Lemma digits_of_all_digits (fuel : nat) :
  forall n acc, all_digits acc = true -> all_digits (digits_of fuel n acc) = true.
Proof.
  induction fuel as [|fuel IH]; intros n acc H; simpl; [exact H|].
  assert (Hd : all_digits (String (ascii_of_N (Z.to_N (48 + n mod 10))) acc) = true).
  { cbn [all_digits]. rewrite H, andb_true_r.
    apply (digit_char_spec (n mod 10)). apply Z.mod_pos_bound. lia. }
  destruct (n <? 10); [exact Hd | apply IH, Hd].
Qed.

Lemma digits_never_parse (s : string) :
  all_digits s = true -> strptime s = Raise ValueError.
Proof.
  intros H. unfold strptime.
  destruct (directive_Y s) as [[y s1]|] eqn:E; [|reflexivity].
  assert (H1 : all_digits s1 = true).
  { unfold directive_Y in E.
    destruct s as [|a [|b [|c [|d t]]]]; try discriminate.
    destruct (is_digit a && is_digit b && is_digit c && is_digit d); [|discriminate].
    injection E as _ <-. cbn [all_digits] in H.
    rewrite !andb_true_iff in H. tauto. }
  destruct s1 as [|c t]; [reflexivity|]. cbn [expect_dash].
  destruct (Ascii.eqb_spec c "-") as [->|_]; [|reflexivity].
  cbn [all_digits] in H1. discriminate H1.
Qed.

Lemma signed_never_parses (t : string) : strptime (String "-" t) = Raise ValueError.
Proof.
  unfold strptime, directive_Y.
  destruct t as [|b [|c [|d t]]]; reflexivity.
Qed.

Lemma int_text_never_parses (z : Z) : strptime (Text.of_int z) = Raise ValueError.
Proof.
  unfold Text.of_int. destruct (z <? 0); [apply signed_never_parses|].
  apply digits_never_parse, digits_of_all_digits. reflexivity.
Qed.

(** Only a string is ever read as a date. *)
Lemma of_value_Ok (v : pyval) (d : date) :
  of_value v = Ok d -> exists s, v = PStr s /\ strptime s = Ok d.
Proof.
  destruct v as [|b|z|f|s|l|dd]; unfold of_value; cbn [Py.str]; try discriminate.
  - destruct b; discriminate.
  - rewrite int_text_never_parses. discriminate.
  - intros H. exists s. split; [reflexivity | exact H].
Qed.

Lemma of_value_valid (v : pyval) (d : date) : of_value v = Ok d -> valid d.
Proof.
  intros H. destruct (of_value_Ok v d H) as (s & _ & Hs). eapply strptime_valid, Hs.
Qed.

Lemma before_total (a b : date) :
  before a b \/ before b a
  \/ (year a = year b /\ month a = month b /\ day a = day b).
Proof. unfold before. lia. Qed.

End DateValueFacts.

Import DateValueFacts.

(** X18.  When both date fields parse, the number of days follows the
    calendar: if the end date is later than the start date it is the
    number of days from the one to the other, which is at least 1; if
    the end date is the start date or earlier, it is 1. *)
Theorem duration_follows_calendar (c : config) (s e : Date.date) :
  start_of c = Ok s ->
  end_of c = Ok e ->
  (before s e ->
   duration_days c = Date.toordinal e - Date.toordinal s /\ 1 <= Date.days_between s e)
  /\ (~ before s e -> duration_days c = 1).
Proof.
  intros Hs He.
  assert (Vs : valid s) by (eapply of_value_valid, Hs).
  assert (Ve : valid e) by (eapply of_value_valid, He).
  assert (D : duration_days c = Z.max (Date.days_between s e) 1).
  { unfold duration_days, parsed_duration, try_except, bind. rewrite Hs, He. reflexivity. }
  rewrite D. unfold Date.days_between. split.
  - intros Hlt. pose proof (toordinal_increasing s e Vs Ve Hlt). lia.
  - intros Hn. destruct (before_total s e) as [H | [H | (Hy & Hm & Hd)]].
    + contradiction.
    + pose proof (toordinal_increasing e s Ve Vs H). lia.
    + unfold Date.toordinal. rewrite Hy, Hm, Hd. lia.
Qed.

Lemma duration_follows_calendar_witness :
  duration_days [("start_date", PStr "2024-02-28"); ("end_date", PStr "2024-03-01")] = 2
  /\ duration_days [("start_date", PStr "2025-08-03"); ("end_date", PStr "2025-08-01")] = 1.
Proof.
  split.
  - apply (proj1 (duration_follows_calendar
                    [("start_date", PStr "2024-02-28"); ("end_date", PStr "2024-03-01")]
                    (Date.mkdate 2024 2 28) (Date.mkdate 2024 3 1) eq_refl eq_refl)).
    right. split; [reflexivity|]. left. reflexivity.
  - apply (proj2 (duration_follows_calendar
                    [("start_date", PStr "2025-08-03"); ("end_date", PStr "2025-08-01")]
                    (Date.mkdate 2025 8 3) (Date.mkdate 2025 8 1) eq_refl eq_refl)).
    unfold before. simpl. lia.
Defined.

Lemma of_value_strftime (d : Date.date) :
  valid d -> 1000 <= Date.year d ->
  Date.of_value (PStr (strftime d)) = Ok d.
Proof.
  intros Hv Hy. unfold Date.of_value. cbn [Py.str]. apply strptime_strftime; assumption.
Qed.

(** X19.  A date written with [strftime("%Y-%m-%d")] is read back by
    the estimator as the same date: for every date of the calendar with
    a year of four digits, parsing the formatted text gives the date; so
    two such dates with the same text are the same date. *)
Theorem formatted_date_parses_back (d d' : Date.date) :
  valid d -> 1000 <= Date.year d ->
  valid d' -> 1000 <= Date.year d' ->
  Date.of_value (PStr (strftime d)) = Ok d
  /\ (strftime d' = strftime d -> d' = d).
Proof.
  intros Hv Hy Hv' Hy'. split; [apply of_value_strftime; assumption|].
  intros E. pose proof (of_value_strftime d' Hv' Hy') as H'.
  rewrite E, (of_value_strftime d Hv Hy) in H'. injection H' as <-. reflexivity.
Qed.

Lemma formatted_date_parses_back_witness :
  Date.of_value (PStr (strftime (Date.mkdate 2024 2 29))) = Ok (Date.mkdate 2024 2 29).
Proof.
  apply (formatted_date_parses_back (Date.mkdate 2024 2 29) (Date.mkdate 2024 2 29));
    solve [reflexivity | simpl; lia].
Defined.

Module PageFacts.

Import Estimate Page.

Lemma shown_date_parsed (today : Date.date) (v : pyval) (d : Date.date) :
  Date.of_value v = Ok d -> shown_date today v = d.
Proof.
  intros H. destruct (of_value_Ok v d H) as (s & -> & Hs).
  unfold shown_date. cbn [display_val]. rewrite H. reflexivity.
Qed.

Lemma redate_untouched (today : Date.date) (field : string) (rec : config) (d : Date.date) :
  Date.of_value (dict_get_default String.eqb rec field (PStr "")) = Ok d ->
  1000 <= Date.year d ->
  Date.of_value
    (dict_get_default String.eqb (redate today untouched_date field rec) field (PStr ""))
  = Ok d.
Proof.
  intros H Hy. unfold redate, chosen_date, untouched_date, dict_get_default.
  rewrite dict_get_set_same.
  fold (dict_get_default String.eqb rec field (PStr "")).
  rewrite (shown_date_parsed today _ d H).
  apply of_value_strftime; [eapply of_value_valid, H | exact Hy].
Qed.

Lemma redate_other (today : Date.date)
    (date_input : string -> Date.date -> string -> Date.date)
    (field k : string) (rec : config) (dflt : pyval) :
  k <> field ->
  dict_get_default String.eqb (redate today date_input field rec) k dflt
  = dict_get_default String.eqb rec k dflt.
Proof.
  intros H. unfold redate, dict_get_default. rewrite dict_get_set_other by exact H.
  reflexivity.
Qed.

End PageFacts.

Import Page PageFacts.

(** X20.  After the date branch of the loop, the field holds the date
    the widget returned, in a form the estimator parses: whatever the
    field held before, its new text reads back as the chosen date, when
    that is a date of the calendar with a year of four digits; no other
    key of the configuration changes. *)
Theorem redate_stores_chosen_date (today : Date.date)
    (date_input : string -> Date.date -> string -> Date.date)
    (field : string) (rec : config) :
  valid (chosen_date today date_input field rec) ->
  1000 <= Date.year (chosen_date today date_input field rec) ->
  Date.of_value
    (dict_get_default String.eqb (redate today date_input field rec) field (PStr ""))
  = Ok (chosen_date today date_input field rec)
  /\ forall k, k <> field -> get (redate today date_input field rec) k = get rec k.
Proof.
  intros Hv Hy. split.
  - unfold redate, dict_get_default at 1. rewrite dict_get_set_same.
    apply of_value_strftime; assumption.
  - intros k Hk. unfold redate, get. apply dict_get_set_other, Hk.
Qed.

Lemma redate_stores_chosen_date_witness :
  start_of (redate (Date.mkdate 2025 8 1) (fun _ _ _ => Date.mkdate 2025 9 15)
              "start_date" [("start_date", PStr "soon"); ("compute", PInt 4)])
  = Ok (Date.mkdate 2025 9 15).
Proof.
  apply (redate_stores_chosen_date (Date.mkdate 2025 8 1)
           (fun _ _ _ => Date.mkdate 2025 9 15) "start_date"
           [("start_date", PStr "soon"); ("compute", PInt 4)]).
  - reflexivity.
  - simpl. lia.
Defined.

(** X21.  Passing both date fields through their widgets without
    touching them changes nothing for the estimator when both fields
    parse to dates with a year of four digits: the fields read back as
    the same dates and the estimate is the same. *)
Theorem untouched_dates_keep_estimate (today : Date.date) (c : config)
    (s e : Date.date) (region : string) (cat : Catalog.price_map) :
  start_of c = Ok s ->
  end_of c = Ok e ->
  1000 <= Date.year s ->
  1000 <= Date.year e ->
  start_of (redate today untouched_date "end_date"
              (redate today untouched_date "start_date" c)) = Ok s
  /\ end_of (redate today untouched_date "end_date"
               (redate today untouched_date "start_date" c)) = Ok e
  /\ estimate_billing_cost_from_api
       (redate today untouched_date "end_date"
          (redate today untouched_date "start_date" c)) region cat
     = estimate_billing_cost_from_api c region cat.
Proof.
  intros Hs He Ys Ye.
  assert (S1 : start_of (redate today untouched_date "start_date" c) = Ok s)
    by (apply redate_untouched; assumption).
  assert (E1 : end_of (redate today untouched_date "start_date" c) = Ok e).
  { unfold end_of. rewrite redate_other by discriminate. exact He. }
  assert (S2 : start_of (redate today untouched_date "end_date"
                           (redate today untouched_date "start_date" c)) = Ok s).
  { unfold start_of. rewrite redate_other by discriminate. exact S1. }
  assert (E2 : end_of (redate today untouched_date "end_date"
                         (redate today untouched_date "start_date" c)) = Ok e)
    by (apply redate_untouched; assumption).
  split; [exact S2|]. split; [exact E2|].
  unfold estimate_billing_cost_from_api, int_field, gpu_name_of, duration_days,
    parsed_duration.
  rewrite S2, E2, Hs, He.
  rewrite !redate_other by discriminate. reflexivity.
Qed.

Lemma untouched_dates_keep_estimate_witness :
  estimate_billing_cost_from_api
    (redate (Date.mkdate 2030 1 1) untouched_date "end_date"
       (redate (Date.mkdate 2030 1 1) untouched_date "start_date" short_dates_config))
    "us-central1" august_catalog
  = estimate_billing_cost_from_api short_dates_config "us-central1" august_catalog.
Proof.
  apply (untouched_dates_keep_estimate (Date.mkdate 2030 1 1) short_dates_config
           (Date.mkdate 2025 8 1) (Date.mkdate 2025 8 3));
    solve [reflexivity | simpl; lia].
Defined.

(* ===================================================================== *)
(** * Properties of [extract_json] *)
(* ===================================================================== *)

Module JsonFacts.

Import Json.

Lemma find_char_lower (c : ascii) (s : string) : -1 <= find_char c s.
Proof.
  induction s as [|a t IH]; simpl; [lia|].
  destruct (Ascii.eqb a c); [lia|].
  destruct (find_char c t =? -1); lia.
Qed.

Lemma rfind_char_lower (c : ascii) (s : string) : -1 <= rfind_char c s.
Proof.
  induction s as [|a t IH]; simpl; [lia|].
  destruct (rfind_char c t =? -1); [destruct (Ascii.eqb a c); lia | lia].
Qed.

Lemma rfind_free (c : ascii) (s : string) : free_of c s = true -> rfind_char c s = -1.
Proof.
  induction s as [|a t IH]; simpl; [reflexivity|].
  rewrite andb_true_iff, negb_true_iff. intros [Ha Ht].
  rewrite (IH Ht), Ha. reflexivity.
Qed.

Lemma find_app_hit (c : ascii) (a b : string) :
  free_of c a = true -> find_char c (a ++ String c b) = Z.of_nat (String.length a).
Proof.
  induction a as [|x a IH]; intros H.
  - simpl. rewrite Ascii.eqb_refl. reflexivity.
  - cbn [free_of] in H. rewrite andb_true_iff, negb_true_iff in H. destruct H as [Hx Ha].
    cbn [append find_char String.length]. rewrite Hx, (IH Ha).
    destruct (Z.eqb_spec (Z.of_nat (String.length a)) (-1)); lia.
Qed.

Lemma rfind_app_hit (c : ascii) (a b : string) :
  free_of c b = true -> rfind_char c (a ++ String c b) = Z.of_nat (String.length a).
Proof.
  intros Hb. induction a as [|x a IH].
  - simpl. rewrite (rfind_free c b Hb), Ascii.eqb_refl. reflexivity.
  - cbn [append rfind_char String.length]. rewrite IH.
    destruct (Z.eqb_spec (Z.of_nat (String.length a)) (-1)); lia.
Qed.

Lemma free_lstrip (p : ascii -> bool) (c : ascii) (s : string) :
  free_of c s = true -> free_of c (lstrip_by p s) = true.
Proof.
  induction s as [|a t IH]; simpl; [reflexivity|].
  intros H. destruct (p a); [|exact H].
  apply IH. rewrite andb_true_iff in H. tauto.
Qed.

Lemma free_rstrip (p : ascii -> bool) (c : ascii) (s : string) :
  free_of c s = true -> free_of c (rstrip_by p s) = true.
Proof.
  induction s as [|a t IH]; simpl; [reflexivity|].
  rewrite andb_true_iff. intros [Ha Ht]. specialize (IH Ht).
  destruct (rstrip_by p t) as [|b t'].
  - destruct (p a); [reflexivity|]. simpl. rewrite Ha. reflexivity.
  - cbn [free_of] in *. rewrite Ha, IH. reflexivity.
Qed.

Lemma lstrip_app (p : ascii -> bool) (x : ascii) (a b : string) :
  p x = false -> lstrip_by p (a ++ String x b) = (lstrip_by p a ++ String x b)%string.
Proof.
  intros Hx. induction a as [|y a IH]; simpl.
  - rewrite Hx. reflexivity.
  - destruct (p y); [exact IH | reflexivity].
Qed.

Lemma rstrip_keep (p : ascii -> bool) (x : ascii) (b : string) :
  p x = false -> rstrip_by p (String x b) = String x (rstrip_by p b).
Proof.
  intros Hx. simpl. destruct (rstrip_by p b); [rewrite Hx|]; reflexivity.
Qed.

Lemma rstrip_app (p : ascii -> bool) (x : ascii) (a b : string) :
  p x = false -> rstrip_by p (a ++ String x b) = (a ++ String x (rstrip_by p b))%string.
Proof.
  intros Hx. induction a as [|y a IH].
  - apply rstrip_keep, Hx.
  - cbn [append rstrip_by]. rewrite IH.
    destruct a; reflexivity.
Qed.

Lemma append_assoc (a b c : string) : ((a ++ b) ++ c = a ++ (b ++ c))%string.
Proof. induction a as [|x a IH]; simpl; [reflexivity | rewrite IH; reflexivity]. Qed.

Lemma length_append (a b : string) :
  String.length (a ++ b) = (String.length a + String.length b)%nat.
Proof. induction a as [|x a IH]; simpl; [reflexivity | rewrite IH; reflexivity]. Qed.

Lemma substring_skip (a b : string) (n : nat) :
  String.substring (String.length a) n (a ++ b) = String.substring 0 n b.
Proof. induction a as [|x a IH]; simpl; [reflexivity | exact IH]. Qed.

Lemma substring_take (a b : string) :
  String.substring 0 (String.length a) (a ++ b) = a.
Proof.
  induction a as [|x a IH]; simpl.
  - destruct b; reflexivity.
  - rewrite IH. reflexivity.
Qed.

Lemma framed_alt (pre body post : string) :
  framed pre body post = ((pre ++ String "{" body) ++ String "}" post)%string.
Proof. unfold framed. rewrite append_assoc. reflexivity. Qed.

Lemma strip_framed (p : ascii -> bool) (pre body post : string) :
  p "{"%char = false -> p "}"%char = false ->
  strip_by p (framed pre body post) = framed (lstrip_by p pre) body (rstrip_by p post).
Proof.
  intros Ho Hc. unfold strip_by.
  unfold framed at 1. rewrite (lstrip_app p _ pre _ Ho).
  fold (framed (lstrip_by p pre) body post).
  rewrite framed_alt, (rstrip_app p _ _ post Hc), <- framed_alt. reflexivity.
Qed.

Lemma slice_framed (pre body post : string) :
  free_of "{" pre = true -> free_of "}" post = true ->
  let text := framed pre body post in
  let start := find_char "{" text in
  let end_ := rfind_char "}" text in
  ((start =? -1) || (end_ =? -1) || (end_ <? start)) = false
  /\ slice text start (end_ + 1) = object_text body.
Proof.
  intros Hpre Hpost text start end_.
  assert (Es : start = Z.of_nat (String.length pre))
    by (apply find_app_hit, Hpre).
  assert (Ee : end_ = Z.of_nat (String.length (pre ++ String "{" body)))
    by (unfold end_, text; rewrite framed_alt; apply rfind_app_hit, Hpost).
  rewrite length_append in Ee. cbn [String.length] in Ee.
  split.
  - rewrite !orb_false_iff, !Z.eqb_neq, Z.ltb_ge. lia.
  - unfold slice. rewrite Es, Ee, Nat2Z.id.
    replace (Z.to_nat (Z.of_nat (String.length pre + S (String.length body)) + 1
                       - Z.of_nat (String.length pre)))
      with (String.length (object_text body)).
    + unfold text, framed. rewrite substring_skip.
      change (String "{" (body ++ String "}" post))
        with (String "{" body ++ String "}" post)%string.
      replace (String "{" body ++ String "}" post)%string
        with (object_text body ++ post)%string.
      * apply substring_take.
      * unfold object_text. cbn [append]. rewrite append_assoc. reflexivity.
    + unfold object_text. cbn [String.length]. rewrite length_append. simpl. lia.
Qed.

Lemma free_has_no_object (s : string) : free_of "}" s = true -> has_object s = false.
Proof.
  induction s as [|a t IH]; simpl; [reflexivity|].
  rewrite andb_true_iff. intros [_ Ht].
  destruct (Ascii.eqb a "{"); [rewrite Ht; reflexivity | apply IH, Ht].
Qed.

Lemma no_object_lstrip (p : ascii -> bool) (s : string) :
  has_object s = false -> has_object (lstrip_by p s) = false.
Proof.
  induction s as [|a t IH]; simpl; [reflexivity|].
  intros H. destruct (p a); [|exact H].
  apply IH. destruct (Ascii.eqb a "{"); [|exact H].
  apply free_has_no_object. apply negb_false_iff, H.
Qed.

Lemma no_object_rstrip (p : ascii -> bool) (s : string) :
  has_object s = false -> has_object (rstrip_by p s) = false.
Proof.
  induction s as [|a t IH]; [reflexivity|]. cbn [has_object rstrip_by]. intros H.
  destruct (Ascii.eqb a "{") eqn:E.
  - apply negb_false_iff in H. pose proof (free_rstrip p "}" t H) as F.
    destruct (rstrip_by p t) as [|b t'].
    + destruct (p a); [reflexivity|]. cbn [has_object]. rewrite E. reflexivity.
    + cbn [has_object]. rewrite E, F. reflexivity.
  - specialize (IH H). destruct (rstrip_by p t) as [|b t'].
    + destruct (p a); [reflexivity|]. cbn [has_object]. rewrite E. reflexivity.
    + cbn [has_object] in *. rewrite E. exact IH.
Qed.

Lemma no_object_test (s : string) :
  has_object s = false ->
  ((find_char "{" s =? -1) || (rfind_char "}" s =? -1)
   || (rfind_char "}" s <? find_char "{" s)) = true.
Proof.
  intros H.
  assert (G : find_char "{" s = -1 \/ rfind_char "}" s < find_char "{" s).
  { induction s as [|a t IH]; [left; reflexivity|].
    cbn [has_object find_char rfind_char] in *.
    destruct (Ascii.eqb_spec a "{") as [->|Hne].
    - right. apply negb_false_iff in H. rewrite (rfind_free _ _ H). simpl. lia.
    - pose proof (find_char_lower "{" t). pose proof (rfind_char_lower "}" t).
      destruct (IH H) as [E|L].
      + left. rewrite E. reflexivity.
      + right.
        destruct (Z.eqb_spec (find_char "{" t) (-1)); [lia|].
        destruct (Z.eqb_spec (rfind_char "}" t) (-1)); [destruct (Ascii.eqb a "}"); lia | lia]. }
  rewrite !orb_true_iff, !Z.eqb_eq, Z.ltb_lt. tauto.
Qed.

End JsonFacts.

Import Json JsonFacts.

(** X22.  [extract_json] hands to [json.loads] exactly the text from the
    first opening brace to the last closing brace: whatever text without
    opening brace comes before the object and whatever text without
    closing brace comes after it (blanks, code fences, prose) does not
    change the result. *)
Theorem extract_json_ignores_surroundings
    (loads : string -> dict string pyval + string) (pre body post : string) :
  free_of "{" pre = true ->
  free_of "}" post = true ->
  extract_json loads (framed pre body post) = decode loads (object_text body).
Proof.
  intros Hpre Hpost. unfold extract_json.
  rewrite (strip_framed is_blank pre body post eq_refl eq_refl).
  assert (H1 : free_of "{" (lstrip_by is_blank pre) = true) by apply free_lstrip, Hpre.
  assert (H2 : free_of "}" (rstrip_by is_blank post) = true) by apply free_rstrip, Hpost.
  destruct (String.prefix "``" (framed (lstrip_by is_blank pre) body (rstrip_by is_blank post))).
  - rewrite !(strip_framed _ _ _ _ eq_refl eq_refl).
    match goal with
    | |- context [framed ?a body ?b] =>
        destruct (slice_framed a body b) as [T S];
        [repeat apply free_lstrip; exact Hpre
        |repeat apply free_rstrip; exact Hpost|]
    end.
    cbv zeta in T, S. rewrite T, S. reflexivity.
  - destruct (slice_framed _ body _ H1 H2) as [T S].
    cbv zeta in T, S. rewrite T, S. reflexivity.
Qed.

Lemma extract_json_ignores_surroundings_witness :
  extract_json one_object_loads fenced_answer
  = [("compute", PInt 8); ("environment", PStr "QA")].
Proof.
  unfold fenced_answer.
  rewrite (extract_json_ignores_surroundings one_object_loads
             ("```json" ++ String "010" "")%string
             "compute: 8"
             (String "010" "" ++ "``` Hope this helps.")%string); reflexivity.
Defined.

Lemma extract_json_no_object_lemma
    (loads : string -> dict string pyval + string) (text : string) :
  has_object text = false ->
  extract_json loads text = no_json (cleaned text)
  /\ dict_mem String.eqb (extract_json loads text) "error" = true.
Proof.
  intros H.
  assert (H2 : has_object (cleaned text) = false).
  { unfold cleaned.
    assert (H1 : has_object (strip_by is_blank text) = false)
      by (apply no_object_rstrip, no_object_lstrip, H).
    destruct (String.prefix "``" (strip_by is_blank text)); [|exact H1].
    apply no_object_rstrip, no_object_lstrip, no_object_rstrip, no_object_lstrip, H1. }
  assert (E : extract_json loads text = no_json (cleaned text)).
  { unfold extract_json. fold (cleaned text).
    rewrite (no_object_test (cleaned text) H2). reflexivity. }
  split; [exact E | rewrite E; reflexivity].
Qed.

(** X23.  When no opening brace of the text is followed by a closing
    brace, [extract_json] answers with the error dict of the missing
    JSON without consulting [json.loads]: the result is the same for
    every [loads], it holds the stripped text, and it has the key
    [error], which is what the chatbot page tests. *)
Theorem extract_json_without_object
    (loads loads' : string -> dict string pyval + string) (text : string) :
  has_object text = false ->
  extract_json loads text = no_json (cleaned text)
  /\ extract_json loads' text = extract_json loads text
  /\ dict_mem String.eqb (extract_json loads text) "error" = true.
Proof.
  intros H.
  destruct (extract_json_no_object_lemma loads text H) as [E M].
  destruct (extract_json_no_object_lemma loads' text H) as [E' _].
  split; [exact E|]. split; [congruence | exact M].
Qed.

Lemma extract_json_without_object_witness :
  extract_json one_object_loads "  } Sorry, I cannot help with that {  "
  = no_json "} Sorry, I cannot help with that {".
Proof.
  apply (extract_json_without_object one_object_loads one_object_loads
           "  } Sorry, I cannot help with that {  ").
  reflexivity.
Defined.

(* ===================================================================== *)
(** * Properties of the session *)
(* ===================================================================== *)

Module SessionFacts.

Import Session.

Lemma init_key_get (ss : session) (kv : string * pyval) (k : string) :
  sget (init_key ss kv) k
  = match sget ss k with
    | Some v => Some v
    | None => if String.eqb (fst kv) k then Some (snd kv) else None
    end.
Proof.
  destruct kv as [k0 v0]. unfold init_key, sget, dict_mem. cbn [fst snd].
  destruct (dict_get String.eqb ss k0) as [v|] eqn:E0.
  - destruct (dict_get String.eqb ss k) eqn:E; [reflexivity|].
    destruct (String.eqb_spec k0 k) as [->|_]; [congruence | reflexivity].
  - destruct (String.eqb_spec k0 k) as [->|Hne].
    + rewrite dict_get_set_same, E0. reflexivity.
    + rewrite dict_get_set_other by congruence.
      destruct (dict_get String.eqb ss k); reflexivity.
Qed.

Lemma fold_init_get (l : list (string * pyval)) :
  forall (ss : session) (k : string),
    sget (fold_left init_key l ss) k
    = match sget ss k with
      | Some v => Some v
      | None => dict_get String.eqb l k
      end.
Proof.
  induction l as [|kv l IH]; intros ss k; cbn [fold_left dict_get].
  - destruct (sget ss k); reflexivity.
  - rewrite IH, init_key_get. destruct kv as [k0 v0]. cbn [fst snd].
    destruct (sget ss k); [reflexivity|].
    destruct (String.eqb k0 k); reflexivity.
Qed.

Lemma fold_init_present (l : list (string * pyval)) :
  forall ss : session,
    (forall kv, In kv l -> dict_mem String.eqb ss (fst kv) = true) ->
    fold_left init_key l ss = ss.
Proof.
  induction l as [|kv l IH]; intros ss H; cbn [fold_left]; [reflexivity|].
  assert (E : init_key ss kv = ss).
  { unfold init_key. rewrite (H kv (or_introl eq_refl)). reflexivity. }
  rewrite E. apply IH. intros kv' Hin. apply H. right. exact Hin.
Qed.

Lemma dict_set_nonempty {V : Type} (d : dict string V) (k : string) (v : V) :
  dict_set String.eqb d k v <> [].
Proof.
  destruct d as [|[k0 v0] d]; simpl; [discriminate|].
  destruct (String.eqb k0 k); discriminate.
Qed.

Lemma strip_all_blank (s : string) :
  forallb Json.is_blank (list_ascii_of_string s) = true ->
  Json.strip_by Json.is_blank s = "".
Proof.
  intros H. unfold Json.strip_by.
  assert (E : Json.lstrip_by Json.is_blank s = "").
  { induction s as [|c t IH]; [reflexivity|]. simpl in *.
    rewrite andb_true_iff in H. destruct H as [-> Ht]. apply IH, Ht. }
  rewrite E. reflexivity.
Qed.

End SessionFacts.

Import Session SessionFacts.

(** X24.  [init_session_state] gives each of its seven keys the initial
    value when the session lacks the key and leaves every value the
    session holds as it is; a second call changes nothing. *)
Theorem init_session_state_spec (ss : session) (k : string) :
  sget (init_session_state ss) k
  = match sget ss k with
    | Some v => Some v
    | None => dict_get String.eqb initial_values k
    end
  /\ init_session_state (init_session_state ss) = init_session_state ss.
Proof.
  split; [apply fold_init_get|].
  unfold init_session_state at 1. apply fold_init_present.
  intros kv Hin. unfold dict_mem.
  pose proof (fold_init_get initial_values ss (fst kv)) as G.
  unfold sget in G. fold (init_session_state ss) in G. rewrite G.
  destruct (dict_get String.eqb ss (fst kv)); [reflexivity|].
  simpl in Hin.
  destruct Hin as [<-|[<-|[<-|[<-|[<-|[<-|[<-|[]]]]]]]]; reflexivity.
Qed.

(** X25.  A chatbot submission that is blank, or whose answer from the
    model holds no JSON object, leaves the session as it is: the page
    does not change and the fields of an earlier submission stay. *)
Theorem failed_submission_keeps_session
    (loads : string -> dict string pyval + string) (generate : string -> string)
    (env purpose raw_text : string) (ss : session) :
  forallb Json.is_blank (list_ascii_of_string raw_text) = true
  \/ has_object (generate (make_extraction_prompt raw_text env purpose)) = false ->
  fst (submit_chatbot loads generate env purpose raw_text ss) = ss
  /\ exists text, In (Warning text) (snd (submit_chatbot loads generate env purpose raw_text ss)).
Proof.
  intros H. unfold submit_chatbot.
  destruct (String.eqb_spec (strip_by is_blank raw_text) "") as [E|E]; cbn [negb].
  - split; [reflexivity|]. eexists. left. reflexivity.
  - destruct H as [H|H]; [apply strip_all_blank in H; contradiction|].
    unfold call_gemini_extract_fields.
    rewrite (proj2 (extract_json_no_object_lemma loads _ H)).
    split; [reflexivity|]. eexists. right. left. reflexivity.
Qed.

Lemma failed_submission_keeps_session_witness :
  fst (submit_chatbot one_object_loads (fun _ => "I need more details.") "QA" "Lab"
         "8 vCPUs please" [("page", PStr "input")])
  = [("page", PStr "input")].
Proof.
  apply (failed_submission_keeps_session one_object_loads
           (fun _ => "I need more details.") "QA" "Lab" "8 vCPUs please"
           [("page", PStr "input")]).
  right. reflexivity.
Defined.

(** X26.  A chatbot submission whose answer parses to a dict without
    the key [error] moves the session to the recommendation page, empties
    the stored recommendation and stores the parsed fields with the
    environment and the purpose of the sidebar in place of whatever the
    answer said, with memory 0 when the answer has no memory, and with
    every other field as parsed. *)
Theorem accepted_submission_updates_session
    (loads : string -> dict string pyval + string) (generate : string -> string)
    (env purpose raw_text : string) (ss : session) (parsed : dict string pyval) :
  Json.strip_by Json.is_blank raw_text <> "" ->
  call_gemini_extract_fields loads generate raw_text env purpose = parsed ->
  dict_mem String.eqb parsed "error" = false ->
  exists fields,
    sget (fst (submit_chatbot loads generate env purpose raw_text ss)) "user_fields"
    = Some (PDict fields)
    /\ sget (fst (submit_chatbot loads generate env purpose raw_text ss)) "page"
       = Some (PStr "recommendation")
    /\ sget (fst (submit_chatbot loads generate env purpose raw_text ss)) "genai_result"
       = Some (PDict [])
    /\ dict_get String.eqb fields "environment" = Some (PStr env)
    /\ dict_get String.eqb fields "purpose" = Some (PStr purpose)
    /\ dict_get String.eqb fields "memory"
       = Some (match dict_get String.eqb parsed "memory" with
               | Some v => v
               | None => PInt 0
               end)
    /\ forall k, k <> "environment" -> k <> "purpose" -> k <> "memory" ->
                 dict_get String.eqb fields k = dict_get String.eqb parsed k.
Proof.
  intros Hraw Hparsed Herr. unfold submit_chatbot.
  destruct (String.eqb_spec (strip_by is_blank raw_text) "") as [E|_]; [contradiction|].
  cbn [negb]. rewrite Hparsed, Herr.
  set (p1 := dict_set String.eqb parsed "environment" (PStr env)).
  set (p2 := dict_set String.eqb p1 "purpose" (PStr purpose)).
  set (p3 := if negb (dict_mem String.eqb p2 "memory")
             then dict_set String.eqb p2 "memory" (PInt 0) else p2).
  assert (Hne : p3 <> []).
  { unfold p3. destruct (negb (dict_mem String.eqb p2 "memory"));
      apply dict_set_nonempty. }
  destruct p3 as [|kv rest] eqn:E3; [contradiction|]. rewrite <- E3. clear Hne.
  exists p3. cbn [fst]. unfold sget.
  split; [|split; [|split]].
  - rewrite !dict_get_set_other by discriminate. apply dict_get_set_same.
  - rewrite dict_get_set_other by discriminate. apply dict_get_set_same.
  - apply dict_get_set_same.
  - assert (M2 : dict_get String.eqb p2 "memory" = dict_get String.eqb parsed "memory").
    { unfold p2, p1. rewrite !dict_get_set_other by discriminate. reflexivity. }
    assert (G : forall k, k <> "memory" ->
                          dict_get String.eqb p3 k = dict_get String.eqb p2 k).
    { intros k Hk. rewrite E3. rewrite <- E3. unfold p3 at 1.
      clear E3.
      destruct (negb (dict_mem String.eqb p2 "memory")); [|reflexivity].
      apply dict_get_set_other. congruence. }
    split; [|split; [|split]].
    + rewrite G by discriminate. unfold p2.
      rewrite dict_get_set_other by discriminate. apply dict_get_set_same.
    + rewrite G by discriminate. apply dict_get_set_same.
    + clear G. rewrite <- M2.
      assert (P3 : p3 = if negb (dict_mem String.eqb p2 "memory")
                        then dict_set String.eqb p2 "memory" (PInt 0) else p2)
        by reflexivity.
      rewrite P3. unfold dict_mem.
      destruct (dict_get String.eqb p2 "memory") eqn:Em; cbn [negb].
      * exact Em.
      * apply dict_get_set_same.
    + intros k H1 H2 H3. rewrite (G k H3). unfold p2, p1.
      rewrite !dict_get_set_other by congruence. reflexivity.
Qed.

Lemma accepted_submission_updates_session_witness :
  fst (submit_chatbot one_object_loads (fun _ => fenced_answer) "Production" "Lab"
         "8 vCPUs please" (init_session_state []))
  = [ ("page", PStr "recommendation");
      ("user_fields", PDict [("compute", PInt 8); ("environment", PStr "Production");
                             ("purpose", PStr "Lab"); ("memory", PInt 0)]);
      ("genai_result", PDict []);
      ("editable_rec", PDict []);
      ("removed_fields", PList []);
      ("billing_client", PNone);
      ("skus_price_map", PDict []) ].
Proof.
  destruct (accepted_submission_updates_session one_object_loads (fun _ => fenced_answer)
              "Production" "Lab" "8 vCPUs please" (init_session_state [])
              [("compute", PInt 8); ("environment", PStr "QA")])
    as (fields & _).
  - discriminate.
  - reflexivity.
  - reflexivity.
  - reflexivity.
Defined.

(* ===================================================================== *)
(** * Properties of the arithmetic of the estimate *)
(* ===================================================================== *)

Module FloatFacts.

Lemma digits2_pos_lower (p : positive) : 2 ^ (Zpos (digits2_pos p) - 1) <= Zpos p.
Proof.
  induction p as [p IH|p IH|]; cbn [digits2_pos].
  - rewrite Pos2Z.inj_succ. replace (Z.succ (Zpos (digits2_pos p)) - 1)
      with (Z.succ (Zpos (digits2_pos p) - 1)) by lia.
    rewrite Z.pow_succ_r by lia. lia.
  - rewrite Pos2Z.inj_succ. replace (Z.succ (Zpos (digits2_pos p)) - 1)
      with (Z.succ (Zpos (digits2_pos p) - 1)) by lia.
    rewrite Z.pow_succ_r by lia. lia.
  - simpl. lia.
Qed.

Lemma digits2_pos_small (p : positive) : Zpos p < 2 ^ 53 -> Zpos (digits2_pos p) <= 53.
Proof.
  intros H. destruct (Z_le_gt_dec (Zpos (digits2_pos p)) 53) as [L|G]; [exact L|].
  exfalso. pose proof (digits2_pos_lower p).
  assert (2 ^ 53 <= 2 ^ (Zpos (digits2_pos p) - 1)) by (apply Z.pow_le_mono_r; lia).
  lia.
Qed.

Lemma digits2_pos_iter (p k : positive) :
  digits2_pos (Pos.iter xO p k) = (digits2_pos p + k)%positive.
Proof.
  induction k as [|k IH] using Pos.peano_ind.
  - simpl. lia.
  - rewrite Pos.iter_succ. cbn [digits2_pos]. rewrite IH. lia.
Qed.

Lemma round_exact (s : bool) (mz : positive) (ez : Z) :
  Zpos (digits2_pos mz) = 53 -> -1074 <= ez <= 971 ->
  binary_round_aux 53 1024 s (Zpos mz) ez loc_Exact = S754_finite s mz ez.
Proof.
  intros Hd He.
  assert (F : fexp 53 1024 (Zdigits2 (Zpos mz) + ez) - ez = 0).
  { unfold fexp, emin, Zdigits2. rewrite Hd. lia. }
  unfold binary_round_aux, shr_fexp. rewrite F. cbn [shr shr_record_of_loc].
  cbn [shr_m loc_of_shr_record round_nearest_even]. rewrite F. cbn [shr shr_m shr_record_of_loc].
  destruct (Z.leb_spec ez (1024 - 53)); [reflexivity | lia].
Qed.

Lemma round_small (s : bool) (p : positive) :
  Zpos p < 2 ^ 53 -> exists m e, binary_round 53 1024 s p 0 = S754_finite s m e.
Proof.
  intros H. pose proof (digits2_pos_small p H) as Hd.
  unfold binary_round.
  assert (F : fexp 53 1024 (Zpos (digits2_pos p) + 0) = Zpos (digits2_pos p) - 53).
  { unfold fexp, emin. lia. }
  rewrite F. unfold shl_align.
  destruct (Zpos (digits2_pos p) - 53 - 0) as [|k|k] eqn:E; try lia.
  - exists p, 0. apply round_exact; lia.
  - eexists _, _. apply round_exact; [|lia].
    rewrite digits2_pos_iter. lia.
Qed.

Lemma of_int_small (n : Z) :
  Z.abs n < 2 ^ 53 ->
  exists f, Float.of_int n = Ok f
            /\ (f = S754_zero false \/ exists s m e, f = S754_finite s m e).
Proof.
  intros H. unfold Float.of_int, Float.nearest, binary_normalize, Float.prec, Float.emax.
  destruct n as [|p|p].
  - eexists. split; [reflexivity | left; reflexivity].
  - destruct (round_small false p) as (m & e & ->); [lia|].
    eexists. split; [reflexivity | right; eauto].
  - destruct (round_small true p) as (m & e & ->); [lia|].
    eexists. split; [reflexivity | right; eauto].
Qed.

End FloatFacts.

Module TotalFacts.

Import Catalog CatalogShapes Estimate FloatFacts CatalogFacts GpuFacts.

Lemma lookup_is_entry (q r u : string) (cat : price_map) (p : num) :
  get_price_for_resource q r u cat = Some p -> exists k, In (k, p) cat.
Proof.
  intros H. apply get_price_first in H. destruct H as (before & k & after & -> & _).
  exists k. apply in_or_app. right. left. reflexivity.
Qed.

Lemma or_zero_shape (q r u : string) (cat : price_map) :
  all_floats cat -> zero_or_float (or_zero (get_price_for_resource q r u cat)).
Proof.
  intros H. unfold or_zero.
  destruct (get_price_for_resource q r u cat) as [p|] eqn:E; [|left; reflexivity].
  destruct (lookup_is_entry _ _ _ _ _ E) as [k Hk].
  destruct (H k p Hk) as [f ->].
  destruct (Num.truthy (PyFloat f)); [right; eexists; reflexivity | left; reflexivity].
Qed.

Lemma gpu_price_shape (g : option string) (r : string) (cat : price_map) :
  all_floats cat -> zero_or_float (gpu_price_of g r cat).
Proof.
  intros H. unfold gpu_price_of. destruct g as [d|]; [|left; reflexivity].
  destruct (String.eqb d ""); [left; reflexivity | apply or_zero_shape, H].
Qed.

Lemma mul_shape (a : num) (n : Z) :
  zero_or_float a -> Z.abs n < 2 ^ 53 ->
  exists r, Num.mul a (PyInt n) = Ok r /\ zero_or_float r.
Proof.
  intros [-> | [f ->]] Hn.
  - exists (PyInt 0). split; [reflexivity | left; reflexivity].
  - destruct (of_int_small n Hn) as (x & Hx & _).
    cbn [Num.mul Num.to_float bind]. rewrite Hx. cbn [bind].
    eexists. split; [reflexivity | right; eexists; reflexivity].
Qed.

Lemma add_shape (a b : num) :
  zero_or_float a -> zero_or_float b ->
  exists r, Num.add a b = Ok r /\ zero_or_float r.
Proof.
  intros [-> | [f ->]] [-> | [g ->]].
  - exists (PyInt 0). split; [reflexivity | left; reflexivity].
  - eexists. split; [reflexivity | right; eexists; reflexivity].
  - eexists. split; [reflexivity | right; eexists; reflexivity].
  - eexists. split; [reflexivity | right; eexists; reflexivity].
Qed.

Lemma total_cost_returns (cp mp sp gp : num) (v m s h : Z) :
  zero_or_float cp -> zero_or_float mp -> zero_or_float sp -> zero_or_float gp ->
  Z.abs v < 2 ^ 53 -> Z.abs m < 2 ^ 53 -> Z.abs s < 2 ^ 53 -> Z.abs h < 2 ^ 53 ->
  exists t, total_cost cp mp sp gp v m s h = Ok t.
Proof.
  intros Hcp Hmp Hsp Hgp Hv Hm Hs Hh. unfold total_cost.
  destruct (mul_shape cp v Hcp Hv) as (a & -> & Ha). cbn [bind].
  destruct (mul_shape mp m Hmp Hm) as (b & -> & Hb). cbn [bind].
  destruct (add_shape a b Ha Hb) as (ab & -> & Hab). cbn [bind].
  destruct (mul_shape sp s Hsp Hs) as (c & -> & Hc). cbn [bind].
  destruct (add_shape ab c Hab Hc) as (abc & -> & Habc). cbn [bind].
  destruct (add_shape abc gp Habc Hgp) as (t & -> & Ht). cbn [bind].
  destruct (mul_shape t h Ht Hh) as (r & -> & _). exists r. reflexivity.
Qed.

Lemma toordinal_bounds (d : Date.date) :
  valid d -> 1 <= Date.toordinal d <= 3652425.
Proof.
  intros H. pose proof (valid_bounds d H) as (Hy & Hm & Hd).
  pose proof (month_fits_year (Date.year d) (Date.month d) Hm) as [L U].
  unfold Date.toordinal.
  assert (0 <= Date.days_before_year (Date.year d) <= 3651695).
  { unfold Date.days_before_year. Z.to_euclidean_division_equations. lia. }
  assert (year_length (Date.year d) <= 366)
    by (unfold year_length; destruct (Date.is_leap (Date.year d)); lia).
  lia.
Qed.

Lemma duration_days_bounds (c : config) : 1 <= duration_days c <= 3652425.
Proof.
  unfold duration_days, parsed_duration, try_except, bind.
  destruct (start_of c) as [s|] eqn:Hs; [|lia].
  destruct (end_of c) as [e|] eqn:He; [|lia].
  pose proof (toordinal_bounds s (of_value_valid _ _ Hs)).
  pose proof (toordinal_bounds e (of_value_valid _ _ He)).
  unfold Date.days_between. lia.
Qed.

End TotalFacts.

Import CatalogShapes TotalFacts.

(** X27.  The estimator returns a result, with the number of days of
    the date fields, whenever every price of the catalogue is a float (as
    in every fetched map) and the three quantities read from the
    configuration are below 2^53 in absolute value: no OverflowError
    escapes for such input. *)
Theorem estimate_returns_for_sane_quantities
    (c : config) (region : string) (cat : price_map) :
  all_floats cat ->
  Z.abs (int_field c "compute") < 2 ^ 53 ->
  Z.abs (int_field c "memory") < 2 ^ 53 ->
  Z.abs (int_field c "storage") < 2 ^ 53 ->
  exists t, estimate_billing_cost_from_api c region cat = Ok (t, duration_days c).
Proof.
  intros Hf Hv Hm Hs. unfold estimate_billing_cost_from_api.
  pose proof (duration_days_bounds c) as Hd.
  destruct (total_cost_returns
              (or_zero (get_price_for_resource cpu_desc region usage_type cat))
              (or_zero (get_price_for_resource memory_desc region usage_type cat))
              (or_zero (get_price_for_resource storage_desc region usage_type cat))
              (gpu_price_of (gpu_desc_of (gpu_name_of c)) region cat)
              (int_field c "compute") (int_field c "memory") (int_field c "storage")
              (duration_days c * 24)) as [t Ht];
    try apply or_zero_shape; try apply gpu_price_shape; try assumption; [lia|].
  rewrite Ht. cbn [bind]. eexists. reflexivity.
Qed.

Lemma estimate_returns_for_sane_quantities_witness :
  exists t, estimate_billing_cost_from_api t4_config "asia-east1" august_catalog
            = Ok (t, duration_days t4_config).
Proof.
  apply estimate_returns_for_sane_quantities.
  - intros k p [H|[H|[H|[]]]]; injection H as _ <-; eexists; reflexivity.
  - simpl. lia.
  - simpl. lia.
  - simpl. lia.
Defined.

Module ZeroFacts.

Import Catalog CatalogShapes Estimate FloatFacts TotalFacts.

Lemma or_zero_finite (q r u : string) (cat : price_map) :
  finite_prices cat -> is_finite_num (or_zero (get_price_for_resource q r u cat)).
Proof.
  intros H. unfold or_zero.
  destruct (get_price_for_resource q r u cat) as [p|] eqn:E; [|left; left; reflexivity].
  destruct (lookup_is_entry _ _ _ _ _ E) as [k Hk].
  destruct (H k p Hk) as (f & -> & Hf).
  destruct (Num.truthy (PyFloat f)); [exact Hf | left; left; reflexivity].
Qed.

Lemma mul_by_zero (a : num) :
  is_finite_num a -> exists r, Num.mul a (PyInt 0) = Ok r /\ is_zero_num r.
Proof.
  intros [[-> | [s ->]] | (s & m & e & ->)].
  - exists (PyInt 0). split; [reflexivity | left; reflexivity].
  - eexists. split; [reflexivity | right; eexists; reflexivity].
  - eexists. split; [reflexivity | right; eexists; reflexivity].
Qed.

Lemma add_zeros (a b : num) :
  is_zero_num a -> is_zero_num b -> exists r, Num.add a b = Ok r /\ is_zero_num r.
Proof.
  intros [-> | [s ->]] [-> | [s' ->]].
  - exists (PyInt 0). split; [reflexivity | left; reflexivity].
  - destruct s'; eexists; (split; [reflexivity | right; eexists; reflexivity]).
  - destruct s; eexists; (split; [reflexivity | right; eexists; reflexivity]).
  - destruct s, s'; eexists; (split; [reflexivity | right; eexists; reflexivity]).
Qed.

Lemma zero_times (t : num) (h : Z) :
  is_zero_num t -> Z.abs h < 2 ^ 53 ->
  exists r, Num.mul t (PyInt h) = Ok r /\ is_zero_num r.
Proof.
  intros [-> | [s ->]] Hh.
  - exists (PyInt 0). split; [reflexivity | left; reflexivity].
  - destruct (of_int_small h Hh) as (f & Hf & [-> | (s' & m & e & ->)]);
      cbn [Num.mul Num.to_float bind]; rewrite Hf; cbn [bind];
      eexists; (split; [reflexivity | right; eexists; reflexivity]).
Qed.

Lemma round2_zero (t : num) : is_zero_num t -> Num.round2 t = t.
Proof. intros [-> | [s ->]]; reflexivity. Qed.

Lemma zero_eqb (t : num) : is_zero_num t -> Num.eqb t (PyInt 0) = true.
Proof. intros [-> | [s ->]]; reflexivity. Qed.

End ZeroFacts.

Import ZeroFacts.

(** X28.  A request for nothing costs nothing: when the three
    quantities read from the configuration are 0 and the gpu field names
    none of the three models, the estimator returns a total that is zero
    (the int 0 or a float zero, equal to 0.00) for every catalogue whose
    prices are finite floats.  The empty configuration is such a
    request. *)
Theorem nothing_costs_nothing (c : config) (region : string) (cat : price_map) :
  finite_prices cat ->
  int_field c "compute" = 0 ->
  int_field c "memory" = 0 ->
  int_field c "storage" = 0 ->
  (forall g, In g gpu_models -> get c "gpu" <> Some (PStr g)) ->
  exists t,
    estimate_billing_cost_from_api c region cat = Ok (t, duration_days c)
    /\ is_zero_num t
    /\ Num.eqb t (PyInt 0) = true.
Proof.
  intros Hf Hv Hm Hs Hg.
  rewrite estimate_unfold, (gpu_price_other c region cat Hg).
  unfold estimate_given_gpu_price, total_cost. rewrite Hv, Hm, Hs.
  pose proof (duration_days_bounds c) as Hd.
  destruct (mul_by_zero _ (or_zero_finite cpu_desc region usage_type cat Hf))
    as (a & -> & Ha). cbn [bind].
  destruct (mul_by_zero _ (or_zero_finite memory_desc region usage_type cat Hf))
    as (b & -> & Hb). cbn [bind].
  destruct (add_zeros a b Ha Hb) as (ab & -> & Hab). cbn [bind].
  destruct (mul_by_zero _ (or_zero_finite storage_desc region usage_type cat Hf))
    as (s & -> & Hs'). cbn [bind].
  destruct (add_zeros ab s Hab Hs') as (abc & -> & Habc). cbn [bind].
  destruct (add_zeros abc (PyInt 0) Habc (or_introl eq_refl)) as (t & -> & Ht). cbn [bind].
  destruct (zero_times t (duration_days c * 24) Ht) as (r & -> & Hr); [lia|]. cbn [bind].
  exists r. rewrite (round2_zero r Hr).
  split; [reflexivity|]. split; [exact Hr | apply zero_eqb, Hr].
Qed.

Lemma nothing_costs_nothing_witness :
  exists t, estimate_billing_cost_from_api [] "us-central1" august_catalog = Ok (t, 1)
            /\ is_zero_num t /\ Num.eqb t (PyInt 0) = true.
Proof.
  apply (nothing_costs_nothing [] "us-central1" august_catalog).
  - intros k p [H|[H|[H|[]]]]; injection H as _ <-;
      (eexists; split; [reflexivity|]); right; vm_compute; eauto.
  - reflexivity.
  - reflexivity.
  - reflexivity.
  - intros g _. discriminate.
Defined.

(* ===================================================================== *)
(** * Records with a missing price, and the days the estimator returns *)
(* ===================================================================== *)

Module EntryFacts.

Import Catalog CatalogShapes IngestFacts IngestMore.

Lemma ingest_price_infos_app (k : key) (l1 l2 : list pricing_info) (m : price_map) :
  ingest_price_infos k (l1 ++ l2) m
  = match ingest_price_infos k l1 m with
    | (m', None) => ingest_price_infos k l2 m'
    | (m', Some e) => (m', Some e)
    end.
Proof.
  revert m. induction l1 as [|pi l1 IH]; intros m; simpl; [reflexivity|].
  destruct (ingest_price_info k pi m) as [m' [e|]]; [reflexivity | apply IH].
Qed.

Lemma ingest_unpriced_info (k : key) (pi : pricing_info) (m : price_map) :
  tier_without_price pi = true ->
  ingest_price_info k pi m = (dict_set key_eqb m k (PyFloat Float.zero), None).
Proof.
  unfold tier_without_price, ingest_price_info.
  destruct (get_or (tieredRates (get_or (pricingExpression pi) empty_expression)) [])
    as [|first tiers]; [discriminate|].
  destruct (unitPrice first); [discriminate|]. intros _.
  cbn [get_or]. rewrite price_of_empty_money. reflexivity.
Qed.

Lemma dict_get_key (m : price_map) (k : key) (p : num) :
  dict_get key_eqb m k = Some p -> In k (keys m).
Proof.
  unfold keys. induction m as [|[k0 p0] m IH]; simpl; [discriminate|].
  destruct (key_eqb k0 k) eqn:E; [|intros H; right; apply IH, H].
  intros _. left. apply key_eqb_eq, E.
Qed.

Lemma dict_set_has_key (m : price_map) (k : key) (p : num) :
  In k (keys (dict_set key_eqb m k p)).
Proof. eapply dict_get_key, dict_set_get. Qed.

Lemma ingest_sku_compute (u : sku) (c : category) (n : string) (m : price_map) :
  sku_category u = Some c ->
  serviceDisplayName c = Some n ->
  Text.contains "Compute Engine" n = true ->
  ingest_sku u m = ingest_price_infos (sku_key u c) (get_or (pricingInfo u) []) m.
Proof.
  intros Hc Hn Hce. unfold ingest_sku, subscript.
  rewrite Hc. cbn [bind]. rewrite Hn. cbn [bind]. rewrite Hce. reflexivity.
Qed.

End EntryFacts.

Import EntryFacts.

(** C6 (amended).  A record that has its service name and no tier in any
    pricing entry (no [pricingInfo], or every entry with a missing or
    empty list of tiers) adds no entry, and the records around it are
    ingested as if it were not there; so does every record of a service
    other than Compute Engine, whatever its prices.  A missing price
    does not make a Compute Engine record skipped: a pricing entry of it
    whose first tier has no [unitPrice] enters the key of the record
    with the price 0.0.  So when the pricing entries before that one
    raise nothing, the key of the record is in the map afterwards; the
    price stored under it is 0.0 when no pricing entry with a tier
    follows, and ingestion then goes on with the next record. *)
Theorem tierless_records_are_skipped
    (s u : sku) (c : category) (n : string)
    (infos rest : list pricing_info) (pi : pricing_info)
    (m m1 : price_map) (before after : list sku) :
  has_service_name s = true ->
  no_priced_tier s = true ->
  sku_category u = Some c ->
  serviceDisplayName c = Some n ->
  Text.contains "Compute Engine" n = true ->
  pricingInfo u = Some (infos ++ pi :: rest)%list ->
  tier_without_price pi = true ->
  ingest_price_infos (sku_key u c) infos m = (m1, None) ->
  ingest_sku s m = (m, None)
  /\ ingest_skus (before ++ s :: after)%list m = ingest_skus (before ++ after)%list m
  /\ (forall (o : sku) (co : category) (no : string),
        sku_category o = Some co ->
        serviceDisplayName co = Some no ->
        Text.contains "Compute Engine" no = false ->
        ingest_sku o m = (m, None)
        /\ ingest_skus (before ++ o :: after)%list m
           = ingest_skus (before ++ after)%list m)
  /\ ingest_price_info (sku_key u c) pi m1
     = (dict_set key_eqb m1 (sku_key u c) (PyFloat Float.zero), None)
  /\ In (sku_key u c) (map fst (fst (ingest_sku u m)))
  /\ snd (ingest_sku u m) = snd (ingest_price_infos (sku_key u c) rest
                                   (dict_set key_eqb m1 (sku_key u c) (PyFloat Float.zero)))
  /\ (forallb no_tier rest = true ->
      ingest_sku u m = (dict_set key_eqb m1 (sku_key u c) (PyFloat Float.zero), None)
      /\ dict_get key_eqb (fst (ingest_sku u m)) (sku_key u c) = Some (PyFloat Float.zero)
      /\ ingest_skus (u :: after) m
         = ingest_skus after (dict_set key_eqb m1 (sku_key u c) (PyFloat Float.zero))).
Proof.
  intros Hs Ht Hc Hn Hce Hpi Hun Hinfos.
  pose proof (ingest_unpriced_info (sku_key u c) pi m1 Hun) as Hstep.
  assert (Hu : ingest_sku u m
               = ingest_price_infos (sku_key u c) rest
                   (dict_set key_eqb m1 (sku_key u c) (PyFloat Float.zero))).
  { rewrite (ingest_sku_compute u c n m Hc Hn Hce), Hpi. cbn [get_or].
    rewrite ingest_price_infos_app, Hinfos. cbn [ingest_price_infos].
    rewrite Hstep. reflexivity. }
  split; [apply ingest_sku_no_tier; assumption|].
  split.
  { rewrite !ingest_skus_app.
    destruct (ingest_skus before m) as [m' [e|]]; [reflexivity|].
    cbn [ingest_skus]. rewrite (ingest_sku_no_tier s m' Hs Ht). reflexivity. }
  split.
  { intros o co no Hoc Hon Hoce.
    split; [apply (ingest_sku_other_service o co no m Hoc Hon Hoce)|].
    rewrite !ingest_skus_app.
    destruct (ingest_skus before m) as [m' [e|]]; [reflexivity|].
    cbn [ingest_skus]. rewrite (ingest_sku_other_service o co no m' Hoc Hon Hoce).
    reflexivity. }
  split; [exact Hstep|].
  split.
  { rewrite Hu.
    destruct (ingest_price_infos_grows (sku_key u c) rest
                (dict_set key_eqb m1 (sku_key u c) (PyFloat Float.zero))) as (Hk & _ & _).
    apply Hk, dict_set_has_key. }
  split; [rewrite Hu; reflexivity|].
  intros Hrest.
  assert (E : ingest_sku u m
              = (dict_set key_eqb m1 (sku_key u c) (PyFloat Float.zero), None)).
  { rewrite Hu. apply ingest_price_infos_no_tier, Hrest. }
  split; [exact E|]. split.
  - rewrite E. apply dict_set_get.
  - cbn [ingest_skus]. rewrite E. reflexivity.
Qed.

Lemma tierless_records_are_skipped_witness :
  fetch_pricing_skus [Page (mkresponse (Some [tierless_sku; core_sku]) None)]
  = fetch_pricing_skus [Page (mkresponse (Some [core_sku]) None)]
  /\ ingest_sku mixed_sku []
     = ([(("N1 Predefined Instance Core", "us-central1", "OnDemand"), PyFloat Float.zero)],
        None)
  /\ In ("N1 Predefined Instance Core", "us-central1", "OnDemand")
        (map fst (fst (ingest_sku mixed_sku [])))
  /\ ingest_sku bucket_sku [] = ([], None).
Proof.
  destruct (tierless_records_are_skipped tierless_sku mixed_sku compute_engine
              "Compute Engine" [nickel_info] [tierless_info] unpriced_info
              [] [(("N1 Predefined Instance Core", "us-central1", "OnDemand"), PyFloat (dec 5 2))]
              [] [core_sku]
              eq_refl eq_refl eq_refl eq_refl eq_refl eq_refl eq_refl eq_refl)
    as (_ & H1 & H2 & _ & H3 & _ & H4).
  split; [|split; [|split]].
  - unfold fetch_pricing_skus, fetch_pages. cbn [skus get_or nextPageToken].
    change [tierless_sku; core_sku] with ([] ++ tierless_sku :: [core_sku])%list.
    rewrite H1. reflexivity.
  - exact (proj1 (H4 eq_refl)).
  - exact H3.
  - exact (proj1 (H2 bucket_sku (mkcategory (Some "Cloud Storage") (Some "OnDemand"))
                     "Cloud Storage" eq_refl eq_refl eq_refl)).
Defined.

(** A priced entry after the unpriced one replaces the 0.0; the same
    unpriced entry in a Cloud Storage record enters nothing. *)
Example repriced_record_keeps_later_price :
  ingest_sku repriced_sku []
  = ([(("N1 Predefined Instance Core", "us-central1", "OnDemand"), PyFloat (dec 5 2))],
     None)
  /\ ingest_sku (mksku (sku_category bucket_sku) (description bucket_sku)
                       (serviceRegions bucket_sku) (pricingInfo unpriced_sku)) []
     = ([], None).
Proof. vm_compute. split; reflexivity. Qed.



